(** * ArchiveBox configuration engine ([archivebox/config.py])

    A shallow embedding of the configuration resolver and of the config-file
    writer of [archivebox/config.py], with the properties of its
    specification stated and settled against it.

    Conventions of the embedding.
    - A Python [str] is a [string]; every character is one [ascii].  The
      methods of [str] ([PyStr]) are those of Python on ASCII strings;
      where a statement depends on them, it is made of ASCII strings
      ([PyStr.is_ascii]).
    - The file system holds the bytes of each file; a file opened in text
      mode is read with universal newlines ([universal_newlines]) and
      written as it is (the line separator of the platform is a line
      feed).
    - A Python [dict] whose iteration order matters (the declaration tables,
      the sections of a [ConfigParser], the assignments handed to the
      writer) is an association list; the resolved snapshot, the process
      environment, the flattened config-file variables and the file system
      are finite maps ([gmap]).
    - A call that may raise returns a [result]; code that also changes the
      file system runs in the state-and-exception monad [IO]. *)

From Stdlib Require Import ZArith String Ascii List Bool.
From stdpp Require Import gmap strings list fin_maps.

Local Open Scope string_scope.
Local Open Scope Z_scope.

(** ** Python strings *)

Module PyStr.

Definition code (c : ascii) : nat := nat_of_ascii c.

(** [str.lower] on the ASCII letters. *)
Definition lower_char (c : ascii) : ascii :=
  if (Nat.leb 65 (code c) && Nat.leb (code c) 90)%bool
  then ascii_of_nat (code c + 32) else c.

Fixpoint lower (s : string) : string :=
  match s with
  | EmptyString => EmptyString
  | String c r => String (lower_char c) (lower r)
  end.

Definition upper_char (c : ascii) : ascii :=
  if (Nat.leb 97 (code c) && Nat.leb (code c) 122)%bool
  then ascii_of_nat (code c - 32) else c.

Fixpoint upper (s : string) : string :=
  match s with
  | EmptyString => EmptyString
  | String c r => String (upper_char c) (upper r)
  end.

(** The characters [str.strip] removes: tab, line feed, vertical tab,
    form feed, carriage return, the four separators 0x1c-0x1f, space. *)
Definition is_space (c : ascii) : bool :=
  ((Nat.leb 9 (code c) && Nat.leb (code c) 13)
   || (Nat.leb 28 (code c) && Nat.leb (code c) 32))%bool.

Fixpoint lstrip (s : string) : string :=
  match s with
  | EmptyString => EmptyString
  | String c r => if is_space c then lstrip r else s
  end.

Fixpoint rev_onto (s acc : string) : string :=
  match s with
  | EmptyString => acc
  | String c r => rev_onto r (String c acc)
  end.

Definition rev (s : string) : string := rev_onto s EmptyString.

Definition strip (s : string) : string := rev (lstrip (rev (lstrip s))).

Definition is_digit (c : ascii) : bool :=
  (Nat.leb 48 (code c) && Nat.leb (code c) 57)%bool.

Fixpoint all_digits (s : string) : bool :=
  match s with
  | EmptyString => true
  | String c r => (is_digit c && all_digits r)%bool
  end.

(** [str.isdigit]: at least one character, all of them digits. *)
Definition isdigit (s : string) : bool :=
  match s with
  | EmptyString => false
  | _ => all_digits s
  end.

Fixpoint int_acc (s : string) (acc : Z) : Z :=
  match s with
  | EmptyString => acc
  | String c r => int_acc r (10 * acc + Z.of_nat (code c - 48))
  end.

(** [int(s)] on a string of digits. *)
Definition int (s : string) : Z := int_acc s 0.

Fixpoint startswith (p s : string) : bool :=
  match p, s with
  | EmptyString, _ => true
  | String a p', String b s' => (Ascii.eqb a b && startswith p' s')%bool
  | String _ _, EmptyString => false
  end.

(** [p in s]: [p] occurs in [s] as a substring. *)
Fixpoint contains (p s : string) : bool :=
  (startswith p s ||
   match s with
   | EmptyString => false
   | String _ s' => contains p s'
   end)%bool.

(** [x in (a, b, ...)] for strings. *)
Definition mem (x : string) (l : list string) : bool :=
  existsb (String.eqb x) l.

(** The character [c] occurs in [s]. *)
Fixpoint char_in (c : ascii) (s : string) : bool :=
  match s with
  | EmptyString => false
  | String x r => (Ascii.eqb c x || char_in c r)%bool
  end.


(** [s.isascii()] *)
Fixpoint is_ascii (s : string) : bool :=
  match s with
  | EmptyString => true
  | String c r => (Nat.ltb (code c) 128 && is_ascii r)%bool
  end.

(** [s.find(c)] for a character that occurs in [s], the length of [s]
    otherwise. *)
Fixpoint find_char (c : ascii) (s : string) : nat :=
  match s with
  | EmptyString => O
  | String x r => if Ascii.eqb c x then O else S (find_char c r)
  end.

End PyStr.

(** ** Values, exceptions, results *)

(** The values a configuration key can hold.  [PList] and [PDict] are what
    [json.loads] builds from arrays and objects; [PFloat] keeps the literal
    of a JSON number with a fraction or an exponent; [PObj] stands for any
    other Python object (a [Path], a compiled pattern, a function), named by
    a description. *)
#[warnings="-register-all"]
Inductive PyVal : Type :=
| PNone
| PBool (b : bool)
| PInt (z : Z)
| PFloat (literal : string)
| PStr (s : string)
| PList (items : list PyVal)
| PDict (items : list (string * PyVal))
| PObj (repr : string).

Inductive exn : Type :=
| UnboundLocalError (name : string)
| AssertionError
| ValueError (msg : string)
| IntegerStringTooLong (digits : nat)
| JSONDecodeError
| RecursionError
| IndexError
| KeyError (key : string)
| KeyboardInterrupt
| SystemExit (status : Z)
| ConfigParserError
| InvalidInterpolationSyntax (value : string) (position : nat)
| InterpolationSyntaxError (option_name section : string)
| InterpolationMissingOptionError (option_name section reference : string)
| InterpolationDepthError (option_name section : string)
| FileNotFoundError (path : string)
| TypeError
| AttributeError
| Exception (msg : string)
| Raised (what : string).

(** [JSONDecodeError] is a subclass of [ValueError].
    [IntegerStringTooLong] is the [ValueError] that [int] raises on a
    string of more digits than [sys.get_int_max_str_digits()] ("Exceeds
    the limit (4300 digits) for integer string conversion: value has
    <digits> digits").  [InvalidInterpolationSyntax] is the [ValueError]
    that [configparser] raises when a value with a stray [%] is set
    ("invalid interpolation syntax in <value> at position <position>");
    the three [Interpolation...] errors are those it raises when a value
    is read. *)
Definition is_ValueError (e : exn) : bool :=
  match e with
  | ValueError _ | IntegerStringTooLong _ | JSONDecodeError
  | InvalidInterpolationSyntax _ _ => true
  | _ => false
  end.

Inductive result (A : Type) : Type :=
| Ok (a : A)
| Raise (e : exn).
Arguments Ok {A} a.
Arguments Raise {A} e.

Definition is_Ok {A} (r : result A) : bool :=
  match r with Ok _ => true | Raise _ => false end.

Definition rbind {A B} (r : result A) (k : A -> result B) : result B :=
  match r with
  | Ok a => k a
  | Raise e => Raise e
  end.

(** [int(s)] on a string of digits: the conversion is refused for more
    digits than the limit of the interpreter, leading zeros counted. *)
Definition int_max_str_digits : nat := 4300.

Definition int_of_digits (s : string) : result Z :=
  if Nat.ltb int_max_str_digits (String.length s)
  then Raise (IntegerStringTooLong (String.length s))
  else Ok (PyStr.int s).

(** A list of strings, as a value. *)
Definition is_str_list (v : PyVal) : bool :=
  match v with
  | PList l =>
      forallb (fun x => match x with PStr _ => true | _ => false end) l
  | _ => false
  end.

Abbreviation ConfigDict := (gmap string PyVal).
Abbreviation StrDict := (gmap string string).

(** ** [json.loads] and [json.dumps]

    The decoder of the standard library, as the resolver uses it (default
    arguments, strict mode): leading and trailing blanks are skipped, one
    value is read, anything left over is an error.  Integers become
    [PInt], unless [int] refuses their digits; numbers with a fraction or
    an exponent, and the constants [NaN], [Infinity] and [-Infinity],
    become [PFloat] with their literal; a [\uXXXX] escape becomes the
    UTF-8 bytes of its character.  A text that is not JSON raises
    [JSONDecodeError]; arrays and objects nested deeper than the
    interpreter allows raise [RecursionError]. *)

Module Json.

Definition dq : ascii := "034"%char.
Definition backslash : ascii := "092"%char.

Definition is_ws (c : ascii) : bool :=
  (Ascii.eqb c " " || Ascii.eqb c "009" || Ascii.eqb c "010"
   || Ascii.eqb c "013")%bool.

Fixpoint skip_ws (s : string) : string :=
  match s with
  | String c r => if is_ws c then skip_ws r else s
  | EmptyString => EmptyString
  end.

Fixpoint strip_prefix (p s : string) : option string :=
  match p, s with
  | EmptyString, _ => Some s
  | String a p', String b s' =>
      if Ascii.eqb a b then strip_prefix p' s' else None
  | String _ _, EmptyString => None
  end.

(** What the scanner expected is not there. *)
Definition expecting {A} (x : option A) : result A :=
  match x with
  | Some a => Ok a
  | None => Raise JSONDecodeError
  end.

(** *** Strings *)

Definition hexval (c : ascii) : option N :=
  let n := N_of_ascii c in
  if (N.leb 48 n && N.leb n 57)%bool then Some (n - 48)%N
  else if (N.leb 65 n && N.leb n 70)%bool then Some (n - 55)%N
  else if (N.leb 97 n && N.leb n 102)%bool then Some (n - 87)%N
  else None.

Definition hex4 (a b c d : ascii) : option N :=
  match hexval a, hexval b, hexval c, hexval d with
  | Some x, Some y, Some z, Some w =>
      Some (((x * 16 + y) * 16 + z) * 16 + w)%N
  | _, _, _, _ => None
  end.

Definition byte (n : N) : string := String (ascii_of_N n) EmptyString.

(** [chr(cp)], as UTF-8. *)
Definition chr (cp : N) : string :=
  if (cp <? 128)%N then byte cp
  else if (cp <? 2048)%N then
    byte (192 + cp / 64) ++ byte (128 + cp mod 64)
  else if (cp <? 65536)%N then
    byte (224 + cp / 4096) ++ byte (128 + (cp / 64) mod 64)
    ++ byte (128 + cp mod 64)
  else
    byte (240 + cp / 262144) ++ byte (128 + (cp / 4096) mod 64)
    ++ byte (128 + (cp / 64) mod 64) ++ byte (128 + cp mod 64).

Definition is_high (u : N) : bool := (N.leb 55296 u && N.leb u 56319)%bool.
Definition is_low (u : N) : bool := (N.leb 56320 u && N.leb u 57343)%bool.

Definition pair_up (hi lo : N) : N :=
  (65536 + ((hi - 55296) * 1024 + (lo - 56320)))%N.

(** The one-letter escapes ([BACKSLASH] in [json.decoder]). *)
Definition unescape (e : ascii) : option ascii :=
  if Ascii.eqb e dq then Some dq
  else if Ascii.eqb e backslash then Some backslash
  else if Ascii.eqb e "/" then Some "/"%char
  else if Ascii.eqb e "b" then Some "008"%char
  else if Ascii.eqb e "f" then Some "012"%char
  else if Ascii.eqb e "n" then Some "010"%char
  else if Ascii.eqb e "r" then Some "013"%char
  else if Ascii.eqb e "t" then Some "009"%char
  else None.

Definition prepend (p : string) (x : option (string * string))
  : option (string * string) :=
  match x with
  | Some (t, rest) => Some (p ++ t, rest)
  | None => None
  end.

(** [scanstring], started after the opening quote: the decoded string
    and what follows the closing quote. *)
Fixpoint scanstring (s : string) : option (string * string) :=
  match s with
  | EmptyString => None
  | String c r =>
      if Ascii.eqb c dq then Some (EmptyString, r)
      else if Ascii.eqb c backslash then
        match r with
        | EmptyString => None
        | String e r2 =>
            if Ascii.eqb e "u" then
              match r2 with
              | String h1 (String h2 (String h3 (String h4 r3))) =>
                  match hex4 h1 h2 h3 h4 with
                  | None => None
                  | Some uni =>
                      match r3 with
                      | String b (String u (String g1 (String g2
                          (String g3 (String g4 r4))))) =>
                          match hex4 g1 g2 g3 g4 with
                          | Some uni2 =>
                              if (is_high uni && Ascii.eqb b backslash
                                  && Ascii.eqb u "u" && is_low uni2)%bool
                              then prepend (chr (pair_up uni uni2))
                                           (scanstring r4)
                              else prepend (chr uni) (scanstring r3)
                          | None => prepend (chr uni) (scanstring r3)
                          end
                      | _ => prepend (chr uni) (scanstring r3)
                      end
                  end
              | _ => None
              end
            else
              match unescape e with
              | Some ch => prepend (String ch EmptyString) (scanstring r2)
              | None => None
              end
        end
      else if Nat.ltb (nat_of_ascii c) 32 then None
      else prepend (String c EmptyString) (scanstring r)
  end.

(** *** Numbers: an optional minus sign, an integer part without a
    leading zero, an optional fraction, an optional exponent. *)

Fixpoint span_digits (s : string) : string * string :=
  match s with
  | String c r =>
      if PyStr.is_digit c
      then let '(d, rest) := span_digits r in (String c d, rest)
      else (EmptyString, s)
  | EmptyString => (EmptyString, EmptyString)
  end.

Definition scan_int (s : string) : option (string * string) :=
  match s with
  | String c r =>
      if Ascii.eqb c "0" then Some ("0", r)
      else if PyStr.is_digit c then Some (span_digits s)
      else None
  | EmptyString => None
  end.

Definition scan_frac (s : string) : string * string :=
  match s with
  | String c r =>
      if Ascii.eqb c "." then
        match span_digits r with
        | (EmptyString, _) => (EmptyString, s)
        | (d, rest) => (String c d, rest)
        end
      else (EmptyString, s)
  | EmptyString => (EmptyString, s)
  end.

Definition scan_exp (s : string) : string * string :=
  match s with
  | String e r =>
      if (Ascii.eqb e "e" || Ascii.eqb e "E")%bool then
        let '(sign, r') :=
          match r with
          | String g r1 =>
              if (Ascii.eqb g "+" || Ascii.eqb g "-")%bool
              then (String g EmptyString, r1) else (EmptyString, r)
          | EmptyString => (EmptyString, r)
          end in
        match span_digits r' with
        | (EmptyString, _) => (EmptyString, s)
        | (d, rest) => (String e (sign ++ d), rest)
        end
      else (EmptyString, s)
  | EmptyString => (EmptyString, s)
  end.

(** [_match_number]: the literal at the head of [s], converted, and
    what follows it; [None] where no number starts.  The sign is no
    digit for [int]. *)
Definition scan_number (s : string) : option (result PyVal * string) :=
  let '(sign, s1) :=
    match s with
    | String c r => if Ascii.eqb c "-" then ("-", r) else (EmptyString, s)
    | EmptyString => (EmptyString, s)
    end in
  match scan_int s1 with
  | None => None
  | Some (i, s2) =>
      let '(frac, s3) := scan_frac s2 in
      let '(ex, s4) := scan_exp s3 in
      match frac, ex with
      | EmptyString, EmptyString =>
          Some (rbind (int_of_digits i)
                  (fun z => Ok (PInt (if String.eqb sign "-" then - z
                                      else z))),
                s4)
      | _, _ => Some (Ok (PFloat (sign ++ i ++ frac ++ ex)), s4)
      end
  end.

(** *** Arrays and objects *)

Section Containers.
Variable scan_once : string -> result (PyVal * string).

(** The loop of [JSONArray], entered in front of a value; [n] is no
    less than the number of characters left. *)
Fixpoint array_items (n : nat) (s : string)
  : result (list PyVal * string) :=
  match n with
  | O => Raise JSONDecodeError
  | S n' =>
      rbind (scan_once s) (fun '(v, r) =>
        match skip_ws r with
        | String c r' =>
            if Ascii.eqb c "]" then Ok ([v], r')
            else if Ascii.eqb c "," then
              rbind (array_items n' (skip_ws r'))
                    (fun '(vs, r'') => Ok (v :: vs, r''))
            else Raise JSONDecodeError
        | EmptyString => Raise JSONDecodeError
        end)
  end.

(** [JSONArray], started after the bracket. *)
Definition parse_array (n : nat) (s : string)
  : result (PyVal * string) :=
  match skip_ws s with
  | String c r =>
      if Ascii.eqb c "]" then Ok (PList [], r)
      else
        rbind (array_items n (skip_ws s))
              (fun '(vs, r') => Ok (PList vs, r'))
  | EmptyString => Raise JSONDecodeError
  end.

(** [dict(pairs)]: a later pair replaces the value of an earlier one
    with the same key and keeps its place. *)
Fixpoint dict_set (k : string) (v : PyVal) (d : list (string * PyVal))
  : list (string * PyVal) :=
  match d with
  | [] => [(k, v)]
  | (k', v') :: d' =>
      if String.eqb k k' then (k', v) :: d'
      else (k', v') :: dict_set k v d'
  end.

(** The loop of [JSONObject], entered after the quote that opens a
    key; [acc] holds the pairs read so far. *)
Fixpoint object_items (n : nat) (s : string)
  (acc : list (string * PyVal)) : result (PyVal * string) :=
  match n with
  | O => Raise JSONDecodeError
  | S n' =>
      rbind (expecting (scanstring s)) (fun '(key, r) =>
        match skip_ws r with
        | String c r1 =>
            if Ascii.eqb c ":" then
              rbind (scan_once (skip_ws r1)) (fun '(v, r2) =>
                let acc' := dict_set key v acc in
                match skip_ws r2 with
                | String d r3 =>
                    if Ascii.eqb d "}" then Ok (PDict acc', r3)
                    else if Ascii.eqb d "," then
                      match skip_ws r3 with
                      | String q r4 =>
                          if Ascii.eqb q dq
                          then object_items n' r4 acc'
                          else Raise JSONDecodeError
                      | EmptyString => Raise JSONDecodeError
                      end
                    else Raise JSONDecodeError
                | EmptyString => Raise JSONDecodeError
                end)
            else Raise JSONDecodeError
        | EmptyString => Raise JSONDecodeError
        end)
  end.

(** [JSONObject], started after the brace. *)
Definition parse_object (n : nat) (s : string)
  : result (PyVal * string) :=
  match skip_ws s with
  | String c r =>
      if Ascii.eqb c "}" then Ok (PDict [], r)
      else if Ascii.eqb c dq then object_items n r []
      else Raise JSONDecodeError
  | EmptyString => Raise JSONDecodeError
  end.
End Containers.

Definition constant (lit : string) (v : PyVal) (s : string)
  : result (PyVal * string) :=
  rbind (expecting (strip_prefix lit s)) (fun r => Ok (v, r)).

(** [scan_once]: one value at the head of [s]; [depth] is how many
    arrays and objects may still be entered, one inside the other. *)
Fixpoint scan_once (depth : nat) (s : string) {struct depth}
  : result (PyVal * string) :=
  match s with
  | EmptyString => Raise JSONDecodeError
  | String c r =>
      if Ascii.eqb c dq then
        rbind (expecting (scanstring r)) (fun '(t, r') => Ok (PStr t, r'))
      else if Ascii.eqb c "{" then
        match depth with
        | O => Raise RecursionError
        | S deeper => parse_object (scan_once deeper) (String.length s) r
        end
      else if Ascii.eqb c "[" then
        match depth with
        | O => Raise RecursionError
        | S deeper => parse_array (scan_once deeper) (String.length s) r
        end
      else if Ascii.eqb c "n" then constant "null" PNone s
      else if Ascii.eqb c "t" then constant "true" (PBool true) s
      else if Ascii.eqb c "f" then constant "false" (PBool false) s
      else
        match scan_number s with
        | Some (number, r') => rbind number (fun v => Ok (v, r'))
        | None =>
            if Ascii.eqb c "N" then constant "NaN" (PFloat "NaN") s
            else if Ascii.eqb c "I"
            then constant "Infinity" (PFloat "Infinity") s
            else if Ascii.eqb c "-"
            then constant "-Infinity" (PFloat "-Infinity") s
            else Raise JSONDecodeError
        end
  end.

(** The depth the decoder has: [sys.getrecursionlimit()], less the
    frames that are on the stack when it is called, which the embedding
    does not count.  A text nested deeper than [recursion_limit] raises
    [RecursionError] here as in the interpreter; one nested to within a
    few dozen levels of it is decoded here and may raise there. *)
Definition recursion_limit : nat := 1000.

(** [json.loads(s)]. *)
Definition loads (s : string) : result PyVal :=
  rbind (scan_once recursion_limit (skip_ws s)) (fun '(v, r) =>
    match skip_ws r with
    | EmptyString => Ok v
    | String _ _ => Raise JSONDecodeError
    end).

(** *** [json.dumps] on strings and lists of strings *)

Definition hexdigit (n : nat) : ascii :=
  ascii_of_nat (if Nat.ltb n 10 then 48 + n else 87 + n).

(** [ESCAPE_ASCII]: a character from the space to the tilde stands for
    itself, the quote and the backslash apart; the others are written
    with a backslash. *)
Definition escape_char (c : ascii) : string :=
  let n := nat_of_ascii c in
  if Ascii.eqb c dq then String backslash (String dq EmptyString)
  else if Ascii.eqb c backslash
  then String backslash (String backslash EmptyString)
  else if Ascii.eqb c "010" then String backslash "n"
  else if Ascii.eqb c "013" then String backslash "r"
  else if Ascii.eqb c "009" then String backslash "t"
  else if Ascii.eqb c "012" then String backslash "f"
  else if Ascii.eqb c "008" then String backslash "b"
  else if (Nat.ltb n 32 || Nat.ltb 126 n)%bool
  then String backslash
         (String "u" (String "0" (String "0"
            (String (hexdigit (n / 16))
               (String (hexdigit (n mod 16)) EmptyString)))))
  else String c EmptyString.

Fixpoint escape (s : string) : string :=
  match s with
  | EmptyString => EmptyString
  | String c r => escape_char c ++ escape r
  end.

(** [json.dumps(s)] for a string. *)
Definition quote (s : string) : string :=
  String dq (escape s ++ String dq EmptyString).

Fixpoint join_items (l : list string) : string :=
  match l with
  | [] => EmptyString
  | [x] => quote x
  | x :: l' => quote x ++ ", " ++ join_items l'
  end.

(** [json.dumps(l)] for a list of strings. *)
Definition dumps_strs (l : list string) : string :=
  "[" ++ join_items l ++ "]".

(** A character that can start a JSON value. *)
Definition starts_value (c : ascii) : bool :=
  (PyStr.is_digit c || PyStr.char_in c "-[{ntfNI"
   || Ascii.eqb c dq)%bool.

End Json.

(** ** Truth values *)

Module PyFloat.

(** The number a literal stands for, its sign apart: [(m, e)] for
    [m * 10 ^ e].  The constants [NaN], [Infinity] and [-Infinity] have
    no digits. *)
Definition parts (literal : string) : option (Z * Z) :=
  let unsigned :=
    match literal with
    | String c r => if Ascii.eqb c "-" then r else literal
    | EmptyString => literal
    end in
  let '(int_part, s1) := Json.span_digits unsigned in
  match int_part with
  | EmptyString => None
  | _ =>
      let '(frac, s2) :=
        match s1 with
        | String c r =>
            if Ascii.eqb c "." then Json.span_digits r else (EmptyString, s1)
        | EmptyString => (EmptyString, s1)
        end in
      let exponent :=
        match s2 with
        | String _ (String g d) =>
            if Ascii.eqb g "-" then - PyStr.int d
            else if Ascii.eqb g "+" then PyStr.int d
            else PyStr.int (String g d)
        | _ => 0
        end in
      Some (PyStr.int (int_part ++ frac),
            exponent - Z.of_nat (String.length frac))
  end.

(** [float(literal) == 0.0]: the digits are all zero, or the number is
    no more than half the least positive double, [2 ^ -1075], and is
    rounded to zero. *)
Definition is_zero (literal : string) : bool :=
  match parts literal with
  | Some (m, e) =>
      ((m =? 0) || ((e <? 0) && (m * 2 ^ 1075 <=? 10 ^ (- e))))%bool
  | None => false
  end.

End PyFloat.

(** Python truthiness of a value ([bool(v)]). *)
Definition truthy (v : PyVal) : bool :=
  match v with
  | PNone => false
  | PBool b => b
  | PInt z => negb (z =? 0)
  | PFloat literal => negb (PyFloat.is_zero literal)
  | PStr s => negb (String.eqb s EmptyString)
  | PList l => match l with [] => false | _ => true end
  | PDict d => match d with [] => false | _ => true end
  | PObj _ => true
  end.

(** ** Key declarations *)

(** The [type] field of a declaration.  [TOther] is any Python type other
    than the four the resolver knows. *)
Inductive ConfigType : Type :=
| TBool | TStr | TInt | TList | TOther (name : string).

(** The [default] field: a value, or a function of the snapshot resolved so
    far ([callable(default)]). *)
Inductive ConfigDefaultValue : Type :=
| Static (v : PyVal)
| Callable (f : ConfigDict -> result PyVal).

(** One declaration; [d_type] and [d_aliases] are [None] where the
    declaration has no such field ([default.get('type')]). *)
Record ConfigDefault : Type := {
  d_type : option ConfigType;
  d_default : ConfigDefaultValue;
  d_aliases : option (list string)
}.

(** A declaration table: an ordered dict from key to declaration. *)
Abbreviation ConfigDefaultDict := (list (string * ConfigDefault)).

(** ** [load_config_val] *)

(** The local variable [val]: not assigned yet, or bound to the outcome of
    a [dict.get] ([None] or a string). *)
Inductive local : Type :=
| Unbound
| Bound (v : option string).

(** [if val:] *)
Definition found (val : local) : bool :=
  match val with
  | Bound (Some s) => negb (String.eqb s EmptyString)
  | _ => false
  end.

(** [if env_vars:] on an optional mapping: present and not empty. *)
Definition dict_truthy (d : option StrDict) : bool :=
  match d with
  | Some m => negb (bool_decide (m = ∅))
  | None => false
  end.

Definition dict_get (d : option StrDict) (key : string) : option string :=
  match d with
  | Some m => m !! key
  | None => None
  end.

(** The [for key in config_keys_to_check] loop.  It rebinds [key] and
    [val]; both survive the loop. *)
Fixpoint probe (config_keys_to_check : list string)
    (env_vars config_file_vars : option StrDict)
    (key : string) (val : local) : string * local :=
  match config_keys_to_check with
  | [] => (key, val)
  | key :: rest =>
      let val := if dict_truthy env_vars
                 then Bound (dict_get env_vars key) else val in
      if (dict_truthy env_vars && found val)%bool then (key, val)
      else
        let val := if dict_truthy config_file_vars
                   then Bound (dict_get config_file_vars key) else val in
        if (dict_truthy config_file_vars && found val)%bool then (key, val)
        else probe rest env_vars config_file_vars key val
  end.

(** No non-empty value under [name] in either mapping. *)
Definition not_found (env_vars config_file_vars : option StrDict)
    (name : string) : Prop :=
  found (Bound (dict_get env_vars name)) = false
  /\ found (Bound (dict_get config_file_vars name)) = false.

(** The lookup that binds [val] last when the loop runs to its end: in
    the config file when that mapping is not empty, in the environment
    otherwise. *)
Definition last_lookup (env_vars config_file_vars : option StrDict)
    (name : string) : option string :=
  if dict_truthy config_file_vars then dict_get config_file_vars name
  else dict_get env_vars name.

Definition invalid_option (key val expected : string) : exn :=
  ValueError ("Invalid configuration option " ++ key ++ "=" ++ val
              ++ " (expected " ++ expected ++ ")").

(** The [elif] chain of [load_config_val]: what becomes of a string [val]
    found under the name [key], by the declared type. *)
Definition coerce (key val : string) (t : ConfigType) : result PyVal :=
  match t with
  | TBool =>
      if PyStr.mem (PyStr.lower val) ["true"; "yes"; "1"]
      then Ok (PBool true)
      else if PyStr.mem (PyStr.lower val) ["false"; "no"; "0"]
      then Ok (PBool false)
      else Raise (invalid_option key val "a boolean: True/False")
  | TStr =>
      if PyStr.mem (PyStr.lower val)
           ["true"; "false"; "yes"; "no"; "1"; "0"]
      then Raise (invalid_option key val "a string")
      else Ok (PStr (PyStr.strip val))
  | TInt =>
      if negb (PyStr.isdigit val)
      then Raise (invalid_option key val "an integer")
      else rbind (int_of_digits val) (fun z => Ok (PInt z))
  | TList => Json.loads val
  | TOther _ =>
      Raise (Exception "Config values can only be str, bool, int or json")
  end.

(** [default(config)] when the default is a function (after the assertion
    that [config] is a dict), the default itself otherwise. *)
Definition use_default (default : ConfigDefaultValue)
    (config : option ConfigDict) : result PyVal :=
  match default with
  | Callable f =>
      match config with
      | Some c => f c
      | None => Raise AssertionError
      end
  | Static v => Ok v
  end.

Definition load_config_val (key : string) (default : ConfigDefaultValue)
    (type : option ConfigType) (aliases : option (list string))
    (config : option ConfigDict)
    (env_vars config_file_vars : option StrDict) : result PyVal :=
  let config_keys_to_check :=
    key :: match aliases with Some a => a | None => [] end in
  let '(key, val) :=
    probe config_keys_to_check env_vars config_file_vars key Unbound in
  match type with
  | None => use_default default config
  | Some t =>
      match val with
      | Unbound => Raise (UnboundLocalError "val")
      | Bound None => use_default default config
      | Bound (Some val) => coerce key val t
      end
  end.

(** ** The process: environment and file system *)

Record World : Type := {
  environ : StrDict;
  files : StrDict
}.

Definition set_files (w : World) (fs : StrDict) : World :=
  {| environ := environ w; files := fs |}.

(** Code with effects on the file system: a state-and-exception monad. *)
Definition IO (A : Type) : Type := World -> result A * World.

Definition io_ret {A} (a : A) : IO A := fun w => (Ok a, w).

Definition io_bind {A B} (m : IO A) (k : A -> IO B) : IO B :=
  fun w =>
    match m w with
    | (Ok a, w') => k a w'
    | (Raise e, w') => (Raise e, w')
    end.

Declare Scope io_scope.
Delimit Scope io_scope with io.
Notation "x <- m ;; k" := (io_bind m (fun x => k))
  (at level 20, m at level 99, k at level 200, only parsing) : io_scope.
Notation "m ;; k" := (io_bind m (fun _ => k))
  (at level 100, k at level 200, only parsing, right associativity)
  : io_scope.

Definition io_raise {A} (e : exn) : IO A := fun w => (Raise e, w).

Definition io_lift {A} (r : result A) : IO A := fun w => (r, w).

(** A computation that only reads the process state. *)
Definition io_read {A} (f : World -> result A) : IO A := fun w => (f w, w).

(** [try: m except: h] with a bare [except]. *)
Definition io_try {A} (m : IO A) (h : IO A) : IO A :=
  fun w =>
    match m w with
    | (Ok a, w') => (Ok a, w')
    | (Raise _, w') => h w'
    end.

Definition path_exists (p : string) : IO bool :=
  fun w => (Ok (bool_decide (is_Some (files w !! p))), w).

(** The text of a file opened in text mode: a carriage return, with the
    line feed that follows it if there is one, is read as a line feed. *)
Fixpoint universal_newlines (s : string) : string :=
  match s with
  | EmptyString => EmptyString
  | String c r =>
      if Ascii.eqb c "013" then
        String "010"
          (match r with
           | String d r' =>
               if Ascii.eqb d "010" then universal_newlines r'
               else universal_newlines r
           | EmptyString => EmptyString
           end)
      else String c (universal_newlines r)
  end.

(** [open(p, 'r').read()] *)
Definition read_text (p : string) : IO string :=
  fun w =>
    match files w !! p with
    | Some c => (Ok (universal_newlines c), w)
    | None => (Raise (FileNotFoundError p), w)
    end.

(** [open(p, 'w+')] followed by a write of [c]. *)
Definition write_text (p c : string) : IO unit :=
  fun w => (Ok tt, set_files w (<[p := c]> (files w))).

(** Modelled from the spec: [atomic_write] of [archivebox/system.py],
    which is not among the sources.  The writer "writes atomically": after
    the call the file at [p] holds exactly [c], whether it existed or not. *)
Definition atomic_write (p c : string) : IO unit :=
  fun w => (Ok tt, set_files w (<[p := c]> (files w))).

(** [os.remove(p)] *)
Definition os_remove (p : string) : IO unit :=
  fun w =>
    match files w !! p with
    | Some _ => (Ok tt, set_files w (delete p (files w)))
    | None => (Raise (FileNotFoundError p), w)
    end.

(** ** Ordered dicts of strings and [ConfigParser] *)

Abbreviation odict := (list (string * string)).

Fixpoint od_get (d : odict) (k : string) : option string :=
  match d with
  | [] => None
  | (k', v) :: d' => if String.eqb k k' then Some v else od_get d' k
  end.

Definition od_mem (d : odict) (k : string) : bool :=
  match od_get d k with Some _ => true | None => false end.

(** [d[k] = v]: the value is replaced in place, a new key goes last. *)
Fixpoint od_set (d : odict) (k v : string) : odict :=
  match d with
  | [] => [(k, v)]
  | (k', v') :: d' =>
      if String.eqb k k' then (k', v) :: d' else (k', v') :: od_set d' k v
  end.

(** The state of a [ConfigParser] with [optionxform = str]: the options of
    the default section and the other sections in file order, with the
    values as the file spells them (raw). *)
Record ConfigParser : Type := {
  cp_defaults : odict;
  cp_sections : list (string * odict)
}.

Definition DEFAULTSECT : string := "DEFAULT".

Fixpoint sect_get (l : list (string * odict)) (name : string)
  : option odict :=
  match l with
  | [] => None
  | (n, d) :: l' => if String.eqb name n then Some d else sect_get l' name
  end.

Fixpoint sect_set (l : list (string * odict)) (name : string) (d : odict)
  : list (string * odict) :=
  match l with
  | [] => [(name, d)]
  | (n, d') :: l' =>
      if String.eqb name n then (n, d) :: l'
      else (n, d') :: sect_set l' name d
  end.

(** [section in config_file] *)
Definition cp_has_section (cp : ConfigParser) (name : string) : bool :=
  (String.eqb name DEFAULTSECT
   || match sect_get (cp_sections cp) name with
      | Some _ => true | None => false
      end)%bool.

(** The options a section shows, with their raw values: its own, then
    those of the default section that it does not define
    ([parser.options(section)], and the [ChainMap] that [parser.get]
    looks a name up in). *)
Definition raw_options (cp : ConfigParser) (name : string) : odict :=
  if String.eqb name DEFAULTSECT then cp_defaults cp
  else
    let own := match sect_get (cp_sections cp) name with
               | Some d => d | None => []
               end in
    own ++ filter (fun kv => negb (od_mem own (fst kv))) (cp_defaults cp).

(** The raw value of an option ([parser.get(section, key, raw=True)]),
    if the section shows the option. *)
Definition raw_get (cp : ConfigParser) (name key : string) : option string :=
  od_get (raw_options cp name) key.

(** [key in config_file[section]]: false for a section that is missing. *)
Definition cp_has_option (cp : ConfigParser) (name key : string) : bool :=
  if cp_has_section cp name then od_mem (raw_options cp name) key
  else false.

(** *** [BasicInterpolation] *)

Definition percent : ascii := "%"%char.

(** [_KEYCRE.match(s)], the pattern [%\(([^)]+)\)s] at the head of [s]:
    the name between the brackets and the text after the [s].
    [key_end] runs after the opening bracket. *)
Fixpoint key_end (s name : string) : option (string * string) :=
  match s with
  | EmptyString => None
  | String c r =>
      if Ascii.eqb c ")" then
        match name, r with
        | String _ _, String x r' =>
            if Ascii.eqb x "s" then Some (PyStr.rev name, r') else None
        | _, _ => None
        end
      else key_end r (String c name)
  end.

Definition key_reference (s : string) : option (string * string) :=
  match s with
  | String c (String b r) =>
      if (Ascii.eqb c percent && Ascii.eqb b "(")%bool
      then key_end r EmptyString else None
  | _ => None
  end.

(** [value.replace('%%', '')] *)
Fixpoint drop_escaped_percents (s : string) : string :=
  match s with
  | EmptyString => EmptyString
  | String c r =>
      match r with
      | String d r' =>
          if (Ascii.eqb c percent && Ascii.eqb d percent)%bool
          then drop_escaped_percents r'
          else String c (drop_escaped_percents r)
      | EmptyString => s
      end
  end.

(** [_KEYCRE.sub('', s)]: the references are cut out, from left to
    right; [skip] characters of the one being cut are still to pass. *)
Fixpoint drop_references (s : string) (skip : nat) : string :=
  match s with
  | EmptyString => EmptyString
  | String c r =>
      match skip with
      | S k => drop_references r k
      | O =>
          match key_reference s with
          | Some (name, _) => drop_references r (String.length name + 3)
          | None => String c (drop_references r O)
          end
      end
  end.

(** [before_set]: a value may hold [%] only doubled or at the head of a
    reference; the value itself is what is stored. *)
Definition before_set (value : string) : result string :=
  let tmp_value :=
    drop_references (drop_escaped_percents value) O in
  if PyStr.char_in percent tmp_value
  then Raise (InvalidInterpolationSyntax value
                (PyStr.find_char percent tmp_value))
  else Ok value.

(** The value as [RawConfigParser.set] stores it: an empty one is not
    looked at. *)
Definition checked (value : string) : result string :=
  if String.eqb value EmptyString then Ok value else before_set value.

Definition MAX_INTERPOLATION_DEPTH : nat := 10.

Section Interpolation.
(** The option that is read, its section, and the raw values a name
    stands for there. *)
Variables option_name section_name : string.
Variable map : string -> option string.

(** [_interpolate_some]: [levels] is what is left of the depth, the
    inner loop is the [while rest] loop, [skip] characters of a
    reference just replaced are still to pass. *)
Fixpoint interpolate_some (levels : nat) (rest : string) {struct levels}
  : result string :=
  match levels with
  | O => Raise (InterpolationDepthError option_name section_name)
  | S deeper =>
      (fix loop (rest : string) (skip : nat) {struct rest} : result string :=
         match rest with
         | EmptyString => Ok EmptyString
         | String c r =>
             match skip with
             | S k => loop r k
             | O =>
                 if Ascii.eqb c percent then
                   match r with
                   | String d _ =>
                       if Ascii.eqb d percent then
                         rbind (loop r 1%nat)
                               (fun t => Ok (String percent t))
                       else if Ascii.eqb d "(" then
                         match key_reference rest with
                         | None =>
                             Raise (InterpolationSyntaxError option_name section_name)
                         | Some (var, _) =>
                             match map var with
                             | None =>
                                 Raise (InterpolationMissingOptionError
                                          option_name section_name var)
                             | Some v =>
                                 rbind (if PyStr.char_in percent v
                                        then interpolate_some deeper v
                                        else Ok v)
                                   (fun expanded =>
                                      rbind (loop r (String.length var + 3)%nat)
                                            (fun t => Ok (expanded ++ t)))
                             end
                         end
                       else Raise (InterpolationSyntaxError option_name section_name)
                   | EmptyString =>
                       Raise (InterpolationSyntaxError option_name section_name)
                   end
                 else rbind (loop r O) (fun t => Ok (String c t))
             end
         end) rest O
  end.

(** [before_get] *)
Definition before_get (value : string) : result string :=
  interpolate_some MAX_INTERPOLATION_DEPTH value.

End Interpolation.

(** *** Reading and setting through the parser *)

(** [config_file[section][key]] on a section that exists. *)
Definition cp_get (cp : ConfigParser) (name key : string) : result string :=
  match raw_get cp name key with
  | Some raw => before_get key name (raw_get cp name) raw
  | None => Raise (KeyError key)
  end.

(** [dict(config_file[section])]: the options the section shows, each
    with its value read. *)
Fixpoint read_options (cp : ConfigParser) (name : string) (l : odict)
  : result odict :=
  match l with
  | [] => Ok []
  | (key, raw) :: l' =>
      rbind (before_get key name (raw_get cp name) raw)
            (fun v => rbind (read_options cp name l')
                            (fun d => Ok ((key, v) :: d)))
  end.

Definition cp_section_dict (cp : ConfigParser) (name : string)
  : result odict :=
  read_options cp name (raw_options cp name).

(** The values of a dict, checked in order as [read_dict] sets them. *)
Fixpoint check_values (d : odict) : result unit :=
  match d with
  | [] => Ok tt
  | (_, value) :: d' => rbind (checked value) (fun _ => check_values d')
  end.

(** The section emptied, or created last, and filled with [d], no value
    looked at. *)
Definition raw_set_section (cp : ConfigParser) (name : string) (d : odict)
  : ConfigParser :=
  if String.eqb name DEFAULTSECT
  then {| cp_defaults := d; cp_sections := cp_sections cp |}
  else {| cp_defaults := cp_defaults cp;
          cp_sections := sect_set (cp_sections cp) name d |}.

(** [config_file[section] = d]: the section is emptied, or created
    last, and the options of [d] are set one by one; a value that
    [before_set] refuses stops the assignment with its [ValueError]. *)
Definition cp_set_section (cp : ConfigParser) (name : string) (d : odict)
  : result ConfigParser :=
  rbind (check_values d) (fun _ => Ok (raw_set_section cp name d)).

Definition raw_set_option (cp : ConfigParser) (name key v : string)
  : ConfigParser :=
  if String.eqb name DEFAULTSECT
  then {| cp_defaults := od_set (cp_defaults cp) key v;
          cp_sections := cp_sections cp |}
  else
    match sect_get (cp_sections cp) name with
    | Some d =>
        {| cp_defaults := cp_defaults cp;
           cp_sections := sect_set (cp_sections cp) name (od_set d key v) |}
    | None => cp
    end.

(** [config_file[section][key] = v] on a section that exists. *)
Definition cp_set_option (cp : ConfigParser) (name key v : string)
  : result ConfigParser :=
  rbind (checked v) (fun _ => Ok (raw_set_option cp name key v)).

(** [config_file.items()] with each section's [options.items()]: the
    default section first, then the others, each seen through its
    proxy, the values read one after the other. *)
Fixpoint read_sections (cp : ConfigParser) (names : list string)
  : result (list (string * odict)) :=
  match names with
  | [] => Ok []
  | name :: names' =>
      rbind (cp_section_dict cp name)
            (fun d => rbind (read_sections cp names')
                            (fun l => Ok ((name, d) :: l)))
  end.

Definition cp_items (cp : ConfigParser) : result (list (string * odict)) :=
  read_sections cp (DEFAULTSECT :: map fst (cp_sections cp)).

(** ** Constants *)

Definition CONFIG_FILENAME : string := "ArchiveBox.conf".

Definition CONFIG_HEADER : string :=
"# This is the config file for your ArchiveBox collection.
#
# You can add options here manually in INI format, or automatically by running:
#    archivebox config --set KEY=VALUE
# 
# If you modify this file manually, make sure to update your archive after by running:
#    archivebox init
#
# A list of all possible config with documentation and examples can be found here:
#    https://github.com/pirate/ArchiveBox/wiki/Configuration

".

Definition placeholder : string := "not a valid secret".

(** ** The resolver and the writer *)

Section Engine.

(** [str(Path(p).resolve())]: depends on the working directory. *)
Variable resolve : string -> string.

(** [ConfigParser.read] on the text of a file, and [ConfigParser.write]:
    the reader and the printer of the standard library. *)
Variable cp_read : string -> result ConfigParser.
Variable cp_write : ConfigParser -> string.

(** The two declaration tables. *)
Variable CONFIG_DEFAULTS : list (string * ConfigDefaultDict).
Variable DERIVED_CONFIG_DEFAULTS : ConfigDefaultDict.

(** [Path(out_dir or Path(os.getenv('OUTPUT_DIR', '.')).resolve())
    / CONFIG_FILENAME] *)
Definition config_file_path (out_dir : option string) (w : World)
  : string :=
  let here := resolve (default "." (environ w !! "OUTPUT_DIR")) in
  let out_dir := match out_dir with
                 | Some d => if String.eqb d EmptyString then here else d
                 | None => here
                 end in
  out_dir ++ "/" ++ CONFIG_FILENAME.

(** The comprehension of [load_config_file]: every option of every
    section under its upper-cased name, a later one replacing an
    earlier one; a value that cannot be read stops it. *)
Definition flatten (config_file : ConfigParser) : result StrDict :=
  rbind (cp_items config_file) (fun items =>
    Ok (fold_left
          (fun vars section =>
             fold_left
               (fun vars kv => <[PyStr.upper (fst kv) := snd kv]> vars)
               (snd section) vars)
          items ∅)).

Definition load_config_file (out_dir : option string) (w : World)
  : result (option StrDict) :=
  let config_path := config_file_path out_dir w in
  match files w !! config_path with
  | Some bytes =>
      rbind (cp_read (universal_newlines bytes)) (fun config_file =>
        rbind (flatten config_file) (fun config_file_vars =>
          Ok (Some config_file_vars)))
  | None => Ok None
  end.

(** The loop of [load_config].  The handlers print and raise again; a
    [KeyboardInterrupt] becomes [SystemExit(0)]. *)
Fixpoint load_config_loop (defaults : ConfigDefaultDict)
    (extended_config : ConfigDict)
    (env_vars config_file_vars : option StrDict) : result ConfigDict :=
  match defaults with
  | [] => Ok extended_config
  | (key, default) :: rest =>
      match load_config_val key (d_default default) (d_type default)
              (d_aliases default) (Some extended_config)
              env_vars config_file_vars with
      | Ok v =>
          load_config_loop rest (<[key := v]> extended_config)
                           env_vars config_file_vars
      | Raise KeyboardInterrupt => Raise (SystemExit 0)
      | Raise e => Raise e
      end
  end.

Definition load_config (defaults : ConfigDefaultDict)
    (config : option ConfigDict) (out_dir : option string)
    (env_vars config_file_vars : option StrDict) (w : World)
  : result ConfigDict :=
  let env_vars :=
    if dict_truthy env_vars then env_vars else Some (environ w) in
  rbind (if dict_truthy config_file_vars then Ok config_file_vars
         else load_config_file out_dir w)
        (fun config_file_vars =>
           let extended_config :=
             match config with Some c => c | None => ∅ end in
           load_config_loop defaults extended_config
                            env_vars config_file_vars).

(** The loop of [load_all_config] over the sections. *)
Fixpoint load_sections (sections : list (string * ConfigDefaultDict))
    (CONFIG : ConfigDict) (w : World) : result ConfigDict :=
  match sections with
  | [] => Ok CONFIG
  | (_, section_config) :: rest =>
      rbind (load_config section_config (Some CONFIG) None None None w)
            (fun CONFIG => load_sections rest CONFIG w)
  end.

Definition load_all_config (w : World) : result ConfigDict :=
  rbind (load_sections CONFIG_DEFAULTS ∅ w)
        (fun CONFIG =>
           load_config DERIVED_CONFIG_DEFAULTS (Some CONFIG)
                       None None None w).

(** [key in opts] *)
Definition declares (opts : ConfigDefaultDict) (key : string) : bool :=
  existsb (fun kd => String.eqb key (fst kd)) opts.

(** [[name for name, opts in CONFIG_DEFAULTS.items() if key in opts][0]] *)
Definition find_section (key : string) : result string :=
  match filter (fun no => declares (snd no) key) CONFIG_DEFAULTS with
  | (name, _) :: _ => Ok name
  | [] => Raise IndexError
  end.

(** The loop over the assignments. *)
Fixpoint set_up_sections (config : odict) (config_file : ConfigParser)
  : result ConfigParser :=
  match config with
  | [] => Ok config_file
  | (key, val) :: rest =>
      rbind (find_section key) (fun section =>
        rbind (if cp_has_section config_file section
               then cp_section_dict config_file section else Ok [])
              (fun existing_config =>
                 rbind (cp_set_section config_file section
                                       (od_set existing_config key val))
                       (set_up_sections rest)))
  end.

(** [not existing_secret_key or 'not a valid secret' in
    existing_secret_key] *)
Definition needs_secret (existing_secret_key : option string) : bool :=
  match existing_secret_key with
  | None => true
  | Some k => (String.eqb k EmptyString || PyStr.contains placeholder k)%bool
  end.

(** [existing_secret_key], as the writer reads it from the parser. *)
Definition existing_secret_key (config_file : ConfigParser)
  : result (option string) :=
  if (cp_has_section config_file "SERVER_CONFIG"
      && cp_has_option config_file "SERVER_CONFIG" "SECRET_KEY")%bool
  then rbind (cp_get config_file "SERVER_CONFIG" "SECRET_KEY")
             (fun k => Ok (Some k))
  else Ok None.

(** The block that makes sure a [SECRET_KEY] is defined;
    [random_secret_key] is what [get_random_string(50, chars)] returns
    when it is called. *)
Definition ensure_secret_key (random_secret_key : string)
    (config_file : ConfigParser) : result ConfigParser :=
  rbind (existing_secret_key config_file) (fun existing =>
    if needs_secret existing then
      if cp_has_section config_file "SERVER_CONFIG"
      then cp_set_option config_file "SERVER_CONFIG" "SECRET_KEY"
                         random_secret_key
      else cp_set_section config_file "SERVER_CONFIG"
                          [("SECRET_KEY", random_secret_key)]
    else Ok config_file).

(** A parser state whose server section shows a secret key that is
    neither empty nor a placeholder. *)
Definition has_valid_secret (config_file : ConfigParser) : Prop :=
  cp_has_section config_file "SERVER_CONFIG" = true
  /\ exists k,
       cp_get config_file "SERVER_CONFIG" "SECRET_KEY" = Ok k
       /\ k <> EmptyString /\ PyStr.contains placeholder k = false.

(** [config_file.read(path)]: the file is read in text mode; a file
    that cannot be opened is skipped. *)
Definition cp_read_file (path : string) : IO ConfigParser :=
  fun w =>
    match files w !! path with
    | Some bytes => (cp_read (universal_newlines bytes), w)
    | None => (Ok {| cp_defaults := []; cp_sections := [] |}, w)
    end.

Definition bak (config_path : string) : string := config_path ++ ".bak".

(** What the config file holds when the writer has made sure there is
    one: the file as it is, or the header the writer creates it with. *)
Definition starting_bytes (out_dir : option string) (w : World) : string :=
  match files w !! config_file_path out_dir w with
  | Some c => c
  | None => CONFIG_HEADER
  end.

(** The text the writer starts from: that file, read in text mode. *)
Definition starting_text (out_dir : option string) (w : World) : string :=
  universal_newlines (starting_bytes out_dir w).

(** The file system once the backup has been written: the backup holds
    the text that was read. *)
Definition backed_up (out_dir : option string) (w : World) : StrDict :=
  <[bak (config_file_path out_dir w) := starting_text out_dir w]>
    (<[config_file_path out_dir w := starting_bytes out_dir w]> (files w)).

(** [write_config_file] up to and including the write of the new file:
    the parser state that was written. *)
Definition write_new_file (config : odict) (out_dir : option string)
    (random_secret_key : string) : IO ConfigParser :=
  (config_path <- io_read (fun w => Ok (config_file_path out_dir w)) ;;
   present <- path_exists config_path ;;
   (if present then io_ret tt
    else atomic_write config_path CONFIG_HEADER) ;;
   config_file <- cp_read_file config_path ;;
   old <- read_text config_path ;;
   atomic_write (bak config_path) old ;;
   config_file <- io_lift (set_up_sections config config_file) ;;
   config_file <- io_lift (ensure_secret_key random_secret_key
                                             config_file) ;;
   write_text config_path (cp_write config_file) ;;
   io_ret config_file)%io.

(** The dict returned on success: the requested keys, upper-cased, with
    [CONFIG.get] of each. *)
Definition requested (config : odict) (CONFIG : ConfigDict) : ConfigDict :=
  fold_left
    (fun out kv =>
       <[PyStr.upper (fst kv) :=
           default PNone (CONFIG !! PyStr.upper (fst kv))]> out)
    config ∅.

(** [write_config_file].  The [return] inside [try] leaves the function
    at once; the lines after the handler run only when the handler has
    run. *)
Definition write_config_file (config : odict) (out_dir : option string)
    (random_secret_key : string) : IO ConfigDict :=
  (config_path <- io_read (fun w => Ok (config_file_path out_dir w)) ;;
   write_new_file config out_dir random_secret_key ;;
   returned <-
     io_try
       (CONFIG <- io_read load_all_config ;;
        io_ret (Some (requested config CONFIG)))
       (old <- read_text (bak config_path) ;;
        atomic_write config_path old ;;
        io_ret None) ;;
   match returned with
   | Some applied => io_ret applied
   | None =>
       present <- path_exists (bak config_path) ;;
       (if present then os_remove (bak config_path)
        else io_ret tt) ;;
       io_ret ∅
   end)%io.

End Engine.

(** ** The declared keys *)

(** What the tables take from the process they run in: whether the
    standard output is a terminal, and the lambdas that look at the
    machine (paths, installed binaries, versions), by name of their key. *)
Record Host : Type := {
  stdout_isatty : bool;
  host_value : string -> ConfigDict -> result PyVal
}.

(** [c[key]] *)
Definition item (c : ConfigDict) (key : string) : result PyVal :=
  match c !! key with
  | Some v => Ok v
  | None => Raise (KeyError key)
  end.

(** [a and b], [a or b], [a if cond else b] on expressions that may
    raise; the right operand is looked at only when it is needed. *)
Definition and_ (a b : result PyVal) : result PyVal :=
  rbind a (fun x => if truthy x then b else Ok x).
Definition or_ (a b : result PyVal) : result PyVal :=
  rbind a (fun x => if truthy x then Ok x else b).
Definition if_else (a cond b : result PyVal) : result PyVal :=
  rbind cond (fun x => if truthy x then a else b).

Definition strs (l : list string) : PyVal := PList (map PStr l).

Definition opt (t : ConfigType) (v : PyVal) : ConfigDefault :=
  {| d_type := Some t; d_default := Static v; d_aliases := None |}.
Definition opt_alias (t : ConfigType) (v : PyVal) (a : string)
  : ConfigDefault :=
  {| d_type := Some t; d_default := Static v; d_aliases := Some [a] |}.
Definition opt_fn (t : ConfigType) (f : ConfigDict -> result PyVal)
  : ConfigDefault :=
  {| d_type := Some t; d_default := Callable f; d_aliases := None |}.
Definition derived (f : ConfigDict -> result PyVal) : ConfigDefault :=
  {| d_type := None; d_default := Callable f; d_aliases := None |}.

Definition esc (s : string) : string := String "027" s.

Definition DEFAULT_CLI_COLORS : list (string * PyVal) :=
  [ ("reset", PStr (esc "[00;00m"));
    ("lightblue", PStr (esc "[01;30m"));
    ("lightyellow", PStr (esc "[01;33m"));
    ("lightred", PStr (esc "[01;35m"));
    ("red", PStr (esc "[01;31m"));
    ("green", PStr (esc "[01;32m"));
    ("blue", PStr (esc "[01;34m"));
    ("white", PStr (esc "[01;37m"));
    ("black", PStr (esc "[01;30m")) ].

(** [s.split('+')[-1]] *)
Fixpoint after_last_plus (s cur : string) : string :=
  match s with
  | EmptyString => cur
  | String c r =>
      if Ascii.eqb c "+" then after_last_plus r EmptyString
      else after_last_plus r (cur ++ String c EmptyString)
  end.

(** [get_chrome_info] *)
Definition get_chrome_info (config : ConfigDict) : result PyVal :=
  rbind (item config "TIMEOUT") (fun a =>
  rbind (item config "RESOLUTION") (fun b =>
  rbind (item config "CHECK_SSL_VALIDITY") (fun c =>
  rbind (item config "CHROME_BINARY") (fun d =>
  rbind (item config "CHROME_HEADLESS") (fun e =>
  rbind (item config "CHROME_SANDBOX") (fun f =>
  rbind (item config "CHROME_USER_AGENT") (fun g =>
  rbind (item config "CHROME_USER_DATA_DIR") (fun h =>
  Ok (PDict [ ("TIMEOUT", a); ("RESOLUTION", b);
              ("CHECK_SSL_VALIDITY", c); ("CHROME_BINARY", d);
              ("CHROME_HEADLESS", e); ("CHROME_SANDBOX", f);
              ("CHROME_USER_AGENT", g);
              ("CHROME_USER_DATA_DIR", h) ]))))))))).

Module Tables.
Section Tables.
Variable host : Host.

Definition CONFIG_DEFAULTS : list (string * ConfigDefaultDict) :=
  [ ("SHELL_CONFIG",
     [ ("IS_TTY", opt_fn TBool (fun _ => Ok (PBool (stdout_isatty host))));
       ("USE_COLOR", opt_fn TBool (fun c => item c "IS_TTY"));
       ("SHOW_PROGRESS", opt_fn TBool (fun c => item c "IS_TTY"));
       ("IN_DOCKER", opt TBool (PBool false)) ]);
    ("GENERAL_CONFIG",
     [ ("OUTPUT_DIR", opt TStr PNone);
       ("CONFIG_FILE", opt TStr PNone);
       ("ONLY_NEW", opt TBool (PBool true));
       ("TIMEOUT", opt TInt (PInt 60));
       ("MEDIA_TIMEOUT", opt TInt (PInt 3600));
       ("OUTPUT_PERMISSIONS", opt TStr (PStr "755"));
       ("RESTRICT_FILE_NAMES", opt TStr (PStr "windows"));
       ("URL_BLACKLIST",
        opt TStr (PStr ("\.(css|js|otf|ttf|woff|woff2|gstatic\.com|googleapis\.com/css)(\?.*"
                        ++ ")?$"))) ]);
    ("SERVER_CONFIG",
     [ ("SECRET_KEY", opt TStr PNone);
       ("BIND_ADDR",
        opt_fn TStr (fun c =>
          rbind (item c "IN_DOCKER") (fun i =>
            match i with
            | PBool false | PInt 0 => Ok (PStr "127.0.0.1:8000")
            | PBool true | PInt 1 => Ok (PStr "0.0.0.0:8000")
            | PInt (-1) => Ok (PStr "0.0.0.0:8000")
            | PInt (-2) => Ok (PStr "127.0.0.1:8000")
            | PInt _ => Raise IndexError
            | _ => Raise TypeError
            end)));
       ("ALLOWED_HOSTS", opt TStr (PStr "*"));
       ("DEBUG", opt TBool (PBool false));
       ("PUBLIC_INDEX", opt TBool (PBool true));
       ("PUBLIC_SNAPSHOTS", opt TBool (PBool true));
       ("PUBLIC_ADD_VIEW", opt TBool (PBool false));
       ("FOOTER_INFO", opt TStr (PStr "Content is hosted for personal archiving purposes only.  Contact server owner for any takedown requests."));
       ("ACTIVE_THEME", opt TStr (PStr "default")) ]);
    ("ARCHIVE_METHOD_TOGGLES",
     [ ("SAVE_TITLE", opt_alias TBool (PBool true) "FETCH_TITLE");
       ("SAVE_FAVICON", opt_alias TBool (PBool true) "FETCH_FAVICON");
       ("SAVE_WGET", opt_alias TBool (PBool true) "FETCH_WGET");
       ("SAVE_WGET_REQUISITES", opt_alias TBool (PBool true) "FETCH_WGET_REQUISITES");
       ("SAVE_SINGLEFILE", opt_alias TBool (PBool true) "FETCH_SINGLEFILE");
       ("SAVE_READABILITY", opt_alias TBool (PBool true) "FETCH_READABILITY");
       ("SAVE_MERCURY", opt_alias TBool (PBool true) "FETCH_MERCURY");
       ("SAVE_PDF", opt_alias TBool (PBool true) "FETCH_PDF");
       ("SAVE_SCREENSHOT", opt_alias TBool (PBool true) "FETCH_SCREENSHOT");
       ("SAVE_DOM", opt_alias TBool (PBool true) "FETCH_DOM");
       ("SAVE_HEADERS", opt_alias TBool (PBool true) "FETCH_HEADERS");
       ("SAVE_WARC", opt_alias TBool (PBool true) "FETCH_WARC");
       ("SAVE_GIT", opt_alias TBool (PBool true) "FETCH_GIT");
       ("SAVE_MEDIA", opt_alias TBool (PBool true) "FETCH_MEDIA");
       ("SAVE_ARCHIVE_DOT_ORG", opt_alias TBool (PBool true) "SUBMIT_ARCHIVE_DOT_ORG") ]);
    ("ARCHIVE_METHOD_OPTIONS",
     [ ("RESOLUTION", opt_alias TStr (PStr "1440,2000") "SCREENSHOT_RESOLUTION");
       ("GIT_DOMAINS", opt TStr (PStr "github.com,bitbucket.org,gitlab.com"));
       ("CHECK_SSL_VALIDITY", opt TBool (PBool true));
       ("CURL_USER_AGENT", opt TStr (PStr "ArchiveBox/{VERSION} (+https://github.com/pirate/ArchiveBox/) curl/{CURL_VERSION}"));
       ("WGET_USER_AGENT", opt TStr (PStr "ArchiveBox/{VERSION} (+https://github.com/pirate/ArchiveBox/) wget/{WGET_VERSION}"));
       ("CHROME_USER_AGENT", opt TStr (PStr "Mozilla/5.0 (Windows NT 10.0; Win64; x64) AppleWebKit/537.36 (KHTML, like Gecko) Chrome/73.0.3683.75 Safari/537.36"));
       ("COOKIES_FILE", opt TStr PNone);
       ("CHROME_USER_DATA_DIR", opt TStr PNone);
       ("CHROME_HEADLESS", opt TBool (PBool true));
       ("CHROME_SANDBOX",
        opt_fn TBool (fun c =>
          rbind (item c "IN_DOCKER") (fun i => Ok (PBool (negb (truthy i))))));
       ("YOUTUBEDL_ARGS",
        opt TList (strs [ "--write-description"; "--write-info-json";
                          "--write-annotations"; "--write-thumbnail";
                          "--no-call-home"; "--user-agent"; "--all-subs";
                          "--extract-audio"; "--keep-video";
                          "--ignore-errors"; "--geo-bypass";
                          "--audio-format"; "mp3";
                          "--audio-quality"; "320K";
                          "--embed-thumbnail"; "--add-metadata" ]));
       ("WGET_ARGS",
        opt TList (strs [ "--no-verbose"; "--adjust-extension";
                          "--convert-links"; "--force-directories";
                          "--backup-converted"; "--span-hosts";
                          "--no-parent"; "-e"; "robots=off" ]));
       ("CURL_ARGS",
        opt TList (strs [ "--silent"; "--location"; "--compressed" ]));
       ("GIT_ARGS", opt TList (strs ["--recursive"])) ]);
    ("SEARCH_BACKEND_CONFIG",
     [ ("USE_INDEXING_BACKEND", opt TBool (PBool true));
       ("USE_SEARCHING_BACKEND", opt TBool (PBool true));
       ("SEARCH_BACKEND_ENGINE", opt TStr (PStr "sonic"));
       ("SEARCH_BACKEND_HOST_NAME", opt TStr (PStr "localhost"));
       ("SEARCH_BACKEND_PORT", opt TInt (PInt 1491));
       ("SEARCH_BACKEND_PASSWORD", opt TStr (PStr "SecretPassword"));
       ("SONIC_COLLECTION", opt TStr (PStr "archivebox"));
       ("SONIC_BUCKET", opt TStr (PStr "snapshots")) ]);
    ("DEPENDENCY_CONFIG",
     [ ("USE_CURL", opt TBool (PBool true));
       ("USE_WGET", opt TBool (PBool true));
       ("USE_SINGLEFILE", opt TBool (PBool true));
       ("USE_READABILITY", opt TBool (PBool true));
       ("USE_MERCURY", opt TBool (PBool true));
       ("USE_GIT", opt TBool (PBool true));
       ("USE_CHROME", opt TBool (PBool true));
       ("USE_NODE", opt TBool (PBool true));
       ("USE_YOUTUBEDL", opt TBool (PBool true));
       ("CURL_BINARY", opt TStr (PStr "curl"));
       ("GIT_BINARY", opt TStr (PStr "git"));
       ("WGET_BINARY", opt TStr (PStr "wget"));
       ("SINGLEFILE_BINARY", opt TStr (PStr "single-file"));
       ("READABILITY_BINARY", opt TStr (PStr "readability-extractor"));
       ("MERCURY_BINARY", opt TStr (PStr "mercury-parser"));
       ("YOUTUBEDL_BINARY", opt TStr (PStr "youtube-dl"));
       ("CHROME_BINARY", opt TStr PNone) ]) ].

(** A lambda, or the part of one, that looks at the machine. *)
Definition on_host (key : string) (c : ConfigDict) : result PyVal :=
  host_value host key c.

Definition DERIVED_CONFIG_DEFAULTS : ConfigDefaultDict :=
  [ ("TERM_WIDTH", derived (on_host "TERM_WIDTH"));
    ("USER", derived (on_host "USER"));
    ("ANSI", derived (fun c =>
       if_else (Ok (PDict DEFAULT_CLI_COLORS)) (item c "USE_COLOR")
               (Ok (PDict (map (fun kv => (fst kv, PStr EmptyString))
                               DEFAULT_CLI_COLORS)))));
    ("PACKAGE_DIR", derived (on_host "PACKAGE_DIR"));
    ("TEMPLATES_DIR", derived (on_host "TEMPLATES_DIR"));
    ("OUTPUT_DIR", derived (on_host "OUTPUT_DIR"));
    ("ARCHIVE_DIR", derived (on_host "ARCHIVE_DIR"));
    ("SOURCES_DIR", derived (on_host "SOURCES_DIR"));
    ("LOGS_DIR", derived (on_host "LOGS_DIR"));
    ("CONFIG_FILE", derived (on_host "CONFIG_FILE"));
    ("COOKIES_FILE", derived (fun c =>
       and_ (item c "COOKIES_FILE") (on_host "COOKIES_FILE" c)));
    ("CHROME_USER_DATA_DIR", derived (fun c =>
       rbind (item c "CHROME_USER_DATA_DIR") (fun v =>
         match v with
         | PNone => on_host "CHROME_USER_DATA_DIR" c
         | _ => if truthy v then on_host "CHROME_USER_DATA_DIR" c
                else Ok PNone
         end)));
    ("URL_BLACKLIST_PTN", derived (fun c =>
       and_ (item c "URL_BLACKLIST") (on_host "URL_BLACKLIST_PTN" c)));
    ("ARCHIVEBOX_BINARY", derived (on_host "ARCHIVEBOX_BINARY"));
    ("VERSION", derived (on_host "VERSION"));
    ("GIT_SHA", derived (fun c =>
       rbind (item c "VERSION") (fun v =>
         match v with
         | PStr s => or_ (Ok (PStr (after_last_plus s EmptyString)))
                         (Ok (PStr "unknown"))
         | _ => Raise AttributeError
         end)));
    ("PYTHON_BINARY", derived (on_host "PYTHON_BINARY"));
    ("PYTHON_ENCODING", derived (on_host "PYTHON_ENCODING"));
    ("PYTHON_VERSION", derived (on_host "PYTHON_VERSION"));
    ("DJANGO_BINARY", derived (on_host "DJANGO_BINARY"));
    ("DJANGO_VERSION", derived (on_host "DJANGO_VERSION"));
    ("USE_CURL", derived (fun c =>
       and_ (item c "USE_CURL")
            (or_ (item c "SAVE_FAVICON")
                 (or_ (item c "SAVE_TITLE")
                      (item c "SAVE_ARCHIVE_DOT_ORG")))));
    ("CURL_VERSION", derived (fun c =>
       if_else (on_host "CURL_VERSION" c) (item c "USE_CURL") (Ok PNone)));
    ("CURL_USER_AGENT", derived (on_host "CURL_USER_AGENT"));
    ("CURL_ARGS", derived (fun c =>
       or_ (item c "CURL_ARGS") (Ok (PList []))));
    ("SAVE_FAVICON", derived (fun c =>
       and_ (item c "USE_CURL") (item c "SAVE_FAVICON")));
    ("SAVE_ARCHIVE_DOT_ORG", derived (fun c =>
       and_ (item c "USE_CURL") (item c "SAVE_ARCHIVE_DOT_ORG")));
    ("USE_WGET", derived (fun c =>
       and_ (item c "USE_WGET")
            (or_ (item c "SAVE_WGET") (item c "SAVE_WARC"))));
    ("WGET_VERSION", derived (fun c =>
       if_else (on_host "WGET_VERSION" c) (item c "USE_WGET") (Ok PNone)));
    ("WGET_AUTO_COMPRESSION", derived (fun c =>
       if_else (on_host "WGET_AUTO_COMPRESSION" c) (item c "USE_WGET")
               (Ok (PBool false))));
    ("WGET_USER_AGENT", derived (on_host "WGET_USER_AGENT"));
    ("SAVE_WGET", derived (fun c =>
       and_ (item c "USE_WGET") (item c "SAVE_WGET")));
    ("SAVE_WARC", derived (fun c =>
       and_ (item c "USE_WGET") (item c "SAVE_WARC")));
    ("WGET_ARGS", derived (fun c =>
       or_ (item c "WGET_ARGS") (Ok (PList []))));
    ("USE_SINGLEFILE", derived (fun c =>
       and_ (item c "USE_SINGLEFILE") (item c "SAVE_SINGLEFILE")));
    ("SINGLEFILE_VERSION", derived (fun c =>
       if_else (on_host "SINGLEFILE_VERSION" c) (item c "USE_SINGLEFILE")
               (Ok PNone)));
    ("USE_READABILITY", derived (fun c =>
       and_ (item c "USE_READABILITY") (item c "SAVE_READABILITY")));
    ("READABILITY_VERSION", derived (fun c =>
       if_else (on_host "READABILITY_VERSION" c)
               (item c "USE_READABILITY") (Ok PNone)));
    ("USE_MERCURY", derived (fun c =>
       and_ (item c "USE_MERCURY") (item c "SAVE_MERCURY")));
    ("MERCURY_VERSION", derived (fun c =>
       if_else (Ok (PStr "1.0.0"))
               (and_ (item c "USE_MERCURY") (item c "MERCURY_BINARY"))
               (Ok PNone)));
    ("USE_GIT", derived (fun c =>
       and_ (item c "USE_GIT") (item c "SAVE_GIT")));
    ("GIT_VERSION", derived (fun c =>
       if_else (on_host "GIT_VERSION" c) (item c "USE_GIT") (Ok PNone)));
    ("SAVE_GIT", derived (fun c =>
       and_ (item c "USE_GIT") (item c "SAVE_GIT")));
    ("USE_YOUTUBEDL", derived (fun c =>
       and_ (item c "USE_YOUTUBEDL") (item c "SAVE_MEDIA")));
    ("YOUTUBEDL_VERSION", derived (fun c =>
       if_else (on_host "YOUTUBEDL_VERSION" c) (item c "USE_YOUTUBEDL")
               (Ok PNone)));
    ("SAVE_MEDIA", derived (fun c =>
       and_ (item c "USE_YOUTUBEDL") (item c "SAVE_MEDIA")));
    ("YOUTUBEDL_ARGS", derived (fun c =>
       or_ (item c "YOUTUBEDL_ARGS") (Ok (PList []))));
    ("USE_CHROME", derived (fun c =>
       and_ (item c "USE_CHROME")
            (or_ (item c "SAVE_PDF")
                 (or_ (item c "SAVE_SCREENSHOT")
                      (or_ (item c "SAVE_DOM")
                           (item c "SAVE_SINGLEFILE"))))));
    ("CHROME_BINARY", derived (fun c =>
       if_else (item c "CHROME_BINARY") (item c "CHROME_BINARY")
               (on_host "CHROME_BINARY" c)));
    ("CHROME_VERSION", derived (fun c =>
       if_else (on_host "CHROME_VERSION" c) (item c "USE_CHROME")
               (Ok PNone)));
    ("USE_NODE", derived (fun c =>
       and_ (item c "USE_NODE")
            (or_ (item c "SAVE_READABILITY") (item c "SAVE_SINGLEFILE"))));
    ("SAVE_PDF", derived (fun c =>
       and_ (item c "USE_CHROME") (item c "SAVE_PDF")));
    ("SAVE_SCREENSHOT", derived (fun c =>
       and_ (item c "USE_CHROME") (item c "SAVE_SCREENSHOT")));
    ("SAVE_DOM", derived (fun c =>
       and_ (item c "USE_CHROME") (item c "SAVE_DOM")));
    ("SAVE_SINGLEFILE", derived (fun c =>
       and_ (item c "USE_CHROME")
            (and_ (item c "SAVE_SINGLEFILE") (item c "USE_NODE"))));
    ("SAVE_READABILITY", derived (fun c =>
       and_ (item c "USE_READABILITY") (item c "USE_NODE")));
    ("SAVE_MERCURY", derived (fun c =>
       and_ (item c "USE_MERCURY") (item c "USE_NODE")));
    ("DEPENDENCIES", derived (on_host "DEPENDENCIES"));
    ("CODE_LOCATIONS", derived (on_host "CODE_LOCATIONS"));
    ("EXTERNAL_LOCATIONS", derived (on_host "EXTERNAL_LOCATIONS"));
    ("DATA_LOCATIONS", derived (on_host "DATA_LOCATIONS"));
    ("CHROME_OPTIONS", derived get_chrome_info) ].

End Tables.
End Tables.

(** ** The INI text of a [ConfigParser]

    [Ini.write] is [ConfigParser.write]: a header line per section, one
    [key = value] line per option, an empty line after each section.
    [Ini.read] is [ConfigParser.read] on the files whose lines do not start
    with a blank (no continuation lines); it refuses the others.  The
    theorems on the writer hold for any reader and printer; this pair runs
    the writer on actual files. *)

Module Ini.

Definition nl : ascii := "010"%char.

Fixpoint replace_nl (s : string) : string :=
  match s with
  | EmptyString => EmptyString
  | String c r =>
      if Ascii.eqb c nl then String nl (String "009" (replace_nl r))
      else String c (replace_nl r)
  end.

Definition write_section (name : string) (d : odict) : string :=
  "[" ++ name ++ "]" ++ String nl
    (fold_right
       (fun kv out =>
          fst kv ++ " = " ++ replace_nl (snd kv) ++ String nl out)
       (String nl EmptyString) d).

Definition write (cp : ConfigParser) : string :=
  (match cp_defaults cp with
   | [] => EmptyString
   | d => write_section DEFAULTSECT d
   end)
  ++ fold_right (fun nd out => write_section (fst nd) (snd nd) ++ out)
                EmptyString (cp_sections cp).

Fixpoint lines (s cur : string) : list string :=
  match s with
  | EmptyString =>
      match cur with EmptyString => [] | _ => [PyStr.rev cur] end
  | String c r =>
      if Ascii.eqb c nl then PyStr.rev cur :: lines r EmptyString
      else lines r (String c cur)
  end.

(** The text before the last closing bracket, if there is one. *)
Fixpoint upto_last_bracket (s : string) : option string :=
  match s with
  | EmptyString => None
  | String c r =>
      match upto_last_bracket r with
      | Some t => Some (String c t)
      | None => if Ascii.eqb c "]" then Some EmptyString else None
      end
  end.

(** A section header: an opening bracket, a name of at least one
    character, a closing bracket. *)
Definition header (value : string) : option string :=
  match value with
  | String c r =>
      if Ascii.eqb c "[" then
        match upto_last_bracket r with
        | Some EmptyString => None
        | x => x
        end
      else None
  | EmptyString => None
  end.

(** An option line, cut at its first [=] or [:]. *)
Fixpoint cut (s name : string) : option (string * string) :=
  match s with
  | EmptyString => None
  | String c r =>
      if (Ascii.eqb c "=" || Ascii.eqb c ":")%bool
      then Some (PyStr.rev name, r)
      else cut r (String c name)
  end.

Definition rstrip (s : string) : string :=
  PyStr.rev (PyStr.lstrip (PyStr.rev s)).

Record state : Type := {
  st_cp : ConfigParser;
  st_cursect : option string
}.

Definition read_line (st : state) (line : string) : result state :=
  let value := PyStr.strip line in
  match value with
  | EmptyString => Ok st
  | String c _ =>
      if (Ascii.eqb c "#" || Ascii.eqb c ";")%bool then Ok st
      else
        match line with
        | String l _ =>
            if PyStr.is_space l then Raise ConfigParserError
            else
              match header value with
              | Some name =>
                  if String.eqb name DEFAULTSECT
                  then Ok {| st_cp := st_cp st; st_cursect := Some name |}
                  else
                    match sect_get (cp_sections (st_cp st)) name with
                    | Some _ => Raise ConfigParserError
                    | None =>
                        Ok {| st_cp := raw_set_section (st_cp st) name [];
                              st_cursect := Some name |}
                    end
              | None =>
                  match st_cursect st with
                  | None => Raise ConfigParserError
                  | Some sect =>
                      match cut value EmptyString with
                      | None => Raise ConfigParserError
                      | Some (name, v) =>
                          let name := rstrip name in
                          if String.eqb name EmptyString then Raise ConfigParserError
                          else if od_mem (if String.eqb sect DEFAULTSECT
                                          then cp_defaults (st_cp st)
                                          else default []
                                                 (sect_get (cp_sections (st_cp st)) sect))
                                         name
                          then Raise ConfigParserError
                          else Ok {| st_cp := raw_set_option (st_cp st) sect
                                               name (PyStr.strip v);
                                     st_cursect := Some sect |}
                      end
                  end
              end
        | EmptyString => Ok st
        end
  end.

Fixpoint read_lines (ls : list string) (st : state) : result state :=
  match ls with
  | [] => Ok st
  | l :: ls' => rbind (read_line st l) (read_lines ls')
  end.

Definition read (text : string) : result ConfigParser :=
  rbind (read_lines (lines text EmptyString)
           {| st_cp := {| cp_defaults := []; cp_sections := [] |};
              st_cursect := None |})
        (fun st => Ok (st_cp st)).

End Ini.

(** ** A machine to run on

    A host for the examples: the output is not a terminal and the
    package is at version 0.5.4; a lambda that looks at the machine reads
    the keys of the snapshot that the lambda of the module reads
    ([c['OUTPUT_DIR']] for the directories, [c['WGET_BINARY']] for the
    version of [wget], and so on), fails as it does where one is
    missing, and returns an object named after its key. *)

Definition sample_reads : list (string * list string) :=
  [ ("TEMPLATES_DIR", ["PACKAGE_DIR"]);
    ("OUTPUT_DIR", ["OUTPUT_DIR"]);
    ("ARCHIVE_DIR", ["OUTPUT_DIR"]);
    ("SOURCES_DIR", ["OUTPUT_DIR"]);
    ("LOGS_DIR", ["OUTPUT_DIR"]);
    ("COOKIES_FILE", ["COOKIES_FILE"]);
    ("URL_BLACKLIST_PTN", ["URL_BLACKLIST"]);
    ("VERSION", ["PACKAGE_DIR"]);
    ("CURL_VERSION", ["CURL_BINARY"]);
    ("CURL_USER_AGENT", ["CURL_USER_AGENT"; "VERSION"; "CURL_VERSION"]);
    ("WGET_VERSION", ["WGET_BINARY"]);
    ("WGET_AUTO_COMPRESSION", ["WGET_BINARY"]);
    ("WGET_USER_AGENT", ["WGET_USER_AGENT"; "VERSION"; "WGET_VERSION"]);
    ("SINGLEFILE_VERSION", ["SINGLEFILE_BINARY"]);
    ("READABILITY_VERSION", ["READABILITY_BINARY"]);
    ("GIT_VERSION", ["GIT_BINARY"]);
    ("YOUTUBEDL_VERSION", ["YOUTUBEDL_BINARY"]);
    ("CHROME_VERSION", ["CHROME_BINARY"]);
    ("DEPENDENCIES",
     [ "PYTHON_BINARY"; "PYTHON_VERSION"; "DJANGO_VERSION"; "DJANGO_BINARY";
       "CURL_BINARY"; "CURL_VERSION"; "USE_CURL";
       "WGET_BINARY"; "WGET_VERSION"; "USE_WGET";
       "SINGLEFILE_BINARY"; "SINGLEFILE_VERSION"; "USE_SINGLEFILE";
       "READABILITY_BINARY"; "READABILITY_VERSION"; "USE_READABILITY";
       "MERCURY_BINARY"; "MERCURY_VERSION"; "USE_MERCURY";
       "GIT_BINARY"; "GIT_VERSION"; "USE_GIT";
       "YOUTUBEDL_BINARY"; "YOUTUBEDL_VERSION"; "USE_YOUTUBEDL";
       "CHROME_BINARY"; "CHROME_VERSION"; "USE_CHROME" ]);
    ("CODE_LOCATIONS", ["PACKAGE_DIR"; "TEMPLATES_DIR"]);
    ("EXTERNAL_LOCATIONS",
     ["CHROME_USER_DATA_DIR"; "USE_CHROME"; "COOKIES_FILE"; "USE_WGET"]);
    ("DATA_LOCATIONS",
     ["OUTPUT_DIR"; "SOURCES_DIR"; "LOGS_DIR"; "ARCHIVE_DIR"; "CONFIG_FILE"]) ].

Fixpoint reads_of (key : string) (table : list (string * list string))
  : list string :=
  match table with
  | [] => []
  | (k, keys) :: table' =>
      if String.eqb key k then keys else reads_of key table'
  end.

(** [c[k]] for each key of the list, in order. *)
Fixpoint read_all (c : ConfigDict) (keys : list string) : result unit :=
  match keys with
  | [] => Ok tt
  | k :: keys' => rbind (item c k) (fun _ => read_all c keys')
  end.

Definition sample_host : Host :=
  {| stdout_isatty := false;
     host_value := fun key c =>
       if String.eqb key "CONFIG_FILE" then
         rbind (item c "CONFIG_FILE") (fun v =>
           if truthy v then Ok (PObj key)
           else rbind (item c "OUTPUT_DIR") (fun _ => Ok (PObj key)))
       else
         rbind (read_all c (reads_of key sample_reads)) (fun _ =>
           if String.eqb key "VERSION" then Ok (PStr "0.5.4")
           else Ok (PObj key)) |}.

Definition sample_resolve (p : string) : string :=
  if String.eqb p "." then "/data" else p.

Definition sample_load_all_config : World -> result ConfigDict :=
  load_all_config sample_resolve Ini.read
    (Tables.CONFIG_DEFAULTS sample_host)
    (Tables.DERIVED_CONFIG_DEFAULTS sample_host).

Definition sample_write_config_file
  : odict -> option string -> string -> IO ConfigDict :=
  write_config_file sample_resolve Ini.read Ini.write
    (Tables.CONFIG_DEFAULTS sample_host)
    (Tables.DERIVED_CONFIG_DEFAULTS sample_host).

Definition sample_path : string := "/data/ArchiveBox.conf".

Definition sample_secret : string :=
  "abcdefghijklmnopqrstuvwxyz0123456789-_+!.abcdefghi".

Definition sample_conf : string :=
"# my collection
[SERVER_CONFIG]
SECRET_KEY = k3y-of-the-server
[GENERAL_CONFIG]
TIMEOUT = 30
".

Definition sample_world : World :=
  {| environ := {[ "HOME" := "/root" ]};
     files := {[ sample_path := sample_conf ]} |}.

(** A collection whose file turns both users of [wget] off. *)
Definition wget_off_conf : string :=
"[ARCHIVE_METHOD_TOGGLES]
SAVE_WGET = False
SAVE_WARC = False
".

Definition wget_off_world : World :=
  {| environ := {[ "HOME" := "/root" ]};
     files := {[ sample_path := wget_off_conf ]} |}.

Definition wget_off_final : ConfigDict :=
  match sample_load_all_config wget_off_world with
  | Ok c => c
  | Raise _ => ∅
  end.

(** The process of the end-to-end scenario: an empty environment and no
    config file. *)
Definition bare_world : World := {| environ := ∅; files := ∅ |}.

(** The base keys of the sample collection, resolved. *)
Definition sample_base : ConfigDict :=
  match load_sections sample_resolve Ini.read
          (Tables.CONFIG_DEFAULTS sample_host) ∅ sample_world with
  | Ok c => c
  | Raise _ => ∅
  end.



(** A user agent in quotes, as an argument of [curl]. *)
Definition quoted_agent : string :=
  String Json.dq ("ArchiveBox" ++ String Json.backslash
                    ("0.5" ++ String Json.dq EmptyString)).








(** ** Names of the keys *)

Section Names.
Variable CONFIG_DEFAULTS : list (string * ConfigDefaultDict).

(** All declarations of the sections, in order. *)
Definition all_declarations : ConfigDefaultDict :=
  concat (map snd CONFIG_DEFAULTS).

(** The pairs the comprehension of [CONFIG_ALIASES] runs through:
    [(alias, key)] for every alias of every key of every section. *)
Definition alias_pairs : list (string * string) :=
  flat_map
    (fun kd => map (fun alias => (alias, fst kd))
                   (match d_aliases (snd kd) with
                    | Some a => a
                    | None => []
                    end))
    all_declarations.

(** [CONFIG_ALIASES]: a dict comprehension, a later pair replacing an
    earlier one with the same alias. *)
Definition CONFIG_ALIASES : StrDict :=
  fold_left (fun aliases ak => <[fst ak := snd ak]> aliases) alias_pairs ∅.

(** [USER_CONFIG]: the set of the keys of all sections. *)
Definition USER_CONFIG : gset string :=
  list_to_set (map fst all_declarations).

(** [CONFIG_ALIASES.get(key.upper().strip(), key.upper().strip())] *)
Definition get_real_name (key : string) : string :=
  let name := PyStr.strip (PyStr.upper key) in
  match CONFIG_ALIASES !! name with
  | Some real => real
  | None => name
  end.

End Names.

(** ** Vocabulary of the statements *)

(** The lookups of the loop of [load_config_val], in the order it makes
    them: under each name, the environment and then the config file. *)
Definition lookups (env_vars config_file_vars : option StrDict)
    (config_keys_to_check : list string) : list (string * option string) :=
  flat_map (fun key => [(key, dict_get env_vars key);
                        (key, dict_get config_file_vars key)])
           config_keys_to_check.

(** The first lookup that returned a string that is not empty. *)
Fixpoint first_found (l : list (string * option string))
  : option (string * string) :=
  match l with
  | [] => None
  | (key, val) :: rest =>
      if found (Bound val)
      then match val with Some v => Some (key, v) | None => None end
      else first_found rest
  end.

(** Two outcomes that are the same value, or are both failures. *)
Definition same_outcome (r r' : result PyVal) : Prop :=
  match r, r' with
  | Ok v, Ok v' => v = v'
  | Raise _, Raise _ => True
  | _, _ => False
  end.

(** The six words that the [bool] and [str] branches look for. *)
Definition bool_words : list string :=
  ["true"; "yes"; "1"; "false"; "no"; "0"].

(** Every character of [s] is one that [str.strip] removes. *)
Fixpoint all_space (s : string) : bool :=
  match s with
  | EmptyString => true
  | String c r => (PyStr.is_space c && all_space r)%bool
  end.

(** A text without [%], which interpolation leaves as it is; a dict and
    a parser state whose values are all such. *)
Definition percent_free (s : string) : bool :=
  negb (PyStr.char_in percent s).

Definition percent_free_dict (d : odict) : bool :=
  forallb (fun kv => percent_free (snd kv)) d.

Definition percent_free_parser (cp : ConfigParser) : bool :=
  (percent_free_dict (cp_defaults cp)
   && forallb (fun nd => percent_free_dict (snd nd)) (cp_sections cp))%bool.


(** The options of the sections in the order [load_config_file] meets
    them, under their upper-cased names. *)
Definition upper_options (items : list (string * odict)) : odict :=
  map (fun kv => (PyStr.upper (fst kv), snd kv))
      (concat (map snd items)).

(** The extractors and the tool each of them runs on, as the derived
    table pairs them: [(SAVE_X, USE_Y)] where the function of [SAVE_X]
    has [c['USE_Y']] as a conjunct. *)
Definition gates : list (string * string) :=
  [ ("SAVE_FAVICON", "USE_CURL");
    ("SAVE_ARCHIVE_DOT_ORG", "USE_CURL");
    ("SAVE_WGET", "USE_WGET");
    ("SAVE_WARC", "USE_WGET");
    ("SAVE_GIT", "USE_GIT");
    ("SAVE_MEDIA", "USE_YOUTUBEDL");
    ("SAVE_PDF", "USE_CHROME");
    ("SAVE_SCREENSHOT", "USE_CHROME");
    ("SAVE_DOM", "USE_CHROME");
    ("SAVE_SINGLEFILE", "USE_CHROME");
    ("SAVE_SINGLEFILE", "USE_NODE");
    ("SAVE_READABILITY", "USE_READABILITY");
    ("SAVE_READABILITY", "USE_NODE");
    ("SAVE_MERCURY", "USE_MERCURY");
    ("SAVE_MERCURY", "USE_NODE") ].

(** The place of a key in a list of keys. *)
Fixpoint index_of (key : string) (keys : list string) : nat :=
  match keys with
  | [] => 0
  | k :: rest => if String.eqb key k then 0 else S (index_of key rest)
  end.

(** ** More of the sample collection *)

(** The configuration the sample collection resolves to. *)
Definition sample_final : ConfigDict :=
  match sample_load_all_config sample_world with
  | Ok c => c
  | Raise _ => ∅
  end.

(** The first stage of a write of [ONLY_NEW=False] to the sample
    collection: the parser state written, the process after it, and the
    configuration the new file resolves to. *)
Definition sample_first_stage : result ConfigParser * World :=
  write_new_file sample_resolve Ini.read Ini.write
    (Tables.CONFIG_DEFAULTS sample_host)
    [("ONLY_NEW", "False")] None sample_secret sample_world.

Definition sample_before : ConfigParser :=
  match Ini.read sample_conf with
  | Ok cf => cf
  | Raise _ => {| cp_defaults := []; cp_sections := [] |}
  end.

Definition sample_written : ConfigParser :=
  match fst sample_first_stage with
  | Ok cf => cf
  | Raise _ => {| cp_defaults := []; cp_sections := [] |}
  end.

Definition sample_new_world : World := snd sample_first_stage.

Definition sample_new_final : ConfigDict :=
  match sample_load_all_config sample_new_world with
  | Ok c => c
  | Raise _ => ∅
  end.

(** A parsed file that spells a key in lower case. *)
Definition lower_case_file : ConfigParser :=
  {| cp_defaults := [];
     cp_sections := [("GENERAL_CONFIG", [("timeout", "30")])] |}.

(** A parsed file that spells a key in lower case and, in a later
    section, in upper case, and that holds a doubled [%]. *)
Definition mixed_case_file : ConfigParser :=
  {| cp_defaults := [];
     cp_sections :=
       [ ("GENERAL_CONFIG",
          [("timeout", "30"); ("FOOTER_INFO", "100%% free")]);
         ("ARCHIVE_METHOD_OPTIONS", [("TIMEOUT", "45")]) ] |}.

(** * Properties *)

(** Closed facts are settled by running the definitions. *)
Ltac by_evaluation := vm_compute; repeat split; reflexivity.

(** A decidable closed fact, decided. *)
Ltac by_decision := apply (bool_decide_unpack _); vm_compute; exact I.

(** ** Strings *)

Lemma app_nil_str (s : string) : EmptyString ++ s = s.
Proof. reflexivity. Qed.

Lemma app_cons_str c (s t : string) : String c s ++ t = String c (s ++ t).
Proof. reflexivity. Qed.

Lemma app_str_nil (s : string) : s ++ EmptyString = s.
Proof. induction s as [|c s IH]; [done|]. by rewrite app_cons_str, IH. Qed.

Lemma app_assoc_str (a b c : string) : (a ++ b) ++ c = a ++ (b ++ c).
Proof.
  induction a as [|x a IH]; [done|].
  by rewrite !app_cons_str, IH.
Qed.

Lemma length_app_str (a b : string) :
  String.length (a ++ b) = (String.length a + String.length b)%nat.
Proof.
  induction a as [|x a IH]; [done|].
  rewrite app_cons_str. cbn [String.length]. by rewrite IH.
Qed.





(** ** The JSON decoder and the JSON encoder *)

Module JsonFacts.
Import Json.

Lemma skip_ws_stop c r :
  is_ws c = false -> skip_ws (String c r) = String c r.
Proof. intros H. cbn [skip_ws]. by rewrite H. Qed.

Lemma skip_ws_step c r : is_ws c = true -> skip_ws (String c r) = skip_ws r.
Proof. intros H. cbn [skip_ws]. by rewrite H. Qed.

(** A [\uXXXX] escape that is no high surrogate is one character,
    whatever follows it. *)
Lemma scanstring_u h1 h2 h3 h4 uni rest :
  hex4 h1 h2 h3 h4 = Some uni -> is_high uni = false ->
  scanstring (String backslash (String "u"
                (String h1 (String h2 (String h3 (String h4 rest))))))
  = prepend (chr uni) (scanstring rest).
Proof.
  intros Hh Hs.
  change (scanstring (String backslash (String "u"
            (String h1 (String h2 (String h3 (String h4 rest)))))))
    with (match hex4 h1 h2 h3 h4 with
          | None => None
          | Some uni =>
              match rest with
              | String b (String u (String g1 (String g2
                  (String g3 (String g4 r4))))) =>
                  match hex4 g1 g2 g3 g4 with
                  | Some uni2 =>
                      if (is_high uni && Ascii.eqb b backslash
                          && Ascii.eqb u "u" && is_low uni2)%bool
                      then prepend (chr (pair_up uni uni2)) (scanstring r4)
                      else prepend (chr uni) (scanstring rest)
                  | None => prepend (chr uni) (scanstring rest)
                  end
              | _ => prepend (chr uni) (scanstring rest)
              end
          end).
  rewrite Hh, Hs.
  destruct rest as [|b [|u [|g1 [|g2 [|g3 [|g4 r4]]]]]]; try reflexivity.
  by destruct (hex4 g1 g2 g3 g4).
Qed.

(** The decoder reads back a character as the encoder writes it. *)
Lemma scanstring_escape_char c rest :
  Nat.ltb (nat_of_ascii c) 128 = true ->
  scanstring (escape_char c ++ rest)
  = prepend (String c EmptyString) (scanstring rest).
Proof.
  destruct c as [[] [] [] [] [] [] [] []]; intros H;
    vm_compute in H; try discriminate H; clear H;
    first [ reflexivity
          | cbv -[scanstring prepend];
            etransitivity; [apply scanstring_u; reflexivity|reflexivity] ].
Qed.

Lemma scanstring_escape s rest :
  PyStr.is_ascii s = true ->
  scanstring (escape s ++ String dq rest) = Some (s, rest).
Proof.
  induction s as [|c s IH]; intros Ha.
  - reflexivity.
  - cbn [PyStr.is_ascii] in Ha. apply andb_true_iff in Ha as [Hc Hs].
    cbn [escape]. rewrite app_assoc_str.
    rewrite (scanstring_escape_char c _ Hc), (IH Hs). reflexivity.
Qed.

Lemma quote_app s rest :
  quote s ++ rest = String dq (escape s ++ String dq rest).
Proof.
  unfold quote. by rewrite app_cons_str, app_assoc_str, app_cons_str.
Qed.

Lemma scan_once_quoted n s rest :
  PyStr.is_ascii s = true ->
  scan_once n (quote s ++ rest) = Ok (PStr s, rest).
Proof.
  intros Hp. rewrite quote_app. destruct n; cbn [scan_once];
    change (Ascii.eqb dq dq) with true; cbv iota;
    by rewrite (scanstring_escape _ _ Hp).
Qed.

Lemma skip_ws_quoted s rest : skip_ws (quote s ++ rest) = quote s ++ rest.
Proof. by rewrite quote_app. Qed.

Lemma join_items_cons x y l :
  join_items (x :: y :: l) = quote x ++ ", " ++ join_items (y :: l).
Proof. reflexivity. Qed.

Lemma join_items_quoted x l :
  exists rest, join_items (x :: l) = quote x ++ rest.
Proof.
  destruct l as [|y l].
  - exists EmptyString. by rewrite app_str_nil.
  - eexists. apply join_items_cons.
Qed.

(** The loop of the array reads back the items it is given, one per
    unit of fuel. *)
Lemma array_items_strs n l m :
  l <> [] -> Forall (fun s => PyStr.is_ascii s = true) l ->
  (length l <= m)%nat ->
  array_items (scan_once n) m (join_items l ++ "]")
  = Ok (map PStr l, EmptyString).
Proof.
  intros Hl Hall. revert m.
  induction Hall as [|x l Hx Hall IH]; [done|]. clear Hl.
  intros [|m] Hm; [simpl in Hm; lia|].
  destruct l as [|y l].
  - cbn [join_items array_items]. rewrite (scan_once_quoted _ _ _ Hx).
    reflexivity.
  - rewrite join_items_cons, !app_assoc_str.
    cbn [array_items]. rewrite (scan_once_quoted _ _ _ Hx).
    rewrite !app_cons_str, app_nil_str. cbn [rbind].
    rewrite (skip_ws_stop ",") by reflexivity.
    change (Ascii.eqb "," "]") with false.
    change (Ascii.eqb "," ",") with true.
    cbv iota.
    rewrite (skip_ws_step " ") by reflexivity.
    destruct (join_items_quoted y l) as [rest Hr].
    rewrite Hr at 1. rewrite app_assoc_str, skip_ws_quoted.
    rewrite <- app_assoc_str, <- Hr.
    rewrite IH; [reflexivity|done|simpl in *; lia].
Qed.

Lemma length_join_items l : (length l <= String.length (join_items l))%nat.
Proof.
  induction l as [|x [|y l] IH]; [simpl; lia| |].
  - cbn [join_items]. unfold quote. cbn [String.length length]. lia.
  - rewrite join_items_cons. rewrite !length_app_str.
    cbn [length] in *. unfold quote at 1. cbn [String.length]. lia.
Qed.

Lemma recursion_limit_succ : exists n, recursion_limit = S n.
Proof. by exists 999%nat. Qed.

(** Decoding the text that the encoder writes for a list of strings
    gives the list back. *)
Lemma loads_dumps_strs l :
  Forall (fun s => PyStr.is_ascii s = true) l ->
  loads (dumps_strs l) = Ok (strs l).
Proof.
  intros Hall. unfold loads, dumps_strs.
  rewrite !app_cons_str, app_nil_str.
  rewrite (skip_ws_stop "[") by reflexivity.
  destruct recursion_limit_succ as [n ->].
  cbn [scan_once].
  change (Ascii.eqb "[" dq) with false.
  change (Ascii.eqb "[" "{") with false.
  change (Ascii.eqb "[" "[") with true. cbv iota.
  unfold parse_array.
  destruct l as [|x l].
  - reflexivity.
  - destruct (join_items_quoted x l) as [rest Hr].
    assert (Hs : skip_ws (join_items (x :: l) ++ "]")
                 = join_items (x :: l) ++ "]").
    { rewrite Hr, app_assoc_str. apply skip_ws_quoted. }
    rewrite Hs.
    assert (Hq : exists r, join_items (x :: l) ++ "]" = String dq r).
    { rewrite Hr, app_assoc_str, quote_app. eauto. }
    destruct Hq as [r Hq]. rewrite Hq at 1.
    change (Ascii.eqb dq "]") with false. cbv iota.
    cbn [String.length].
    rewrite array_items_strs; [reflexivity|done|done|].
    rewrite length_app_str.
    pose proof (length_join_items (x :: l)). lia.
Qed.

(** So does decoding the text of one string: a value that is no list. *)
Lemma loads_quote s :
  PyStr.is_ascii s = true -> loads (quote s) = Ok (PStr s).
Proof.
  intros Ha. unfold loads.
  rewrite <- (app_str_nil (quote s)), skip_ws_quoted.
  by rewrite (scan_once_quoted _ _ _ Ha).
Qed.

(** A string of digits is read to its end. *)
Lemma span_digits_all s :
  PyStr.all_digits s = true -> span_digits s = (s, EmptyString).
Proof.
  induction s as [|c s IH]; [done|].
  cbn [PyStr.all_digits span_digits]. intros H.
  apply andb_true_iff in H as [Hc Hs]. by rewrite Hc, (IH Hs).
Qed.

Lemma is_digit_not c x :
  PyStr.is_digit x = false -> PyStr.is_digit c = true ->
  Ascii.eqb c x = false.
Proof.
  intros Hx Hc. destruct (Ascii.eqb c x) eqn:E; [|done].
  apply Ascii.eqb_eq in E as ->. congruence.
Qed.

(** The comparisons of a digit with characters that are none. *)
Ltac digit_is_not Hc :=
  repeat match goal with
         | |- context [Ascii.eqb ?c ?x] =>
             rewrite (is_digit_not c x eq_refl Hc)
         end.

Lemma is_digit_is_ws c : PyStr.is_digit c = true -> is_ws c = false.
Proof. intros Hc. unfold is_ws. by digit_is_not Hc. Qed.

(** An integer written without a leading zero is the integer, when
    [int] takes that many digits. *)
Lemma loads_digits c s :
  PyStr.all_digits (String c s) = true -> c <> "0"%char ->
  (String.length (String c s) <= int_max_str_digits)%nat ->
  loads (String c s) = Ok (PInt (PyStr.int (String c s))).
Proof.
  intros Hd H0 Hlen.
  assert (Hc : PyStr.is_digit c = true).
  { cbn [PyStr.all_digits] in Hd. by apply andb_true_iff in Hd as [? _]. }
  unfold loads. rewrite (skip_ws_stop c s (is_digit_is_ws c Hc)).
  destruct recursion_limit_succ as [n ->]. cbn [scan_once].
  unfold dq. digit_is_not Hc.
  unfold scan_number. digit_is_not Hc.
  unfold scan_int. apply Ascii.eqb_neq in H0. rewrite H0, Hc.
  rewrite (span_digits_all _ Hd).
  cbn [scan_frac scan_exp]. unfold int_of_digits.
  apply Nat.ltb_ge in Hlen. rewrite Hlen. reflexivity.
Qed.

(** A text whose first character that is no blank cannot start a JSON
    value, and a text of blanks, is refused. *)
Lemma scan_once_no_value n c r :
  starts_value c = false -> scan_once n (String c r) = Raise JSONDecodeError.
Proof.
  destruct c as [[] [] [] [] [] [] [] []]; intros H;
    vm_compute in H; try discriminate H; clear H; destruct n; reflexivity.
Qed.

Lemma skip_ws_head s :
  match skip_ws s with
  | String c _ => is_ws c = false
  | EmptyString => True
  end.
Proof.
  induction s as [|c s IH]; [done|].
  cbn [skip_ws]. destruct (is_ws c) eqn:E; [exact IH|exact E].
Qed.

Lemma loads_no_value s :
  match skip_ws s with
  | String c _ => starts_value c = false
  | EmptyString => True
  end ->
  loads s = Raise JSONDecodeError.
Proof.
  unfold loads. destruct (skip_ws s) as [|c r]; intros H.
  - reflexivity.
  - by rewrite (scan_once_no_value _ _ _ H).
Qed.

Example loads_array :
  loads ("[" ++ quote "a" ++ "," ++ quote "b" ++ "]")
  = Ok (PList [PStr "a"; PStr "b"]).
Proof. by_evaluation. Qed.

Example loads_bare_words : loads "[a,b]" = Raise JSONDecodeError.
Proof. by_evaluation. Qed.

Example loads_nested :
  loads ("{" ++ quote "k" ++ ": [1, -2, 2.5e3, null, true, {}]}")
  = Ok (PDict [("k", PList [PInt 1; PInt (-2); PFloat "2.5e3"; PNone;
                            PBool true; PDict []])]).
Proof. by_evaluation. Qed.

Example loads_trailing_comma : loads "[1,]" = Raise JSONDecodeError.
Proof. by_evaluation. Qed.

Example loads_escapes :
  loads (String dq (String backslash (String "u" ("0041"
           ++ String backslash (String "n" (String backslash
                (String "/" (String dq EmptyString))))))))
  = Ok (PStr (String "A" (String "010" (String "/" EmptyString)))).
Proof. by_evaluation. Qed.

Example dumps_escapes :
  dumps_strs [String "a" (String dq "b"); String backslash EmptyString;
              String "010" (String "127" (String "001" " /~"))]
  = "[" ++ String dq ("a" ++ String backslash (String dq "b"))
    ++ String dq (", " ++ String dq (String backslash (String backslash
         (String dq (", " ++ String dq (String backslash ("n"
            ++ String backslash ("u007f" ++ String backslash
                 ("u0001 /~" ++ String dq "]")))))))))%string.
Proof. by_evaluation. Qed.

End JsonFacts.

(** ** The probe loop *)

Lemma last_default_irrelevant {A} (x : A) l d d' :
  List.last (x :: l) d = List.last (x :: l) d'.
Proof.
  revert x. induction l as [|y l IH]; intros x; [done|].
  change (List.last (y :: l) d = List.last (y :: l) d'). apply IH.
Qed.

Section ProbeFacts.
Variables env_vars config_file_vars : option StrDict.

Lemma dict_get_truthy (d : option StrDict) key v :
  dict_get d key = Some v -> dict_truthy d = true.
Proof.
  destruct d as [m|]; simpl; [|discriminate].
  intros H. apply negb_true_iff, bool_decide_eq_false.
  intros ->. by rewrite lookup_empty in H.
Qed.

Lemma found_Some s : s <> EmptyString -> found (Bound (Some s)) = true.
Proof.
  intros H. simpl. apply negb_true_iff, String.eqb_neq. exact H.
Qed.

(** With both mappings empty or absent the loop assigns nothing. *)
Lemma probe_no_sources keys key val :
  dict_truthy env_vars = false -> dict_truthy config_file_vars = false ->
  snd (probe keys env_vars config_file_vars key val) = val.
Proof.
  intros He Hf. revert key val.
  induction keys as [|k keys IH]; intros key val; simpl; [done|].
  rewrite He, Hf. simpl. apply IH.
Qed.

(** The environment under the first name decides at once. *)
Lemma probe_env_first key rest k0 val E :
  dict_get env_vars key = Some E -> E <> EmptyString ->
  probe (key :: rest) env_vars config_file_vars k0 val
  = (key, Bound (Some E)).
Proof.
  intros H Hne. simpl.
  rewrite (dict_get_truthy _ _ _ H), H. simpl.
  apply String.eqb_neq in Hne. by rewrite Hne.
Qed.

(** So does the file under the first name when the environment has
    nothing there. *)
Lemma probe_file_first key rest k0 val F :
  found (Bound (dict_get env_vars key)) = false ->
  dict_get config_file_vars key = Some F -> F <> EmptyString ->
  probe (key :: rest) env_vars config_file_vars k0 val
  = (key, Bound (Some F)).
Proof.
  intros He H Hne. cbn [probe].
  rewrite (dict_get_truthy _ _ _ H), H.
  replace (dict_truthy env_vars &&
           found (if dict_truthy env_vars
                  then Bound (dict_get env_vars key) else val))%bool
    with false.
  2:{ destruct (dict_truthy env_vars); [by rewrite He|done]. }
  rewrite (found_Some _ Hne). reflexivity.
Qed.

(** Where no probed name has a non-empty value in either mapping, and one
    mapping at least is not empty, the loop runs to its end: [key] is the
    last name and [val] what the last lookup returned. *)
Lemma probe_not_found keys key val :
  (dict_truthy env_vars || dict_truthy config_file_vars)%bool = true ->
  Forall (not_found env_vars config_file_vars) keys ->
  keys <> [] ->
  probe keys env_vars config_file_vars key val
  = (List.last keys key,
     Bound (last_lookup env_vars config_file_vars (List.last keys key))).
Proof.
  intros Ht Hall. revert key val.
  induction Hall as [|k keys [He Hf] Hall IH]; intros key val Hne; [done|].
  cbn [probe].
  replace (dict_truthy env_vars &&
           found (if dict_truthy env_vars
                  then Bound (dict_get env_vars k) else val))%bool
    with false
    by (destruct (dict_truthy env_vars); [by rewrite He|done]).
  replace (dict_truthy config_file_vars &&
           found (if dict_truthy config_file_vars
                  then Bound (dict_get config_file_vars k)
                  else if dict_truthy env_vars
                       then Bound (dict_get env_vars k) else val))%bool
    with false
    by (destruct (dict_truthy config_file_vars); [by rewrite Hf|done]).
  destruct keys as [|k' keys].
  - cbn [probe List.last]. unfold last_lookup.
    destruct (dict_truthy config_file_vars); [done|].
    destruct (dict_truthy env_vars); [done|discriminate].
  - rewrite IH by done.
    change (List.last (k :: k' :: keys) key) with (List.last (k' :: keys) key).
    by rewrite (last_default_irrelevant k' keys k key).
Qed.
End ProbeFacts.

(** ** [load_config_val] *)

(** Without a type the sources are not looked at. *)
Lemma load_config_val_untyped
    key default aliases config env_vars config_file_vars :
  load_config_val key default None aliases config env_vars config_file_vars
  = use_default default config.
Proof.
  unfold load_config_val.
  by destruct (probe _ _ _ _ _).
Qed.

Lemma load_config_loop_untyped defaults :
  Forall (fun kd => d_type (snd kd) = None) defaults ->
  forall config env_vars config_file_vars env_vars' config_file_vars',
    load_config_loop defaults config env_vars config_file_vars
    = load_config_loop defaults config env_vars' config_file_vars'.
Proof.
  induction 1 as [|[key d] defaults Hd _ IH]; intros; simpl; [done|].
  simpl in Hd. rewrite Hd, !load_config_val_untyped.
  destruct (use_default _ _) as [v|e]; [apply IH|done].
Qed.

Lemma load_config_val_env
    key default (t : ConfigType) aliases config env_vars config_file_vars E :
  dict_get env_vars key = Some E -> E <> EmptyString ->
  load_config_val key default (Some t) aliases config
                  env_vars config_file_vars
  = coerce key E t.
Proof.
  intros H Hne. unfold load_config_val.
  by rewrite (probe_env_first _ _ _ _ _ _ _ H Hne).
Qed.

Lemma load_config_val_file
    key default (t : ConfigType) aliases config env_vars config_file_vars F :
  found (Bound (dict_get env_vars key)) = false ->
  dict_get config_file_vars key = Some F -> F <> EmptyString ->
  load_config_val key default (Some t) aliases config
                  env_vars config_file_vars
  = coerce key F t.
Proof.
  intros He H Hne. unfold load_config_val.
  by rewrite (probe_file_first _ _ _ _ _ _ _ He H Hne).
Qed.

Lemma load_config_val_default
    key default (t : ConfigType) aliases config env_vars config_file_vars :
  (dict_truthy env_vars || dict_truthy config_file_vars)%bool = true ->
  Forall (not_found env_vars config_file_vars)
         (key :: match aliases with Some a => a | None => [] end) ->
  last_lookup env_vars config_file_vars
    (List.last (key :: match aliases with Some a => a | None => [] end) key)
  = None ->
  load_config_val key default (Some t) aliases config
                  env_vars config_file_vars
  = use_default default config.
Proof.
  intros Ht Hall Hlast. unfold load_config_val.
  rewrite (probe_not_found env_vars config_file_vars _ key Unbound Ht Hall)
    by done.
  by rewrite Hlast.
Qed.

(** C3, as amended: for a declared base key with default D, a non-empty
    value F that the config file holds under the key's own name is the
    result (coerced) when the environment holds no non-empty value under
    that name; a non-empty value E that the environment holds under the
    key's own name is the result (coerced) whatever the file holds; and
    where one source at least is not empty, neither holds a non-empty
    value under any probed name, and the lookup the loop makes last (in
    the config file under the last probed name, in the environment when
    the file mapping is empty or absent) finds no value at all, not even
    an empty string, the result is D, or D applied to the snapshot
    resolved so far when D is a function. *)
Theorem precedence_env_file_default
    key default (t : ConfigType) aliases config env_vars config_file_vars :
  (forall F,
      found (Bound (dict_get env_vars key)) = false ->
      dict_get config_file_vars key = Some F -> F <> EmptyString ->
      load_config_val key default (Some t) aliases config
                      env_vars config_file_vars
      = coerce key F t)
  /\ (forall E,
         dict_get env_vars key = Some E -> E <> EmptyString ->
         load_config_val key default (Some t) aliases config
                         env_vars config_file_vars
         = coerce key E t)
  /\ ((dict_truthy env_vars || dict_truthy config_file_vars)%bool = true ->
      Forall (not_found env_vars config_file_vars)
             (key :: match aliases with Some a => a | None => [] end) ->
      last_lookup env_vars config_file_vars
        (List.last (key :: match aliases with Some a => a | None => [] end)
                   key)
      = None ->
      load_config_val key default (Some t) aliases config
                      env_vars config_file_vars
      = match default, config with
        | Static D, _ => Ok D
        | Callable D, Some snapshot => D snapshot
        | Callable _, None => Raise AssertionError
        end).
Proof.
  split; [|split].
  - intros F. apply load_config_val_file.
  - intros E. apply load_config_val_env.
  - intros Ht Hall Hlast. rewrite load_config_val_default by done.
    by destruct default, config.
Qed.

(** C3, as stated, fails: the environment holds no value for
    [CHROME_USER_DATA_DIR] and the file holds an empty one ([KEY=]), so
    neither source holds a non-empty value; the result is the empty
    string, not the default [None]. *)
Lemma empty_file_value_is_not_defaulted :
  found (Bound (dict_get (Some {[ "HOME" := "/root" ]})
                         "CHROME_USER_DATA_DIR")) = false
  /\ found (Bound (dict_get (Some {[ "CHROME_USER_DATA_DIR" := EmptyString ]})
                            "CHROME_USER_DATA_DIR")) = false
  /\ load_config_val "CHROME_USER_DATA_DIR" (Static PNone) (Some TStr) None
       (Some ∅) (Some {[ "HOME" := "/root" ]})
       (Some {[ "CHROME_USER_DATA_DIR" := EmptyString ]})
     = Ok (PStr EmptyString)
  /\ Ok (PStr EmptyString) <> Ok PNone.
Proof. vm_compute. repeat split; congruence. Qed.

(** C4: the claim holds of the precedence the module documents
    (environment, then file, then default) and fails on the code.  The
    loop asks the environment and then the file under one name before it
    turns to the next name, so a value in the file under the canonical
    name is taken before the environment is asked for an alias: with
    [FETCH_WGET=False] in the environment and [SAVE_WGET=True] in the file,
    [SAVE_WGET] resolves to [True]. *)
Theorem file_canonical_beats_env_alias :
  load_config_val "SAVE_WGET" (Static (PBool true)) (Some TBool)
    (Some ["FETCH_WGET"]) (Some ∅)
    (Some {[ "FETCH_WGET" := "False" ]}) (Some {[ "SAVE_WGET" := "True" ]})
  = Ok (PBool true)
  /\ coerce "FETCH_WGET" "False" TBool = Ok (PBool false).
Proof. by_evaluation. Qed.

(** C7, as amended: a non-empty raw string that the environment holds
    under the name of a list-typed key is handed to [json.loads], and
    what the decoder makes of it is the result, with no check that it is
    a list of strings and no [InvalidConfigValue].  The text that
    [json.dumps] writes for a list of ASCII strings gives that list; the
    text it writes for one ASCII string gives that string, and a string
    of at most 4300 digits that does not start with a zero gives that
    integer, both without an error; a string that is blank, or whose
    first character that is no blank cannot start a JSON value, raises
    the decoder's [JSONDecodeError], a [ValueError]. *)
Theorem list_coercion_is_json_decoding
    key default aliases config env_vars config_file_vars val :
  dict_get env_vars key = Some val -> val <> EmptyString ->
  let coerced :=
    load_config_val key default (Some TList) aliases config
                    env_vars config_file_vars in
  coerced = Json.loads val
  /\ (forall l, Forall (fun s => PyStr.is_ascii s = true) l ->
                val = Json.dumps_strs l -> coerced = Ok (strs l))
  /\ (forall s, PyStr.is_ascii s = true ->
                val = Json.quote s ->
                coerced = Ok (PStr s) /\ is_str_list (PStr s) = false)
  /\ (PyStr.isdigit val = true -> PyStr.startswith "0" val = false ->
      (String.length val <= 4300)%nat ->
      coerced = Ok (PInt (PyStr.int val))
      /\ is_str_list (PInt (PyStr.int val)) = false)
  /\ (match Json.skip_ws val with
      | String c _ => Json.starts_value c = false
      | EmptyString => True
      end ->
      coerced = Raise JSONDecodeError
      /\ is_ValueError JSONDecodeError = true).
Proof.
  intros H Hne coerced.
  assert (Hc : coerced = Json.loads val)
    by (unfold coerced; by rewrite (load_config_val_env _ _ _ _ _ _ _ _ H Hne)).
  split; [exact Hc|]. rewrite Hc. repeat split.
  - intros l Hl ->. by apply JsonFacts.loads_dumps_strs.
  - subst val. by apply JsonFacts.loads_quote.
  - destruct val as [|c val]; [done|].
    apply JsonFacts.loads_digits; [done| |done].
    intros ->. discriminate.
  - by apply JsonFacts.loads_no_value.
Qed.

(** C7, as stated, fails: [7] is JSON but no array of strings, and the
    coercion of a list-typed key returns the integer instead of failing. *)
Lemma list_coercion_accepts_any_json :
  load_config_val "CURL_ARGS"
    (Static (strs ["--silent"; "--location"; "--compressed"]))
    (Some TList) None (Some ∅) (Some {[ "CURL_ARGS" := "7" ]}) None
  = Ok (PInt 7)
  /\ is_str_list (PInt 7) = false.
Proof. by_evaluation. Qed.

(** C8: called for a typed key with both [env_vars] and
    [config_file_vars] empty or absent, the probe loop leaves [val]
    unassigned and the function raises [UnboundLocalError] instead of
    falling back to the default. *)
Theorem unbound_val_without_sources
    key default (t : ConfigType) aliases config env_vars config_file_vars :
  dict_truthy env_vars = false ->
  dict_truthy config_file_vars = false ->
  snd (probe (key :: match aliases with Some a => a | None => [] end)
             env_vars config_file_vars key Unbound) = Unbound
  /\ load_config_val key default (Some t) aliases config
                     env_vars config_file_vars
     = Raise (UnboundLocalError "val").
Proof.
  intros He Hf.
  pose proof (probe_no_sources env_vars config_file_vars
                (key :: match aliases with Some a => a | None => [] end)
                key Unbound He Hf) as Hp.
  split; [exact Hp|].
  unfold load_config_val.
  destruct (probe _ _ _ _ _) as [k v]. simpl in Hp. by rewrite Hp.
Qed.

(** C10: a declaration without a type, as all of
    [DERIVED_CONFIG_DEFAULTS] are, resolves to its default function applied
    to the snapshot so far whatever the environment and the config file
    hold, under the key's name or any other; a pass over such a table
    does not depend on the two sources. *)
Theorem derived_keys_ignore_sources (host : Host) :
  Forall (fun kd => d_type (snd kd) = None
                    /\ exists f, d_default (snd kd) = Callable f)
         (Tables.DERIVED_CONFIG_DEFAULTS host)
  /\ (forall key f aliases snapshot env_vars config_file_vars,
         load_config_val key (Callable f) None aliases (Some snapshot)
                         env_vars config_file_vars
         = f snapshot)
  /\ (forall defaults,
         Forall (fun kd => d_type (snd kd) = None) defaults ->
         forall config env_vars config_file_vars,
           load_config_loop defaults config env_vars config_file_vars
           = load_config_loop defaults config None None).
Proof.
  split; [|split].
  - unfold Tables.DERIVED_CONFIG_DEFAULTS.
    repeat (apply Forall_cons_2;
            [split; [reflexivity|eexists; reflexivity]|]).
    apply Forall_nil_2.
  - intros. apply load_config_val_untyped.
  - intros defaults Hd config env_vars config_file_vars.
    by apply load_config_loop_untyped.
Qed.

(** ** The loop of [load_config] *)

Section LoopFacts.
Variables env_vars config_file_vars : option StrDict.

Lemma load_config_loop_app (pre post : ConfigDefaultDict) CONFIG :
  load_config_loop (pre ++ post)%list CONFIG env_vars config_file_vars
  = rbind (load_config_loop pre CONFIG env_vars config_file_vars)
          (fun c => load_config_loop post c env_vars config_file_vars).
Proof.
  revert CONFIG. induction pre as [|[key d] pre IH]; intros CONFIG; [done|].
  cbn [app load_config_loop].
  destruct (load_config_val _ _ _ _ _ _ _) as [v|e]; [apply IH|].
  by destruct e.
Qed.

(** A pass leaves the keys it does not declare as they were. *)
Lemma load_config_loop_keeps defaults CONFIG final :
  load_config_loop defaults CONFIG env_vars config_file_vars = Ok final ->
  forall k, k ∉ map fst defaults -> final !! k = CONFIG !! k.
Proof.
  revert CONFIG. induction defaults as [|[key d] defaults IH];
    intros CONFIG H k Hk.
  - by injection H as <-.
  - cbn [load_config_loop] in H.
    destruct (load_config_val _ _ _ _ _ _ _) as [v|e];
      [|destruct e; discriminate].
    cbn [map fst] in Hk. apply not_elem_of_cons in Hk as [Hne Hk].
    rewrite (IH _ H k Hk). by apply lookup_insert_ne.
Qed.

(** A pass that succeeds, cut at one of its declarations. *)
Lemma load_config_loop_split (pre post : ConfigDefaultDict)
    key d CONFIG final :
  NoDup (map fst (pre ++ (key, d) :: post)%list) ->
  load_config_loop (pre ++ (key, d) :: post)%list CONFIG
                   env_vars config_file_vars = Ok final ->
  exists snapshot v,
    load_config_loop pre CONFIG env_vars config_file_vars = Ok snapshot
    /\ load_config_val key (d_default d) (d_type d) (d_aliases d)
         (Some snapshot) env_vars config_file_vars = Ok v
    /\ final !! key = Some v
    /\ (forall k, k ∈ map fst pre -> snapshot !! k = final !! k)
    /\ (forall k, k ∉ map fst pre -> snapshot !! k = CONFIG !! k).
Proof.
  intros Hnd H. rewrite load_config_loop_app in H.
  destruct (load_config_loop pre _ _ _) as [snapshot|e] eqn:Hpre;
    [|discriminate].
  cbn [rbind load_config_loop] in H.
  destruct (load_config_val _ _ _ _ _ _ _) as [v|e] eqn:Hv;
    [|destruct e; discriminate].
  rewrite map_app in Hnd. cbn [map fst] in Hnd.
  apply NoDup_app in Hnd as (_ & Hdisj & Hnd').
  apply NoDup_cons in Hnd' as [Hkey _].
  exists snapshot, v.
  split; [done|]. split; [done|]. split; [|split].
  3: by apply load_config_loop_keeps.
  - rewrite (load_config_loop_keeps _ _ _ H key Hkey).
    apply lookup_insert_eq.
  - intros k Hk. specialize (Hdisj k Hk).
    apply not_elem_of_cons in Hdisj as [Hne Hpost].
    rewrite (load_config_loop_keeps _ _ _ H k Hpost).
    symmetry. by apply lookup_insert_ne.
Qed.
End LoopFacts.

(** ** Paths and files *)

Lemma bak_neq p : bak p <> p.
Proof.
  unfold bak. intros H. apply (f_equal String.length) in H.
  rewrite length_app_str in H. simpl in H. lia.
Qed.

Lemma neq_bak p : p <> bak p.
Proof. apply not_eq_sym, bak_neq. Qed.

Lemma set_files_id w : set_files w (files w) = w.
Proof. by destruct w. Qed.

(** ** Ordered dicts and the parser state *)

Lemma od_get_set_eq d k v : od_get (od_set d k v) k = Some v.
Proof.
  induction d as [|[k' v'] d IH]; cbn [od_set od_get].
  - by rewrite String.eqb_refl.
  - destruct (String.eqb k k') eqn:E; cbn [od_get]; rewrite E; [done|apply IH].
Qed.

Lemma od_get_app_l (a b : odict) k v :
  od_get a k = Some v -> od_get (a ++ b)%list k = Some v.
Proof.
  induction a as [|[k' v'] a IH]; [discriminate|].
  cbn [app od_get]. destruct (String.eqb k k'); [done|apply IH].
Qed.

Lemma sect_get_set_eq l name d : sect_get (sect_set l name d) name = Some d.
Proof.
  induction l as [|[n d'] l IH]; cbn [sect_set sect_get].
  - by rewrite String.eqb_refl.
  - destruct (String.eqb name n) eqn:E; cbn [sect_get]; rewrite E;
      [done|apply IH].
Qed.

(** ** Text mode *)




(** ** Interpolation *)

Lemma percent_free_cons c s :
  percent_free (String c s) = true ->
  Ascii.eqb c percent = false /\ percent_free s = true.
Proof.
  unfold percent_free. cbn [PyStr.char_in].
  rewrite (Ascii.eqb_sym percent c). intros H.
  apply negb_true_iff, orb_false_iff in H as [H1 H2].
  by rewrite H1, H2.
Qed.

Lemma drop_escaped_percents_free s :
  percent_free s = true -> drop_escaped_percents s = s.
Proof.
  induction s as [|c s IH]; [done|]. intros H.
  apply percent_free_cons in H as [Hc Hs].
  cbn [drop_escaped_percents]. destruct s as [|d s]; [done|].
  rewrite Hc. cbn [andb]. by rewrite IH.
Qed.

Lemma drop_references_free s :
  percent_free s = true -> drop_references s O = s.
Proof.
  induction s as [|c s IH]; [done|]. intros H.
  apply percent_free_cons in H as [Hc Hs].
  cbn [drop_references key_reference].
  destruct s as [|b s]; [by rewrite IH|].
  rewrite Hc. cbn [andb]. by rewrite IH.
Qed.

(** A value without [%] is set as it is. *)
Lemma checked_free v : percent_free v = true -> checked v = Ok v.
Proof.
  intros H. unfold checked, before_set.
  destruct (String.eqb v EmptyString); [done|].
  rewrite drop_escaped_percents_free, drop_references_free by done.
  unfold percent_free in H. apply negb_true_iff in H. by rewrite H.
Qed.

(** A value without [%] is read as it is. *)
Lemma before_get_free option_name section_name map v :
  percent_free v = true ->
  before_get option_name section_name map v = Ok v.
Proof.
  unfold before_get, MAX_INTERPOLATION_DEPTH. cbn [interpolate_some].
  induction v as [|c v IH]; [done|]. intros H.
  apply percent_free_cons in H as [Hc Hv].
  rewrite Hc. by rewrite IH.
Qed.

Lemma percent_free_dict_cons k v (d : odict) :
  percent_free_dict ((k, v) :: d) = true ->
  percent_free v = true /\ percent_free_dict d = true.
Proof. unfold percent_free_dict. cbn [forallb snd]. apply andb_true_iff. Qed.

Lemma percent_free_dict_get (d : odict) k v :
  percent_free_dict d = true -> od_get d k = Some v -> percent_free v = true.
Proof.
  induction d as [|[k' v'] d IH]; [discriminate|]. intros H.
  apply percent_free_dict_cons in H as [Hv Hd].
  cbn [od_get]. destruct (String.eqb k k'); [by intros [= <-]|by apply IH].
Qed.

Lemma percent_free_dict_set (d : odict) k v :
  percent_free_dict d = true -> percent_free v = true ->
  percent_free_dict (od_set d k v) = true.
Proof.
  intros Hd Hv. induction d as [|[k' v'] d IH].
  - unfold percent_free_dict. cbn [od_set forallb snd]. by rewrite Hv.
  - apply percent_free_dict_cons in Hd as [Hv' Hd].
    cbn [od_set]. unfold percent_free_dict in *.
    destruct (String.eqb k k'); cbn [forallb snd].
    + by rewrite Hv, Hd.
    + by rewrite Hv', (IH Hd).
Qed.

Lemma percent_free_dict_app (a b : odict) :
  percent_free_dict (a ++ b)%list
  = (percent_free_dict a && percent_free_dict b)%bool.
Proof. apply forallb_app. Qed.

Lemma percent_free_dict_filter (P : string * string -> bool) (d : odict) :
  percent_free_dict d = true -> percent_free_dict (filter P d) = true.
Proof.
  induction d as [|[k v] d IH]; [done|]. intros H.
  apply percent_free_dict_cons in H as [Hv Hd].
  rewrite filter_cons. destruct (decide _); [|by apply IH].
  unfold percent_free_dict in *. cbn [forallb snd]. by rewrite Hv, (IH Hd).
Qed.

Lemma percent_free_sect_get (l : list (string * odict)) name d :
  forallb (fun nd => percent_free_dict (snd nd)) l = true ->
  sect_get l name = Some d -> percent_free_dict d = true.
Proof.
  induction l as [|[n d'] l IH]; [discriminate|].
  cbn [forallb snd sect_get]. intros H.
  apply andb_true_iff in H as [Hd Hl].
  destruct (String.eqb name n); [by intros [= <-]|by apply IH].
Qed.

Lemma percent_free_sect_set (l : list (string * odict)) name d :
  forallb (fun nd => percent_free_dict (snd nd)) l = true ->
  percent_free_dict d = true ->
  forallb (fun nd => percent_free_dict (snd nd)) (sect_set l name d) = true.
Proof.
  intros Hl Hd. induction l as [|[n d'] l IH].
  - cbn [sect_set forallb snd]. by rewrite Hd.
  - cbn [forallb snd] in Hl. apply andb_true_iff in Hl as [Hd' Hl].
    cbn [sect_set]. destruct (String.eqb name n); cbn [forallb snd].
    + by rewrite Hd, Hl.
    + by rewrite Hd', (IH Hl).
Qed.

Lemma percent_free_raw_options cp name :
  percent_free_parser cp = true ->
  percent_free_dict (raw_options cp name) = true.
Proof.
  unfold percent_free_parser. intros H.
  apply andb_true_iff in H as [Hd Hs]. unfold raw_options.
  destruct (String.eqb name DEFAULTSECT); [done|].
  rewrite percent_free_dict_app, percent_free_dict_filter by done.
  rewrite andb_true_r.
  destruct (sect_get (cp_sections cp) name) as [d|] eqn:E; [|done].
  by apply (percent_free_sect_get _ _ _ Hs E).
Qed.

Lemma percent_free_raw_set_section cp name d :
  percent_free_parser cp = true -> percent_free_dict d = true ->
  percent_free_parser (raw_set_section cp name d) = true.
Proof.
  unfold percent_free_parser, raw_set_section. intros H Hd.
  apply andb_true_iff in H as [Hdef Hs].
  destruct (String.eqb name DEFAULTSECT); cbn [cp_defaults cp_sections].
  - by rewrite Hd, Hs.
  - by rewrite Hdef, percent_free_sect_set.
Qed.

Lemma read_options_free cp name (l : odict) :
  percent_free_dict l = true -> read_options cp name l = Ok l.
Proof.
  induction l as [|[k v] l IH]; [done|]. intros H.
  apply percent_free_dict_cons in H as [Hv Hl].
  cbn [read_options]. rewrite before_get_free by done. cbn [rbind].
  by rewrite IH.
Qed.

(** On a parser state without [%], reading is the raw lookup and
    setting stores the value. *)
Lemma cp_section_dict_free cp name :
  percent_free_parser cp = true ->
  cp_section_dict cp name = Ok (raw_options cp name).
Proof.
  intros H. apply read_options_free. by apply percent_free_raw_options.
Qed.

Lemma cp_get_free cp name key :
  percent_free_parser cp = true ->
  cp_get cp name key
  = match raw_get cp name key with
    | Some v => Ok v
    | None => Raise (KeyError key)
    end.
Proof.
  intros H. unfold cp_get. destruct (raw_get cp name key) as [v|] eqn:E; [|done].
  apply before_get_free.
  apply (percent_free_dict_get _ _ _ (percent_free_raw_options _ name H) E).
Qed.

Lemma check_values_free (d : odict) :
  percent_free_dict d = true -> check_values d = Ok tt.
Proof.
  induction d as [|[k v] d IH]; [done|]. intros H.
  apply percent_free_dict_cons in H as [Hv Hd].
  cbn [check_values]. by rewrite checked_free, IH.
Qed.

Lemma cp_set_section_free cp name (d : odict) :
  percent_free_dict d = true ->
  cp_set_section cp name d = Ok (raw_set_section cp name d).
Proof. intros H. unfold cp_set_section. by rewrite check_values_free. Qed.

Lemma cp_set_section_Ok cp name d cp' :
  cp_set_section cp name d = Ok cp' -> cp' = raw_set_section cp name d.
Proof.
  unfold cp_set_section. destruct (check_values d); [|discriminate].
  by intros [= <-].
Qed.

Lemma cp_set_option_Ok cp name key v cp' :
  cp_set_option cp name key v = Ok cp' -> cp' = raw_set_option cp name key v.
Proof.
  unfold cp_set_option. destruct (checked v); [|discriminate].
  by intros [= <-].
Qed.

(** ** The parser state *)

Lemma od_get_app (a b : odict) k :
  od_get (a ++ b)%list k
  = match od_get a k with Some v => Some v | None => od_get b k end.
Proof.
  induction a as [|[k' v'] a IH]; [done|].
  cbn [app od_get]. by destruct (String.eqb k k').
Qed.

Lemma od_get_set_ne d k v k' :
  k' <> k -> od_get (od_set d k v) k' = od_get d k'.
Proof.
  intros Hne. apply String.eqb_neq in Hne.
  induction d as [|[k0 v0] d IH]; cbn [od_set od_get].
  - by rewrite Hne.
  - destruct (String.eqb k k0) eqn:E; cbn [od_get]; [|by rewrite IH].
    apply String.eqb_eq in E as <-. by rewrite Hne.
Qed.

Lemma od_get_filter (D : odict) (P : string * string -> bool) k :
  (forall v, P (k, v) = true) ->
  od_get (filter P D) k = od_get D k.
Proof.
  intros HP. induction D as [|[k' v'] D IH]; [done|].
  rewrite filter_cons. destruct (decide _) as [Hp|Hp]; cbn [od_get].
  - by rewrite IH.
  - destruct (String.eqb k k') eqn:E; [|done].
    apply String.eqb_eq in E as <-. by rewrite HP in Hp.
Qed.

Lemma sect_get_set_ne l name d name' :
  name' <> name -> sect_get (sect_set l name d) name' = sect_get l name'.
Proof.
  intros Hne. apply String.eqb_neq in Hne.
  induction l as [|[n d'] l IH]; cbn [sect_set sect_get].
  - by rewrite Hne.
  - destruct (String.eqb name n) eqn:E; cbn [sect_get]; [|by rewrite IH].
    apply String.eqb_eq in E as <-. by rewrite Hne.
Qed.

(** The raw value of an option of a section other than the default one:
    the section's own, or else the default section's. *)
Lemma raw_get_inherit cp name k :
  name <> DEFAULTSECT ->
  raw_get cp name k
  = match od_get (match sect_get (cp_sections cp) name with
                  | Some d => d
                  | None => []
                  end) k with
    | Some v => Some v
    | None => od_get (cp_defaults cp) k
    end.
Proof.
  intros Hne. apply String.eqb_neq in Hne.
  unfold raw_get, raw_options. rewrite Hne, od_get_app.
  destruct (od_get _ k) eqn:E; [done|].
  apply od_get_filter. intros v. cbn [fst]. unfold od_mem. by rewrite E.
Qed.

Lemma raw_get_default cp k :
  raw_get cp DEFAULTSECT k = od_get (cp_defaults cp) k.
Proof. done. Qed.

(** What the assignment of a dict that holds [val] under [key], made of
    the options the section showed, makes of the parser state. *)
Lemma assign_get_eq cp section (existing : odict) key val :
  raw_get (raw_set_section cp section (od_set existing key val)) section key
  = Some val.
Proof.
  unfold raw_set_section.
  destruct (String.eqb section DEFAULTSECT) eqn:E.
  - apply String.eqb_eq in E as ->. rewrite raw_get_default.
    apply od_get_set_eq.
  - apply String.eqb_neq in E. rewrite raw_get_inherit by done.
    cbn [cp_sections]. by rewrite sect_get_set_eq, od_get_set_eq.
Qed.

Lemma assign_has_section cp section (d : odict) name :
  cp_has_section (raw_set_section cp section d) name
  = (cp_has_section cp name || String.eqb name section)%bool.
Proof.
  unfold raw_set_section.
  destruct (String.eqb section DEFAULTSECT) eqn:E.
  - apply String.eqb_eq in E as ->. unfold cp_has_section. cbn [cp_sections].
    destruct (String.eqb name DEFAULTSECT); [done|].
    by rewrite orb_false_r.
  - unfold cp_has_section. cbn [cp_sections].
    destruct (String.eqb name DEFAULTSECT); [done|]. cbn [orb].
    destruct (String.eqb name section) eqn:En.
    + apply String.eqb_eq in En as ->.
      by rewrite sect_get_set_eq, orb_true_r.
    + apply String.eqb_neq in En. rewrite sect_get_set_ne by done.
      by rewrite orb_false_r.
Qed.

Lemma assign_get_ne cp section key val name k :
  k <> key ->
  raw_get (raw_set_section cp section
             (od_set (if cp_has_section cp section
                      then raw_options cp section else []) key val))
          name k
  = raw_get cp name k.
Proof.
  intros Hk. unfold raw_set_section.
  destruct (String.eqb section DEFAULTSECT) eqn:E.
  - apply String.eqb_eq in E as ->.
    change (cp_has_section cp DEFAULTSECT) with true. cbv iota.
    change (raw_options cp DEFAULTSECT) with (cp_defaults cp).
    destruct (decide (name = DEFAULTSECT)) as [->|Hn].
    + rewrite !raw_get_default. cbn [cp_defaults]. by apply od_get_set_ne.
    + rewrite !raw_get_inherit by done. cbn [cp_defaults cp_sections].
      by rewrite od_get_set_ne.
  - apply String.eqb_neq in E.
    destruct (decide (name = DEFAULTSECT)) as [->|Hn]; [done|].
    rewrite (raw_get_inherit _ name) by done. cbn [cp_defaults cp_sections].
    destruct (decide (name = section)) as [->|Hs].
    + rewrite sect_get_set_eq, od_get_set_ne by done.
      unfold cp_has_section. apply String.eqb_neq in E. rewrite E.
      cbn [orb]. apply String.eqb_neq in E.
      destruct (sect_get (cp_sections cp) section) as [d|] eqn:Hd.
      * change (od_get (raw_options cp section) k)
          with (raw_get cp section k).
        destruct (raw_get cp section k) as [v|] eqn:Hc; [done|].
        rewrite raw_get_inherit in Hc by done. rewrite Hd in Hc.
        by destruct (od_get d k).
      * cbn [od_get]. rewrite raw_get_inherit by done. by rewrite Hd.
    + rewrite sect_get_set_ne by done. by rewrite <- raw_get_inherit.
Qed.

(** ** The block on the secret key *)


Lemma server_config_not_default :
  String.eqb "SERVER_CONFIG" DEFAULTSECT = false.
Proof. reflexivity. Qed.

(** The secret as the parser shows it once a value without [%] has
    been put there, the section being there or not. *)
Lemma secret_after_set cp v :
  percent_free v = true ->
  cp_has_section cp "SERVER_CONFIG" = true ->
  cp_has_section (raw_set_option cp "SERVER_CONFIG" "SECRET_KEY" v)
                 "SERVER_CONFIG" = true
  /\ cp_get (raw_set_option cp "SERVER_CONFIG" "SECRET_KEY" v)
            "SERVER_CONFIG" "SECRET_KEY" = Ok v.
Proof.
  intros Hv Hsec. unfold cp_has_section in Hsec.
  rewrite server_config_not_default in Hsec. cbn [orb] in Hsec.
  unfold raw_set_option. rewrite server_config_not_default.
  destruct (sect_get (cp_sections cp) "SERVER_CONFIG") as [d|] eqn:Hd;
    [|discriminate].
  split.
  - unfold cp_has_section. cbn [cp_sections].
    by rewrite sect_get_set_eq, orb_true_r.
  - unfold cp_get. rewrite raw_get_inherit by discriminate.
    cbn [cp_sections]. rewrite sect_get_set_eq, od_get_set_eq.
    by apply before_get_free.
Qed.

Lemma secret_after_new_section cp v :
  percent_free v = true ->
  cp_has_section (raw_set_section cp "SERVER_CONFIG" [("SECRET_KEY", v)])
                 "SERVER_CONFIG" = true
  /\ cp_get (raw_set_section cp "SERVER_CONFIG" [("SECRET_KEY", v)])
            "SERVER_CONFIG" "SECRET_KEY" = Ok v.
Proof.
  intros Hv. split.
  - rewrite assign_has_section. by rewrite String.eqb_refl, orb_true_r.
  - unfold cp_get.
    pose proof (assign_get_eq cp "SERVER_CONFIG" [] "SECRET_KEY" v) as H.
    cbn [od_set] in H. rewrite H. by apply before_get_free.
Qed.

(** Where the block reads a secret that will do, the state shows it. *)
Lemma existing_secret_key_valid config_file existing :
  existing_secret_key config_file = Ok existing ->
  needs_secret existing = false ->
  has_valid_secret config_file.
Proof.
  unfold existing_secret_key. intros H Hneeds.
  destruct (cp_has_section config_file "SERVER_CONFIG") eqn:Hsec.
  2:{ injection H as <-. discriminate. }
  destruct (cp_has_option config_file "SERVER_CONFIG" "SECRET_KEY").
  2:{ injection H as <-. discriminate. }
  cbn [andb] in H.
  destruct (cp_get config_file "SERVER_CONFIG" "SECRET_KEY") as [k|] eqn:Hk;
    [|discriminate].
  injection H as <-. cbn [needs_secret] in Hneeds.
  apply orb_false_iff in Hneeds as [Hk0 Hkp].
  split; [done|]. exists k. split; [done|]. split; [|done].
  by apply String.eqb_neq.
Qed.

Lemma valid_secret_needs_none config_file :
  has_valid_secret config_file ->
  exists k, existing_secret_key config_file = Ok (Some k)
            /\ needs_secret (Some k) = false.
Proof.
  intros (Hsec & k & Hk & Hne & Hph). exists k.
  unfold existing_secret_key, cp_has_option. rewrite Hsec.
  assert (Hmem : od_mem (raw_options config_file "SERVER_CONFIG")
                        "SECRET_KEY" = true).
  { unfold cp_get in Hk. unfold od_mem.
    change (od_get (raw_options config_file "SERVER_CONFIG") "SECRET_KEY")
      with (raw_get config_file "SERVER_CONFIG" "SECRET_KEY").
    by destruct (raw_get config_file "SERVER_CONFIG" "SECRET_KEY"). }
  rewrite Hmem, Hk. cbn [andb rbind needs_secret].
  apply String.eqb_neq in Hne. by rewrite Hne, Hph.
Qed.

(** The block by cases: it fails where the secret in place cannot be
    read; it leaves the state alone where that secret will do; it puts
    the draw in place otherwise. *)
Lemma ensure_secret_key_cases random_secret_key config_file :
  percent_free random_secret_key = true ->
  match existing_secret_key config_file with
  | Raise e => ensure_secret_key random_secret_key config_file = Raise e
  | Ok existing =>
      if needs_secret existing
      then exists final,
             ensure_secret_key random_secret_key config_file = Ok final
             /\ cp_has_section final "SERVER_CONFIG" = true
             /\ cp_get final "SERVER_CONFIG" "SECRET_KEY"
                = Ok random_secret_key
      else ensure_secret_key random_secret_key config_file = Ok config_file
  end.
Proof.
  intros Hr. unfold ensure_secret_key.
  destruct (existing_secret_key config_file) as [existing|e]; [|done].
  cbn [rbind]. destruct (needs_secret existing); [|done].
  destruct (cp_has_section config_file "SERVER_CONFIG") eqn:Hsec.
  - unfold cp_set_option. rewrite checked_free by done. cbn [rbind].
    eexists. split; [reflexivity|]. by apply secret_after_set.
  - unfold cp_set_section. cbn [check_values].
    rewrite checked_free by done. cbn [rbind].
    eexists. split; [reflexivity|]. by apply secret_after_new_section.
Qed.


(** ** The resolver and the writer, for any tables, reader and printer *)

Section EngineFacts.
Variable resolve : string -> string.
Variable cp_read : string -> result ConfigParser.
Variable cp_write : ConfigParser -> string.
Variable CONFIG_DEFAULTS : list (string * ConfigDefaultDict).
Variable DERIVED_CONFIG_DEFAULTS : ConfigDefaultDict.

Local Abbreviation path_of := (config_file_path resolve).
Local Abbreviation bytes_of := (starting_bytes resolve).
Local Abbreviation text_of := (starting_text resolve).
Local Abbreviation write_new :=
  (write_new_file resolve cp_read cp_write CONFIG_DEFAULTS).
Local Abbreviation write_config :=
  (write_config_file resolve cp_read cp_write CONFIG_DEFAULTS
                     DERIVED_CONFIG_DEFAULTS).
Local Abbreviation load_all :=
  (load_all_config resolve cp_read CONFIG_DEFAULTS DERIVED_CONFIG_DEFAULTS).

(** C5: the derived pass runs over [DERIVED_CONFIG_DEFAULTS] in
    declaration order; the function of a derived key receives the
    snapshot accumulated by the pass over the declarations before it,
    on top of all base keys; so every derived key declared earlier
    shows, in that snapshot, the value it has in the final
    configuration, and every other key its base value. *)
Theorem derived_in_declaration_order w final
    (pre post : ConfigDefaultDict) key f aliases :
  DERIVED_CONFIG_DEFAULTS
  = (pre ++ (key, {| d_type := None; d_default := Callable f;
                     d_aliases := aliases |}) :: post)%list ->
  NoDup (map fst DERIVED_CONFIG_DEFAULTS) ->
  load_all w = Ok final ->
  exists base snapshot v,
    load_sections resolve cp_read CONFIG_DEFAULTS ∅ w = Ok base
    /\ load_config resolve cp_read pre (Some base) None None None w
       = Ok snapshot
    /\ f snapshot = Ok v
    /\ final !! key = Some v
    /\ (forall k, k ∈ map fst pre -> snapshot !! k = final !! k)
    /\ (forall k, k ∉ map fst pre -> snapshot !! k = base !! k).
Proof.
  intros Hd Hnd H. unfold load_all_config in H.
  destruct (load_sections _ _ _ _ _) as [base|e]; [|discriminate].
  cbn [rbind] in H. unfold load_config in *. cbn [dict_truthy] in *.
  destruct (load_config_file resolve cp_read None w) as [vars|e];
    [|discriminate].
  cbn [rbind] in *. rewrite Hd in H, Hnd.
  destruct (load_config_loop_split _ _ _ _ _ _ _ _ Hnd H)
    as (snapshot & v & Hpre & Hv & Hkey & Hearlier & Hbase).
  exists base, snapshot, v.
  rewrite load_config_val_untyped in Hv. by repeat split.
Qed.

(** The first stage of the writer, by cases. *)
Lemma write_new_file_unfold config out_dir random_secret_key w :
  write_new config out_dir random_secret_key w
  = match cp_read (text_of out_dir w) with
    | Raise e =>
        (Raise e,
         set_files w (<[path_of out_dir w := bytes_of out_dir w]>
                        (files w)))
    | Ok cf0 =>
        match rbind (set_up_sections CONFIG_DEFAULTS config cf0)
                    (ensure_secret_key random_secret_key) with
        | Raise e => (Raise e, set_files w (backed_up resolve out_dir w))
        | Ok cf2 =>
            (Ok cf2,
             set_files w
               (<[path_of out_dir w := cp_write cf2]>
                  (backed_up resolve out_dir w)))
        end
    end.
Proof.
  unfold write_new_file, backed_up, starting_text, starting_bytes, io_bind,
    io_read, path_exists, atomic_write, cp_read_file, read_text, io_lift,
    write_text, io_ret.
  destruct (files w !! path_of out_dir w) as [c|] eqn:Hc.
  - rewrite bool_decide_eq_true_2 by eauto.
    rewrite Hc.
    rewrite (insert_id (files w) _ _ Hc), set_files_id.
    destruct (cp_read _) as [cf0|e]; [|done].
    rewrite Hc.
    destruct (set_up_sections _ _ _) as [cf1|e]; [|done].
    cbn [rbind]. destruct (ensure_secret_key _ _) as [cf2|e]; done.
  - rewrite bool_decide_eq_false_2 by (intros [? ?]; congruence).
    cbn [files set_files environ].
    rewrite lookup_insert_eq.
    destruct (cp_read _) as [cf0|e]; [|reflexivity].
    cbn [files set_files environ]. rewrite lookup_insert_eq.
    destruct (set_up_sections _ _ _) as [cf1|e]; [|reflexivity].
    cbn [rbind]. destruct (ensure_secret_key _ _) as [cf2|e]; reflexivity.
Qed.

(** The writer as a whole, by the outcome of its stages. *)
Lemma write_config_file_unfold config out_dir random_secret_key w :
  write_config config out_dir random_secret_key w
  = match write_new config out_dir random_secret_key w with
    | (Raise e, w1) => (Raise e, w1)
    | (Ok _, w1) =>
        match load_all w1 with
        | Ok CONFIG => (Ok (requested config CONFIG), w1)
        | Raise _ =>
            match files w1 !! bak (path_of out_dir w) with
            | Some old =>
                (Ok ∅,
                 set_files w1
                   (delete (bak (path_of out_dir w))
                      (<[path_of out_dir w := universal_newlines old]>
                         (files w1))))
            | None =>
                (Raise (FileNotFoundError (bak (path_of out_dir w))), w1)
            end
        end
    end.
Proof.
  unfold write_config_file, io_bind at 1 2, io_read at 1.
  destruct (write_new config out_dir random_secret_key w)
    as [[cf|e] w1]; [|done].
  unfold io_bind, io_try, io_read, io_ret, read_text, atomic_write,
    path_exists, os_remove.
  destruct (load_all w1) as [CONFIG|e]; [done|].
  destruct (files w1 !! bak (path_of out_dir w)) as [old|] eqn:Hb; [|done].
  cbn [files set_files].
  rewrite lookup_insert_ne by apply neq_bak. rewrite Hb.
  rewrite bool_decide_eq_true_2 by eauto.
  cbn [files set_files].
  rewrite lookup_insert_ne by apply neq_bak. rewrite Hb. reflexivity.
Qed.

(** What the first stage leaves on disk when it returns. *)
Lemma write_new_file_Ok config out_dir random_secret_key w cf w1 :
  write_new config out_dir random_secret_key w = (Ok cf, w1) ->
  w1 = set_files w (<[path_of out_dir w := cp_write cf]>
                      (backed_up resolve out_dir w))
  /\ exists cf0,
       cp_read (text_of out_dir w) = Ok cf0
       /\ rbind (set_up_sections CONFIG_DEFAULTS config cf0)
                (ensure_secret_key random_secret_key) = Ok cf.
Proof.
  rewrite write_new_file_unfold.
  destruct (cp_read _) as [cf0|?]; [|discriminate].
  destruct (rbind _ _) as [cf2|?] eqn:E; [|discriminate].
  intros [= <- <-]. split; [done|]. by exists cf0.
Qed.

(** When the new file resolves, the writer returns from inside [try]:
    the world is the one the first stage left, backup included. *)
Lemma write_config_file_success
    config out_dir random_secret_key w cf w1 CONFIG :
  write_new config out_dir random_secret_key w = (Ok cf, w1) ->
  load_all w1 = Ok CONFIG ->
  write_config config out_dir random_secret_key w
  = (Ok (requested config CONFIG), w1)
  /\ files w1 !! bak (path_of out_dir w) = Some (text_of out_dir w).
Proof.
  intros Hnew Hload.
  rewrite write_config_file_unfold, Hnew, Hload. split; [done|].
  apply write_new_file_Ok in Hnew as [-> _].
  cbn [files set_files]. unfold backed_up.
  rewrite lookup_insert_ne by apply neq_bak. apply lookup_insert_eq.
Qed.


Lemma find_section_undeclared key :
  Forall (fun no => declares (snd no) key = false) CONFIG_DEFAULTS ->
  find_section CONFIG_DEFAULTS key = Raise IndexError.
Proof.
  unfold find_section. intros H.
  induction H as [|[name opts] l Hd _ IH]; [done|].
  cbn [filter list_filter]. cbn [snd] in Hd.
  unfold filter in *. cbn [list_filter].
  destruct (decide _) as [Hx|Hx]; [|exact IH].
  cbn [snd] in Hx. by rewrite Hd in Hx.
Qed.

Lemma find_section_raises key e :
  find_section CONFIG_DEFAULTS key = Raise e -> e = IndexError.
Proof.
  unfold find_section.
  destruct (filter _ _) as [|[name opts] l]; congruence.
Qed.

Lemma set_up_sections_app (pre post : odict) config_file :
  set_up_sections CONFIG_DEFAULTS (pre ++ post)%list config_file
  = rbind (set_up_sections CONFIG_DEFAULTS pre config_file)
          (set_up_sections CONFIG_DEFAULTS post).
Proof.
  revert config_file. induction pre as [|[k v] pre IH]; intros config_file;
    [done|].
  cbn [app set_up_sections].
  destruct (find_section CONFIG_DEFAULTS k) as [section|e]; [|done].
  cbn [rbind]. destruct (if cp_has_section _ _ then _ else _) as [d|e];
    [|done].
  cbn [rbind]. destruct (cp_set_section _ _ _) as [cf|e]; [|done].
  cbn [rbind]. apply IH.
Qed.

(** The loop does not get past a key that no section declares. *)
Lemma set_up_sections_undeclared (config : odict) key :
  key ∈ map fst config ->
  find_section CONFIG_DEFAULTS key = Raise IndexError ->
  forall config_file,
    exists e, set_up_sections CONFIG_DEFAULTS config config_file = Raise e.
Proof.
  intros Hin Hf.
  induction config as [|[k v] config IH]; intros config_file.
  - by apply elem_of_nil in Hin.
  - cbn [set_up_sections].
    destruct (find_section CONFIG_DEFAULTS k) as [section|e] eqn:Hk;
      [|by exists e].
    cbn [rbind]. destruct (if cp_has_section _ _ then _ else _) as [d|e];
      [|by exists e].
    cbn [rbind]. destruct (cp_set_section _ _ _) as [cf|e]; [|by exists e].
    cbn [rbind]. apply IH.
    cbn [map fst] in Hin. apply elem_of_cons in Hin as [->|Hin]; [|done].
    congruence.
Qed.

(** C9, as amended: given an assignment whose key no section of
    [CONFIG_DEFAULTS] declares, and a config file that the parser
    reads, the writer raises, uncaught, once the backup is written: the
    backup file stays on disk with the text of the config file, the
    config file holds what it held (or the header it was just created
    with), and nothing is restored or removed.  The error is the
    [IndexError] of the lookup of that key when the assignments before
    it are carried out; when one of those fails, it is the error of that
    one. *)
Theorem undeclared_key_raises_after_backup
    config out_dir random_secret_key w cf0 key :
  cp_read (text_of out_dir w) = Ok cf0 ->
  key ∈ map fst config ->
  Forall (fun no => declares (snd no) key = false) CONFIG_DEFAULTS ->
  (exists e,
     write_config config out_dir random_secret_key w
     = (Raise e, set_files w (backed_up resolve out_dir w)))
  /\ (forall (before after : odict) val reached,
        config = (before ++ (key, val) :: after)%list ->
        set_up_sections CONFIG_DEFAULTS before cf0 = Ok reached ->
        write_config config out_dir random_secret_key w
        = (Raise IndexError, set_files w (backed_up resolve out_dir w)))
  /\ (forall (before after : odict) val e,
        config = (before ++ (key, val) :: after)%list ->
        set_up_sections CONFIG_DEFAULTS before cf0 = Raise e ->
        write_config config out_dir random_secret_key w
        = (Raise e, set_files w (backed_up resolve out_dir w)))
  /\ backed_up resolve out_dir w !! bak (path_of out_dir w)
     = Some (text_of out_dir w)
  /\ backed_up resolve out_dir w !! path_of out_dir w
     = Some (bytes_of out_dir w)
  /\ (forall c0, files w !! path_of out_dir w = Some c0 ->
        backed_up resolve out_dir w
        = <[bak (path_of out_dir w) := universal_newlines c0]> (files w)).
Proof.
  intros Hread Hin Hund.
  pose proof (find_section_undeclared key Hund) as Hkey.
  split; [|split; [|split]].
  - destruct (set_up_sections_undeclared config key Hin Hkey cf0) as [e He].
    exists e.
    by rewrite write_config_file_unfold, write_new_file_unfold, Hread, He.
  - intros before after val reached -> Hbefore.
    rewrite write_config_file_unfold, write_new_file_unfold, Hread.
    rewrite set_up_sections_app, Hbefore. cbn [rbind set_up_sections].
    by rewrite Hkey.
  - intros before after val e -> Hbefore.
    rewrite write_config_file_unfold, write_new_file_unfold, Hread.
    by rewrite set_up_sections_app, Hbefore.
  - unfold backed_up. split; [|split].
    + apply lookup_insert_eq.
    + rewrite lookup_insert_ne by apply bak_neq. apply lookup_insert_eq.
    + intros c0 Hc. unfold starting_text, starting_bytes. rewrite Hc.
      by rewrite (insert_id (files w) _ _ Hc).
Qed.


End EngineFacts.

(** ** The tables of the module, on a machine *)

(** The keys of each table are distinct, as the keys of a dict are. *)
Lemma derived_keys_distinct host :
  NoDup (map fst (Tables.DERIVED_CONFIG_DEFAULTS host)).
Proof. by_decision. Qed.

Lemma base_keys_distinct host :
  NoDup (concat (map (fun no => map fst (snd no))
                     (Tables.CONFIG_DEFAULTS host))).
Proof. by_decision. Qed.

(** C2: the claim holds of the documented protocol (the backup is removed
    once the write is confirmed) and fails on the code.  The [return]
    inside [try] leaves the function before the lines that remove the
    backup, which run only after the handler: after a write of
    [TIMEOUT=5] that resolves, the call returns the resolved value of the
    requested key and the backup file is still on disk, with the old
    text. *)
Theorem backup_survives_successful_write :
  fst (sample_write_config_file [("TIMEOUT", "5")] None sample_secret
                                sample_world)
  = Ok {[ "TIMEOUT" := PInt 5 ]}
  /\ files (snd (sample_write_config_file [("TIMEOUT", "5")] None
                   sample_secret sample_world))
     !! bak sample_path
     = Some sample_conf.
Proof. by_evaluation. Qed.



(** C9, as stated, fails: with a value that holds a stray [%] assigned
    before the key that no section declares, the call raises the
    [ValueError] of that assignment and the lookup of the undeclared key
    is not reached; the backup is on disk as well. *)
Lemma percent_value_raises_before_the_lookup :
  sample_write_config_file
    [("FOOTER_INFO", "100% free"); ("NO_SUCH_KEY", "x")] None
    sample_secret sample_world
  = (Raise (InvalidInterpolationSyntax "100% free" 3),
     set_files sample_world
               (<[bak sample_path := sample_conf]> (files sample_world))).
Proof. by_evaluation. Qed.

(** The end-to-end scenario of the specification (empty environment, no
    config file) does not resolve: the first typed key finds [val]
    unassigned. *)
Example bare_world_does_not_resolve :
  sample_load_all_config bare_world = Raise (UnboundLocalError "val").
Proof. by_evaluation. Qed.

Example sample_world_resolves :
  rbind (sample_load_all_config sample_world)
        (fun c => Ok (c !! "TIMEOUT", c !! "USE_WGET", c !! "SECRET_KEY"))
  = Ok (Some (PInt 30), Some (PBool true), Some (PStr "k3y-of-the-server")).
Proof. by_evaluation. Qed.

(** A line [KEY =] in the file is a value, the empty string. *)
Example empty_value_in_file :
  rbind (load_sections sample_resolve Ini.read
           (Tables.CONFIG_DEFAULTS sample_host) ∅
           {| environ := {[ "HOME" := "/root" ]};
              files := {[ sample_path :=
                "[ARCHIVE_METHOD_OPTIONS]
CHROME_USER_DATA_DIR =
" ]} |})
        (fun c => Ok (c !! "CHROME_USER_DATA_DIR"))
  = Ok (Some (PStr EmptyString)).
Proof. by_evaluation. Qed.

Example find_section_TIMEOUT :
  find_section (Tables.CONFIG_DEFAULTS sample_host) "TIMEOUT"
  = Ok "GENERAL_CONFIG".
Proof. by_evaluation. Qed.

Example find_section_derived_only :
  find_section (Tables.CONFIG_DEFAULTS sample_host) "VERSION"
  = Raise IndexError.
Proof. by_evaluation. Qed.

(** ** Instances *)

Lemma Ok_of_is_Ok {A} (r : result A) (d : A) :
  is_Ok r = true ->
  r = Ok (match r with Ok a => a | Raise _ => d end).
Proof. by destruct r. Qed.


Lemma precedence_env_file_default_witness :
  load_config_val "TIMEOUT" (Static (PInt 60)) (Some TInt) None (Some ∅)
    (Some {[ "HOME" := "/root" ]}) (Some {[ "TIMEOUT" := "30" ]})
  = Ok (PInt 30)
  /\ load_config_val "TIMEOUT" (Static (PInt 60)) (Some TInt) None (Some ∅)
       (Some {[ "TIMEOUT" := "5" ]}) (Some {[ "TIMEOUT" := "30" ]})
     = Ok (PInt 5)
  /\ load_config_val "TIMEOUT" (Static (PInt 60)) (Some TInt) None (Some ∅)
       (Some {[ "TIMEOUT" := EmptyString ]}) (Some {[ "SECRET_KEY" := "k" ]})
     = Ok (PInt 60).
Proof.
  split; [|split].
  - apply (proj1 (precedence_env_file_default "TIMEOUT" (Static (PInt 60))
                    TInt None (Some ∅) (Some {[ "HOME" := "/root" ]})
                    (Some {[ "TIMEOUT" := "30" ]})) "30").
    + vm_compute. reflexivity.
    + vm_compute. reflexivity.
    + discriminate.
  - apply (proj1 (proj2 (precedence_env_file_default "TIMEOUT"
                    (Static (PInt 60)) TInt None (Some ∅)
                    (Some {[ "TIMEOUT" := "5" ]})
                    (Some {[ "TIMEOUT" := "30" ]}))) "5").
    + vm_compute. reflexivity.
    + discriminate.
  - apply (proj2 (proj2 (precedence_env_file_default "TIMEOUT"
                    (Static (PInt 60)) TInt None (Some ∅)
                    (Some {[ "TIMEOUT" := EmptyString ]})
                    (Some {[ "SECRET_KEY" := "k" ]})))).
    + vm_compute. reflexivity.
    + apply Forall_cons_2; [|apply Forall_nil_2].
      vm_compute. split; reflexivity.
    + vm_compute. reflexivity.
Defined.

Lemma derived_in_declaration_order_witness :
  rbind (load_sections sample_resolve Ini.read
           (Tables.CONFIG_DEFAULTS sample_host) ∅ wget_off_world)
        (fun base => Ok (base !! "USE_WGET"))
  = Ok (Some (PBool true))
  /\ wget_off_final !! "USE_WGET" = Some (PBool false)
  /\ wget_off_final !! "WGET_VERSION" = Some PNone
  /\ exists snapshot v,
       if_else (Tables.on_host sample_host "WGET_VERSION" snapshot)
               (item snapshot "USE_WGET") (Ok PNone) = Ok v
       /\ wget_off_final !! "WGET_VERSION" = Some v
       /\ snapshot !! "USE_WGET" = wget_off_final !! "USE_WGET".
Proof.
  split; [vm_compute; reflexivity|].
  split; [vm_compute; reflexivity|].
  split; [vm_compute; reflexivity|].
  edestruct (derived_in_declaration_order sample_resolve Ini.read
               (Tables.CONFIG_DEFAULTS sample_host)
               (Tables.DERIVED_CONFIG_DEFAULTS sample_host)
               wget_off_world wget_off_final
               (firstn 28 (Tables.DERIVED_CONFIG_DEFAULTS sample_host))
               (skipn 29 (Tables.DERIVED_CONFIG_DEFAULTS sample_host))
               "WGET_VERSION"
               (fun c => if_else (Tables.on_host sample_host "WGET_VERSION" c)
                                 (item c "USE_WGET") (Ok PNone))
               None)
    as (base & snapshot & v & _ & _ & Hv & Hkey & Hearlier & _).
  - reflexivity.
  - apply derived_keys_distinct.
  - apply Ok_of_is_Ok. vm_compute. reflexivity.
  - exists snapshot, v.
    split; [exact Hv|]. split; [exact Hkey|].
    apply Hearlier.
    by_decision.
Defined.


Lemma list_coercion_is_json_decoding_witness :
  load_config_val "CURL_ARGS" (Static (PList [])) (Some TList) None (Some ∅)
    (Some {[ "CURL_ARGS" :=
               Json.dumps_strs ["--silent"; "--user-agent"; quoted_agent] ]})
    None
  = Ok (strs ["--silent"; "--user-agent"; quoted_agent]).
Proof.
  destruct (list_coercion_is_json_decoding "CURL_ARGS" (Static (PList []))
              None (Some ∅)
              (Some {[ "CURL_ARGS" :=
                         Json.dumps_strs
                           ["--silent"; "--user-agent"; quoted_agent] ]})
              None
              (Json.dumps_strs ["--silent"; "--user-agent"; quoted_agent]))
    as (_ & Hlist & _).
  - vm_compute. reflexivity.
  - discriminate.
  - apply Hlist; [|reflexivity].
    repeat (apply Forall_cons_2; [reflexivity|]). apply Forall_nil_2.
Defined.

Lemma unbound_val_without_sources_witness :
  load_config_val "TIMEOUT" (Static (PInt 60)) (Some TInt) None (Some ∅)
                  (Some ∅) None
  = Raise (UnboundLocalError "val").
Proof.
  exact (proj2 (unbound_val_without_sources "TIMEOUT" (Static (PInt 60)) TInt
                  None (Some ∅) (Some ∅) None eq_refl eq_refl)).
Defined.

Lemma undeclared_key_raises_after_backup_witness :
  sample_write_config_file [("TIMEOUT", "7"); ("NO_SUCH_KEY", "x")] None
                           sample_secret sample_world
  = (Raise IndexError,
     set_files sample_world
               (<[bak sample_path := sample_conf]> (files sample_world))).
Proof.
  edestruct (undeclared_key_raises_after_backup sample_resolve Ini.read
               Ini.write (Tables.CONFIG_DEFAULTS sample_host)
               (Tables.DERIVED_CONFIG_DEFAULTS sample_host)
               [("TIMEOUT", "7"); ("NO_SUCH_KEY", "x")] None sample_secret
               sample_world
               (match Ini.read sample_conf with
                | Ok cf0 => cf0
                | Raise _ => {| cp_defaults := []; cp_sections := [] |}
                end)
               "NO_SUCH_KEY")
    as (_ & Hraise & _ & _ & _ & Hbak).
  - vm_compute. reflexivity.
  - by_decision.
  - repeat (apply Forall_cons_2; [reflexivity|]). apply Forall_nil_2.
  - unfold sample_write_config_file.
    rewrite (Hraise [("TIMEOUT", "7")] [] "x"
               (match set_up_sections (Tables.CONFIG_DEFAULTS sample_host)
                        [("TIMEOUT", "7")]
                        (match Ini.read sample_conf with
                         | Ok cf0 => cf0
                         | Raise _ =>
                             {| cp_defaults := []; cp_sections := [] |}
                         end) with
                | Ok cf => cf
                | Raise _ => {| cp_defaults := []; cp_sections := [] |}
                end)).
    + rewrite (Hbak sample_conf); [reflexivity|].
      vm_compute. reflexivity.
    + reflexivity.
    + vm_compute. reflexivity.
Defined.

Lemma derived_keys_ignore_sources_witness :
  load_config_loop (Tables.DERIVED_CONFIG_DEFAULTS sample_host) sample_base
    (Some {[ "USE_WGET" := "False" ]}) (Some {[ "USE_WGET" := "False" ]})
  = load_config_loop (Tables.DERIVED_CONFIG_DEFAULTS sample_host) sample_base
      None None
  /\ rbind (load_config_loop (Tables.DERIVED_CONFIG_DEFAULTS sample_host)
             sample_base
             (Some {[ "USE_WGET" := "False" ]})
             (Some {[ "USE_WGET" := "False" ]}))
           (fun final => Ok (final !! "USE_WGET"))
     = Ok (Some (PBool true)).
Proof.
  split; [|vm_compute; reflexivity].
  destruct (derived_keys_ignore_sources sample_host) as (Hall & _ & Hpass).
  apply Hpass. eapply Forall_impl; [exact Hall|].
  intros kd [Hnone _]. exact Hnone.
Defined.

(** * The rest of the module *)

(** ** [str.upper] and [str.strip] *)

Lemma upper_char_idempotent c :
  PyStr.upper_char (PyStr.upper_char c) = PyStr.upper_char c.
Proof. by destruct c as [[] [] [] [] [] [] [] []]. Qed.

Lemma upper_char_space c :
  PyStr.is_space (PyStr.upper_char c) = PyStr.is_space c.
Proof. by destruct c as [[] [] [] [] [] [] [] []]. Qed.

Lemma upper_idempotent s : PyStr.upper (PyStr.upper s) = PyStr.upper s.
Proof.
  induction s as [|c s IH]; [done|].
  cbn [PyStr.upper]. by rewrite upper_char_idempotent, IH.
Qed.

Lemma upper_app a b : PyStr.upper (a ++ b) = PyStr.upper a ++ PyStr.upper b.
Proof.
  induction a as [|c a IH]; [by rewrite !app_nil_str|].
  rewrite app_cons_str. cbn [PyStr.upper]. by rewrite app_cons_str, IH.
Qed.

Lemma rev_onto_app s acc : PyStr.rev_onto s acc = PyStr.rev s ++ acc.
Proof.
  unfold PyStr.rev. revert acc.
  induction s as [|c s IH]; intros acc; [done|].
  cbn [PyStr.rev_onto]. rewrite IH, (IH (String c EmptyString)).
  by rewrite app_assoc_str.
Qed.

Lemma rev_cons c s :
  PyStr.rev (String c s) = PyStr.rev s ++ String c EmptyString.
Proof. unfold PyStr.rev at 1. cbn [PyStr.rev_onto]. apply rev_onto_app. Qed.

Lemma rev_app a b : PyStr.rev (a ++ b) = PyStr.rev b ++ PyStr.rev a.
Proof.
  induction a as [|c a IH].
  - by rewrite app_nil_str, app_str_nil.
  - by rewrite app_cons_str, !rev_cons, IH, app_assoc_str.
Qed.

Lemma rev_involutive s : PyStr.rev (PyStr.rev s) = s.
Proof.
  induction s as [|c s IH]; [done|].
  by rewrite rev_cons, rev_app, IH.
Qed.

Lemma upper_rev s : PyStr.upper (PyStr.rev s) = PyStr.rev (PyStr.upper s).
Proof.
  induction s as [|c s IH]; [done|].
  cbn [PyStr.upper]. by rewrite !rev_cons, upper_app, IH.
Qed.

Lemma upper_lstrip s :
  PyStr.upper (PyStr.lstrip s) = PyStr.lstrip (PyStr.upper s).
Proof.
  induction s as [|c s IH]; [done|].
  cbn [PyStr.lstrip PyStr.upper]. rewrite upper_char_space.
  by destruct (PyStr.is_space c).
Qed.

Lemma upper_strip s :
  PyStr.upper (PyStr.strip s) = PyStr.strip (PyStr.upper s).
Proof.
  unfold PyStr.strip.
  by rewrite upper_rev, upper_lstrip, upper_rev, upper_lstrip.
Qed.

Lemma lstrip_idempotent s : PyStr.lstrip (PyStr.lstrip s) = PyStr.lstrip s.
Proof.
  induction s as [|c s IH]; [done|].
  cbn [PyStr.lstrip]. destruct (PyStr.is_space c) eqn:E; [done|].
  cbn [PyStr.lstrip]. by rewrite E.
Qed.

(** What [lstrip] removes is a prefix of blanks. *)
Lemma lstrip_suffix s :
  exists p, s = p ++ PyStr.lstrip s /\ all_space p = true.
Proof.
  induction s as [|c s (p & IH & Hp)]; [by exists EmptyString|].
  cbn [PyStr.lstrip]. destruct (PyStr.is_space c) eqn:E.
  - exists (String c p). rewrite app_cons_str, <- IH.
    split; [done|]. cbn [all_space]. by rewrite E, Hp.
  - by exists EmptyString.
Qed.

(** A prefix of a string that starts with no blank starts with none. *)
Lemma lstrip_prefix u w :
  PyStr.lstrip (u ++ w) = u ++ w -> PyStr.lstrip u = u.
Proof.
  destruct u as [|c u]; [done|].
  rewrite app_cons_str. cbn [PyStr.lstrip].
  destruct (PyStr.is_space c); [|done].
  intros H. pose proof (lstrip_suffix (u ++ w)) as (p & Hp & _).
  apply (f_equal String.length) in H, Hp.
  rewrite (length_app_str p) in Hp. cbn [String.length] in H. lia.
Qed.

Lemma all_space_rev p : all_space (PyStr.rev p) = all_space p.
Proof.
  assert (Happ : forall a b,
             all_space (a ++ b) = (all_space a && all_space b)%bool).
  { intros a b. induction a as [|c a IH]; [by rewrite app_nil_str|].
    rewrite app_cons_str. cbn [all_space]. by rewrite IH, andb_assoc. }
  induction p as [|c p IH]; [done|].
  rewrite rev_cons, Happ, IH. cbn [all_space].
  by rewrite andb_true_r, andb_comm.
Qed.

(** [strip] cuts a run of blanks at each end, and what is left neither
    starts nor ends with a blank. *)
Lemma strip_spec s :
  exists p q,
    s = p ++ PyStr.strip s ++ q
    /\ all_space p = true /\ all_space q = true
    /\ PyStr.lstrip (PyStr.strip s) = PyStr.strip s
    /\ PyStr.lstrip (PyStr.rev (PyStr.strip s)) = PyStr.rev (PyStr.strip s).
Proof.
  unfold PyStr.strip.
  destruct (lstrip_suffix s) as (p & Hp & Hps).
  set (t := PyStr.lstrip s) in *.
  destruct (lstrip_suffix (PyStr.rev t)) as (q & Hq & Hqs).
  set (u := PyStr.lstrip (PyStr.rev t)) in *.
  assert (Ht : PyStr.rev u ++ PyStr.rev q = t).
  { rewrite <- rev_app, <- Hq. apply rev_involutive. }
  exists p, (PyStr.rev q). split; [by rewrite Ht|].
  split; [done|]. split; [by rewrite all_space_rev|]. split.
  - apply (lstrip_prefix _ (PyStr.rev q)). rewrite Ht.
    apply lstrip_idempotent.
  - rewrite rev_involutive. apply lstrip_idempotent.
Qed.

Lemma strip_fixed s :
  PyStr.lstrip s = s -> PyStr.lstrip (PyStr.rev s) = PyStr.rev s ->
  PyStr.strip s = s.
Proof.
  intros H1 H2. unfold PyStr.strip. by rewrite H1, H2, rev_involutive.
Qed.

Lemma strip_idempotent s : PyStr.strip (PyStr.strip s) = PyStr.strip s.
Proof.
  destruct (strip_spec s) as (_ & _ & _ & _ & _ & H1 & H2).
  by apply strip_fixed.
Qed.

(** [int] of a string of digits, between the bounds its length sets. *)
Lemma int_acc_bounds s acc :
  PyStr.all_digits s = true -> 0 <= acc ->
  acc * 10 ^ Z.of_nat (String.length s) <= PyStr.int_acc s acc
  < (acc + 1) * 10 ^ Z.of_nat (String.length s).
Proof.
  revert acc. induction s as [|c s IH]; intros acc Hd Hacc.
  - cbn. lia.
  - cbn [PyStr.all_digits] in Hd. apply andb_true_iff in Hd as [Hc Hs].
    cbn [PyStr.int_acc String.length].
    unfold PyStr.is_digit in Hc. apply andb_true_iff in Hc as [H1 H2].
    apply Nat.leb_le in H1, H2.
    set (d := Z.of_nat (PyStr.code c - 48)).
    assert (Hdr : 0 <= d <= 9) by (unfold d; lia).
    specialize (IH (10 * acc + d) Hs ltac:(lia)).
    rewrite Nat2Z.inj_succ, Z.pow_succ_r by lia.
    nia.
Qed.

(** ** The branches of [load_config_val] *)

(** X1: a value of any string is accepted by exactly one of the [bool]
    and [str] branches: the six words (in any case) make a bool and are
    refused as a str, every other string is refused as a bool and makes
    a str, its trimmed self. *)
Theorem bool_and_str_split_the_strings key val :
  (exists b, coerce key val TBool = Ok (PBool b)
             /\ PyStr.mem (PyStr.lower val) bool_words = true
             /\ exists msg, coerce key val TStr = Raise (ValueError msg))
  \/ (exists msg, coerce key val TBool = Raise (ValueError msg)
                  /\ PyStr.mem (PyStr.lower val) bool_words = false
                  /\ coerce key val TStr = Ok (PStr (PyStr.strip val))).
Proof.
  cbn [coerce]. unfold bool_words, PyStr.mem. cbn [existsb].
  destruct (String.eqb (PyStr.lower val) "true") eqn:E1;
  destruct (String.eqb (PyStr.lower val) "yes") eqn:E2;
  destruct (String.eqb (PyStr.lower val) "1") eqn:E3;
  destruct (String.eqb (PyStr.lower val) "false") eqn:E4;
  destruct (String.eqb (PyStr.lower val) "no") eqn:E5;
  destruct (String.eqb (PyStr.lower val) "0") eqn:E6;
  cbn [orb];
  first [ left; eexists; split;
          [reflexivity|split; [reflexivity|eexists; reflexivity]]
        | right; eexists; split; [reflexivity|split; reflexivity] ].
Qed.

(** X2: a value that a typed key accepts for an ASCII string has the
    declared type: a bool for [bool]; for [str] a string that is the raw
    one without the blanks at its two ends, so that trimming it again
    changes nothing; for [int] an integer that is not negative and has
    no more digits than the raw string has characters, of which there
    are 4300 at most; for [list] what the JSON decoder returns.  A key
    of any other type accepts no value. *)
Theorem coerce_well_typed key val t v :
  PyStr.is_ascii val = true ->
  coerce key val t = Ok v ->
  match t with
  | TBool => exists b, v = PBool b
  | TStr =>
      exists s p q,
        v = PStr s /\ val = p ++ s ++ q
        /\ all_space p = true /\ all_space q = true
        /\ PyStr.strip s = s
  | TInt =>
      exists n, v = PInt n /\ 0 <= n < 10 ^ Z.of_nat (String.length val)
                /\ (String.length val <= 4300)%nat
  | TList => Json.loads val = Ok v
  | TOther _ => False
  end.
Proof.
  intros _. destruct t; cbn [coerce]; intros H.
  - repeat case_match; try discriminate; injection H as <-; eauto.
  - case_match; [discriminate|]. injection H as <-.
    destruct (strip_spec val) as (p & q & Hv & Hp & Hq & _).
    exists (PyStr.strip val), p, q.
    repeat split; try done. apply strip_idempotent.
  - destruct (PyStr.isdigit val) eqn:Hd; [|discriminate].
    cbn [negb] in H. unfold int_of_digits, int_max_str_digits in H.
    destruct (Nat.ltb 4300 (String.length val)) eqn:Hlen; [discriminate|].
    cbn [rbind] in H. injection H as <-. eexists. split; [reflexivity|].
    apply Nat.ltb_ge in Hlen. split; [|exact Hlen].
    assert (Hall : PyStr.all_digits val = true) by by destruct val.
    pose proof (int_acc_bounds val 0 Hall ltac:(lia)) as Hb.
    unfold PyStr.int. lia.
  - done.
  - discriminate.
Qed.

(** ** The loop of [load_config_val] in closed form *)

Lemma probe_first_found env_vars config_file_vars keys key val name v :
  first_found (lookups env_vars config_file_vars keys) = Some (name, v) ->
  probe keys env_vars config_file_vars key val = (name, Bound (Some v)).
Proof.
  revert key val. induction keys as [|k keys IH]; intros key val H;
    [discriminate|].
  cbn [lookups flat_map app first_found] in H. cbn [probe].
  destruct (found (Bound (dict_get env_vars k))) eqn:Fe.
  - destruct (dict_get env_vars k) as [e|] eqn:Ee; [|discriminate].
    injection H as <- <-.
    by rewrite (dict_get_truthy _ _ _ Ee), Fe.
  - replace (dict_truthy env_vars &&
             found (if dict_truthy env_vars
                    then Bound (dict_get env_vars k) else val))%bool
      with false
      by (destruct (dict_truthy env_vars); [by rewrite Fe|done]).
    destruct (found (Bound (dict_get config_file_vars k))) eqn:Ff.
    + destruct (dict_get config_file_vars k) as [f|] eqn:Ef; [|discriminate].
      injection H as <- <-.
      by rewrite (dict_get_truthy _ _ _ Ef), Ff.
    + replace (dict_truthy config_file_vars &&
               found (if dict_truthy config_file_vars
                      then Bound (dict_get config_file_vars k)
                      else if dict_truthy env_vars
                           then Bound (dict_get env_vars k) else val))%bool
        with false
        by (destruct (dict_truthy config_file_vars); [by rewrite Ff|done]).
      by apply IH.
Qed.

Lemma first_found_None env_vars config_file_vars keys :
  first_found (lookups env_vars config_file_vars keys) = None ->
  Forall (not_found env_vars config_file_vars) keys.
Proof.
  induction keys as [|k keys IH]; [constructor|].
  cbn [lookups flat_map app first_found].
  destruct (found (Bound (dict_get env_vars k))) eqn:Fe.
  { destruct (dict_get env_vars k); discriminate. }
  destruct (found (Bound (dict_get config_file_vars k))) eqn:Ff.
  { destruct (dict_get config_file_vars k); discriminate. }
  intros H. apply Forall_cons_2; [by split|by apply IH].
Qed.

(** X3: [load_config_val] on a typed key, in closed form.  With both
    mappings empty or absent it raises [UnboundLocalError].  Otherwise
    the lookups are made name by name (the key, then its aliases in
    order), under each name in the environment and then in the config
    file, and the first string that is not empty is coerced, under the
    name it was found with.  Where no lookup returns such a string, what
    the last lookup returned decides: nothing gives the default, an
    empty string is coerced like any value. *)
Theorem load_config_val_closed_form
    key default (t : ConfigType) aliases config env_vars config_file_vars :
  let names := key :: match aliases with Some a => a | None => [] end in
  load_config_val key default (Some t) aliases config
                  env_vars config_file_vars
  = if (dict_truthy env_vars || dict_truthy config_file_vars)%bool
    then match first_found (lookups env_vars config_file_vars names) with
         | Some (name, v) => coerce name v t
         | None =>
             match last_lookup env_vars config_file_vars
                               (List.last names key) with
             | Some s => coerce (List.last names key) s t
             | None => use_default default config
             end
         end
    else Raise (UnboundLocalError "val").
Proof.
  intros names. unfold load_config_val. fold names.
  destruct (dict_truthy env_vars || dict_truthy config_file_vars)%bool
    eqn:Ht.
  - destruct (first_found _) as [[name v]|] eqn:Hf.
    + by rewrite (probe_first_found _ _ _ key Unbound _ _ Hf).
    + apply first_found_None in Hf.
      by rewrite (probe_not_found env_vars config_file_vars _ key Unbound
                    Ht Hf).
  - apply orb_false_iff in Ht as [He Hc].
    pose proof (probe_no_sources env_vars config_file_vars names key
                  Unbound He Hc) as Hp.
    destruct (probe _ _ _ _ _) as [k val]. cbn [snd] in Hp. by subst val.
Qed.

(** X4: the name a value was found under, the key or one of its
    aliases, has no say in what the value becomes: coercion of the same
    string under two names gives the same value, or fails for both (the
    two messages name different keys). *)
Theorem found_under_any_name_same_outcome key key' val t :
  same_outcome (coerce key val t) (coerce key' val t).
Proof.
  destruct t; cbn [coerce]; repeat case_match; try done.
  all: unfold same_outcome; try done.
  - by destruct (int_of_digits val).
  - by destruct (Json.loads val).
Qed.

(** ** The passes of [load_config] and of [load_all_config] *)

Section PassFacts.
Variables env_vars config_file_vars : option StrDict.

(** A pass that succeeds has bound every declared key. *)
Lemma load_config_loop_dom defaults CONFIG final :
  load_config_loop defaults CONFIG env_vars config_file_vars = Ok final ->
  dom final = dom CONFIG ∪ list_to_set (map fst defaults).
Proof.
  revert CONFIG. induction defaults as [|[key d] defaults IH]; intros CONFIG H.
  - injection H as <-. cbn [map list_to_set]. by rewrite union_empty_r_L.
  - cbn [load_config_loop] in H.
    destruct (load_config_val _ _ _ _ _ _ _) as [v|e];
      [|destruct e; discriminate].
    rewrite (IH _ H), dom_insert_L. cbn [map fst list_to_set].
    by rewrite (comm_L _ {[key]}), (assoc_L _).
Qed.

(** X5: the pass stops at the first declaration whose value cannot be
    loaded and raises what that declaration raised ([SystemExit(0)] for a
    [KeyboardInterrupt]); the declarations after it have no part in the
    outcome. *)
Theorem load_config_loop_stops_at_first_failure
    (pre post : ConfigDefaultDict) key d CONFIG snapshot e :
  load_config_loop pre CONFIG env_vars config_file_vars = Ok snapshot ->
  load_config_val key (d_default d) (d_type d) (d_aliases d) (Some snapshot)
                  env_vars config_file_vars = Raise e ->
  load_config_loop (pre ++ (key, d) :: post)%list CONFIG
                   env_vars config_file_vars
  = Raise (match e with KeyboardInterrupt => SystemExit 0 | _ => e end).
Proof.
  intros Hpre He. rewrite load_config_loop_app, Hpre.
  cbn [rbind load_config_loop]. rewrite He. by destruct e.
Qed.
End PassFacts.

Section AllConfigFacts.
Variable resolve : string -> string.
Variable cp_read : string -> result ConfigParser.
Variable CONFIG_DEFAULTS : list (string * ConfigDefaultDict).
Variable DERIVED_CONFIG_DEFAULTS : ConfigDefaultDict.

Lemma load_sections_one_pass sections CONFIG w vars :
  load_config_file resolve cp_read None w = Ok vars ->
  load_sections resolve cp_read sections CONFIG w
  = load_config_loop (all_declarations sections) CONFIG
                     (Some (environ w)) vars.
Proof.
  intros Hf. revert CONFIG.
  induction sections as [|[name section_config] sections IH]; intros CONFIG;
    [done|].
  cbn [load_sections]. unfold load_config. cbn [dict_truthy]. rewrite Hf.
  cbn [rbind]. unfold all_declarations. cbn [map concat snd].
  rewrite load_config_loop_app.
  destruct (load_config_loop section_config _ _ _) as [c|e]; [|done].
  cbn [rbind]. apply IH.
Qed.

Lemma load_sections_raises sections CONFIG w e :
  load_config_file resolve cp_read None w = Raise e ->
  sections <> [] ->
  load_sections resolve cp_read sections CONFIG w = Raise e.
Proof.
  intros Hf Hne. destruct sections as [|[name section_config] sections];
    [done|].
  cbn [load_sections]. unfold load_config. cbn [dict_truthy].
  by rewrite Hf.
Qed.

(** X6: [load_all_config] is one pass: the config file is read and
    flattened, and one loop runs over the declarations of all sections in
    order followed by the derived ones, from the empty snapshot, against
    the environment of the process and the variables of the file.  The
    sections, and the reading of the file anew for each of them, make no
    difference. *)
Theorem load_all_config_one_pass w :
  load_all_config resolve cp_read CONFIG_DEFAULTS DERIVED_CONFIG_DEFAULTS w
  = rbind (load_config_file resolve cp_read None w)
          (fun config_file_vars =>
             load_config_loop
               (all_declarations CONFIG_DEFAULTS
                ++ DERIVED_CONFIG_DEFAULTS)%list
               ∅ (Some (environ w)) config_file_vars).
Proof.
  unfold load_all_config.
  destruct (load_config_file resolve cp_read None w) as [vars|e] eqn:Hf.
  - rewrite (load_sections_one_pass _ _ _ _ Hf). cbn [rbind].
    rewrite load_config_loop_app.
    destruct (load_config_loop (all_declarations _) _ _ _) as [c|e];
      [|done].
    cbn [rbind]. unfold load_config. cbn [dict_truthy]. by rewrite Hf.
  - cbn [rbind]. destruct CONFIG_DEFAULTS as [|s l] eqn:Hl.
    + cbn [load_sections rbind]. unfold load_config. cbn [dict_truthy].
      by rewrite Hf.
    + by rewrite (load_sections_raises _ _ _ _ Hf).
Qed.

(** X7: the snapshot that [load_config] returns has the keys of the
    snapshot it was given and those of the declarations, and no other:
    a pass that succeeds has bound every declared key. *)
Theorem load_config_binds_the_declared_keys
    defaults config out_dir env_vars config_file_vars w final :
  load_config resolve cp_read defaults config out_dir
              env_vars config_file_vars w = Ok final ->
  dom final = dom (match config with Some c => c | None => ∅ end)
              ∪ list_to_set (map fst defaults).
Proof.
  intros H. unfold load_config in H.
  destruct (if dict_truthy config_file_vars then _ else _) as [vars|e];
    [|discriminate].
  cbn [rbind] in H. by apply load_config_loop_dom in H.
Qed.

(** X8: the configuration that [load_all_config] returns has the keys
    of [USER_CONFIG] and the derived keys, and no other. *)
Theorem load_all_config_binds_the_declared_keys w final :
  load_all_config resolve cp_read CONFIG_DEFAULTS
                  DERIVED_CONFIG_DEFAULTS w = Ok final ->
  dom final = USER_CONFIG CONFIG_DEFAULTS
              ∪ list_to_set (map fst DERIVED_CONFIG_DEFAULTS).
Proof.
  intros H. unfold load_all_config in H.
  destruct (load_sections _ _ _ _ _) as [base|e] eqn:Hbase; [|discriminate].
  cbn [rbind] in H. unfold load_config in H. cbn [dict_truthy] in H.
  destruct (load_config_file resolve cp_read None w) as [vars|e] eqn:Hf;
    [|discriminate].
  cbn [rbind] in H. apply load_config_loop_dom in H. rewrite H. f_equal.
  rewrite (load_sections_one_pass _ _ _ _ Hf) in Hbase.
  apply load_config_loop_dom in Hbase.
  by rewrite Hbase, dom_empty_L, union_empty_l_L.
Qed.
End AllConfigFacts.

(** ** [load_config_file] *)

Lemma od_get_Some_elem (d : odict) k v : od_get d k = Some v -> (k, v) ∈ d.
Proof.
  induction d as [|[k' v'] d IH]; [discriminate|].
  cbn [od_get]. destruct (String.eqb k k') eqn:E.
  - apply String.eqb_eq in E as ->. intros [= ->]. left.
  - intros H. right. by apply IH.
Qed.

Lemma od_get_None_elem (d : odict) k v : od_get d k = None -> (k, v) ∉ d.
Proof.
  induction d as [|[k' v'] d IH]; intros H Hin.
  - by apply elem_of_nil in Hin.
  - cbn [od_get] in H. destruct (String.eqb k k') eqn:E; [done|].
    apply elem_of_cons in Hin as [[= <- <-]|Hin]; [|by apply IH].
    by rewrite String.eqb_refl in E.
Qed.

Lemma fold_insert_upper (l : odict) (vars : StrDict) K :
  fold_left (fun vars kv => <[PyStr.upper (fst kv) := snd kv]> vars) l vars
  !! K
  = match od_get (reverse (map (fun kv => (PyStr.upper (fst kv), snd kv)) l))
                 K with
    | Some v => Some v
    | None => vars !! K
    end.
Proof.
  revert vars. induction l as [|[k v] l IH]; intros vars; [done|].
  cbn [fold_left map fst snd]. rewrite IH, reverse_cons, od_get_app.
  destruct (od_get (reverse _) K); [done|].
  cbn [od_get]. destruct (String.eqb K (PyStr.upper k)) eqn:E.
  - apply String.eqb_eq in E as ->. apply lookup_insert_eq.
  - apply String.eqb_neq in E. by apply lookup_insert_ne.
Qed.

Lemma fold_sections (secs : list (string * odict)) (vars : StrDict) :
  fold_left
    (fun vars section =>
       fold_left (fun vars kv => <[PyStr.upper (fst kv) := snd kv]> vars)
                 (snd section) vars)
    secs vars
  = fold_left (fun vars kv => <[PyStr.upper (fst kv) := snd kv]> vars)
              (concat (map snd secs)) vars.
Proof.
  revert vars. induction secs as [|[n o] secs IH]; intros vars; [done|].
  cbn [fold_left map concat snd]. by rewrite fold_left_app, IH.
Qed.

Lemma read_sections_free cp names :
  percent_free_parser cp = true ->
  read_sections cp names
  = Ok (map (fun name => (name, raw_options cp name)) names).
Proof.
  intros H. induction names as [|name names IH]; [done|].
  cbn [read_sections map]. rewrite cp_section_dict_free by done.
  cbn [rbind]. by rewrite IH.
Qed.

(** X9: the variables [load_config_file] makes of a parsed file whose
    options have ASCII names.  When every value can be read, every
    option of every section, as [config_file.items()] shows them (the
    default section first, then the sections in order, each with the
    options it inherits, the values interpolated), is there under its
    upper-cased name, so that the case of a name in the file does not
    matter; the names of the variables are all upper-case; and where
    two options have the same upper-cased name, the one that comes
    later gives the value.  In a file without [%] the options are those
    the file spells, with the values it spells.  When a value cannot be
    read, there are no variables: the error of the read is raised. *)
Theorem flatten_last_option_wins config_file :
  (forall items,
      cp_items config_file = Ok items ->
      Forall (fun kv => PyStr.is_ascii (fst kv) = true)
             (concat (map snd items)) ->
      exists vars,
        flatten config_file = Ok vars
        /\ (forall K, vars !! K = od_get (reverse (upper_options items)) K)
        /\ (forall K v, vars !! K = Some v -> PyStr.upper K = K)
        /\ (forall k v, (k, v) ∈ concat (map snd items) ->
                        is_Some (vars !! PyStr.upper k)))
  /\ (percent_free_parser config_file = true ->
      cp_items config_file
      = Ok (map (fun name => (name, raw_options config_file name))
                (DEFAULTSECT :: map fst (cp_sections config_file))))
  /\ (forall e, cp_items config_file = Raise e ->
                flatten config_file = Raise e).
Proof.
  split; [|split].
  - intros items Hitems _. unfold flatten. rewrite Hitems. cbn [rbind].
    eexists. split; [reflexivity|].
    assert (H : forall K,
      fold_left
        (fun vars section =>
           fold_left (fun vars kv => <[PyStr.upper (fst kv) := snd kv]> vars)
                     (snd section) vars)
        items (∅ : StrDict) !! K
      = od_get (reverse (upper_options items)) K).
    { intros K. unfold upper_options.
      rewrite fold_sections, fold_insert_upper, lookup_empty.
      by destruct (od_get _ K). }
    split; [exact H|]. split.
    + intros K v HK. rewrite H in HK. apply od_get_Some_elem in HK.
      rewrite elem_of_reverse in HK. unfold upper_options in HK.
      apply list_elem_of_fmap in HK as ([k v'] & [= -> ->] & _).
      apply upper_idempotent.
    + intros k v Hin. rewrite H.
      destruct (od_get (reverse (upper_options items)) (PyStr.upper k))
        as [v'|] eqn:E; [eauto|].
      exfalso. apply (od_get_None_elem _ _ v) in E. apply E.
      rewrite elem_of_reverse. unfold upper_options.
      apply list_elem_of_fmap. by exists (k, v).
  - intros H. unfold cp_items. by apply read_sections_free.
  - intros e He. unfold flatten. by rewrite He.
Qed.

(** ** The names of the keys *)

Section NameFacts.
Variable CONFIG_DEFAULTS : list (string * ConfigDefaultDict).

Lemma declares_elem (opts : ConfigDefaultDict) key :
  declares opts key = true <-> key ∈ map fst opts.
Proof.
  unfold declares. rewrite existsb_exists. split.
  - intros ([k d] & Hin & E). apply String.eqb_eq in E as ->.
    apply list_elem_of_fmap. exists (k, d).
    split; [done|]. by apply list_elem_of_In.
  - intros Hin. apply list_elem_of_fmap in Hin as ([k d] & -> & Hin).
    exists (k, d). split; [by apply list_elem_of_In|apply String.eqb_refl].
Qed.

Lemma user_config_elem key :
  key ∈ USER_CONFIG CONFIG_DEFAULTS
  <-> exists section, section ∈ CONFIG_DEFAULTS
                      /\ declares (snd section) key = true.
Proof.
  unfold USER_CONFIG, all_declarations.
  rewrite elem_of_list_to_set, list_elem_of_fmap. split.
  - intros ([k d] & -> & Hin).
    apply list_elem_of_In, in_concat in Hin as (l & Hl & Hin).
    apply in_map_iff in Hl as (section & <- & Hl).
    exists section. split; [by apply list_elem_of_In|].
    apply declares_elem, list_elem_of_fmap. exists (k, d).
    split; [done|]. by apply list_elem_of_In.
  - intros (section & Hin & Hd). apply declares_elem in Hd.
    apply list_elem_of_fmap in Hd as (kd & -> & Hkd). exists kd.
    split; [done|]. apply list_elem_of_In, in_concat.
    exists (snd section). split; [|by apply list_elem_of_In].
    apply in_map. by apply list_elem_of_In.
Qed.

Lemma find_section_first (l : list (string * ConfigDefaultDict)) key :
  (exists section, section ∈ l /\ declares (snd section) key = true) ->
  exists (before after : list (string * ConfigDefaultDict)) name opts,
    find_section l key = Ok name
    /\ l = (before ++ (name, opts) :: after)%list
    /\ declares opts key = true
    /\ Forall (fun no => declares (snd no) key = false) before.
Proof.
  unfold find_section. intros (section & Hin & Hd).
  induction l as [|[name opts] l IH]; [by apply elem_of_nil in Hin|].
  destruct (declares opts key) eqn:Ho.
  - exists [], l, name, opts.
    rewrite filter_cons_True by (cbn [snd]; by rewrite Ho).
    by repeat split.
  - rewrite filter_cons_False by (cbn [snd]; rewrite Ho; intros []).
    apply elem_of_cons in Hin as [->|Hin]; [cbn [snd] in Hd; congruence|].
    destruct (IH Hin) as (before & after & n & o & Hf & -> & Hdo & Hb).
    exists ((name, opts) :: before), after, n, o.
    repeat split; try done. by apply Forall_cons_2.
Qed.

(** X10: the keys the writer takes are those of [USER_CONFIG]: for a
    key of that set the section looked up is one that declares it, and
    no section before it does; for any other string, a derived key or
    an alias just as a misspelt name, the lookup raises [IndexError]. *)
Theorem find_section_iff_user_config key :
  (key ∈ USER_CONFIG CONFIG_DEFAULTS ->
   exists (before after : list (string * ConfigDefaultDict)) name opts,
     find_section CONFIG_DEFAULTS key = Ok name
     /\ CONFIG_DEFAULTS = (before ++ (name, opts) :: after)%list
     /\ declares opts key = true
     /\ Forall (fun no => declares (snd no) key = false) before)
  /\ (key ∉ USER_CONFIG CONFIG_DEFAULTS ->
      find_section CONFIG_DEFAULTS key = Raise IndexError).
Proof.
  rewrite user_config_elem. split; [apply find_section_first|].
  intros Hno. apply find_section_undeclared.
  apply Forall_forall. intros section Hin.
  destruct (declares (snd section) key) eqn:Hd; [|done].
  exfalso. apply Hno. by exists section.
Qed.

Lemma fold_insert_pairs (l : list (string * string)) (m : StrDict) a k :
  fold_left (fun aliases ak => <[fst ak := snd ak]> aliases) l m !! a
  = Some k ->
  (a, k) ∈ l \/ m !! a = Some k.
Proof.
  revert m. induction l as [|[a' k'] l IH]; intros m H; [by right|].
  cbn [fold_left fst snd] in H. apply IH in H as [H|H].
  - left. by right.
  - destruct (decide (a = a')) as [->|Hne].
    + rewrite lookup_insert_eq in H. injection H as ->. left. left.
    + rewrite lookup_insert_ne in H by done. by right.
Qed.

(** X11: an alias stands for a key that a section declares with it:
    what [CONFIG_ALIASES] gives for a name is in [USER_CONFIG], and its
    declaration lists the name among its aliases. *)
Theorem alias_stands_for_declared_key alias key :
  CONFIG_ALIASES CONFIG_DEFAULTS !! alias = Some key ->
  key ∈ USER_CONFIG CONFIG_DEFAULTS
  /\ exists d aliases,
       (key, d) ∈ all_declarations CONFIG_DEFAULTS
       /\ d_aliases d = Some aliases /\ alias ∈ aliases.
Proof.
  unfold CONFIG_ALIASES. intros H.
  apply fold_insert_pairs in H as [H|H]; [|by rewrite lookup_empty in H].
  unfold alias_pairs in H. apply list_elem_of_In, in_flat_map in H.
  destruct H as ([k d] & Hkd & Hin). cbn [fst snd] in Hin.
  apply in_map_iff in Hin as (a & [= -> ->] & Ha).
  apply list_elem_of_In in Hkd. split.
  - unfold USER_CONFIG. apply elem_of_list_to_set, list_elem_of_fmap.
    by exists (key, d).
  - destruct (d_aliases d) as [aliases|] eqn:Hal; [|done].
    exists d, aliases. repeat split; try done. by apply list_elem_of_In.
Qed.
End NameFacts.

(** ** The parser state under the writer *)

Lemma od_get_None_keys (d : odict) k : od_get d k = None -> k ∉ map fst d.
Proof.
  intros H Hin. apply list_elem_of_fmap in Hin as ([k' v] & -> & Hin).
  by apply (od_get_None_elem _ _ v) in H.
Qed.

(** The block on the secret key, where it returns: it touches that
    one option, and puts no [%] in a state that had none. *)
Lemma ensure_secret_key_frame random_secret_key config_file final :
  ensure_secret_key random_secret_key config_file = Ok final ->
  (forall section k,
      (section, k) <> ("SERVER_CONFIG", "SECRET_KEY") ->
      raw_get final section k = raw_get config_file section k)
  /\ (forall section,
         cp_has_section config_file section = true ->
         cp_has_section final section = true)
  /\ (percent_free_parser config_file = true ->
      percent_free random_secret_key = true ->
      percent_free_parser final = true).
Proof.
  unfold ensure_secret_key.
  destruct (existing_secret_key config_file) as [existing|e]; [|discriminate].
  cbn [rbind]. destruct (needs_secret existing); [|by intros [= <-]].
  destruct (cp_has_section config_file "SERVER_CONFIG") eqn:Hserver.
  - intros H. apply cp_set_option_Ok in H as ->.
    unfold raw_set_option. rewrite server_config_not_default.
    unfold cp_has_section in Hserver.
    rewrite server_config_not_default in Hserver. cbn [orb] in Hserver.
    destruct (sect_get (cp_sections config_file) "SERVER_CONFIG")
      as [d|] eqn:Hd; [|discriminate].
    split; [|split].
    + intros section k Hne.
      destruct (decide (section = DEFAULTSECT)) as [->|Hdef]; [done|].
      rewrite !(raw_get_inherit _ section) by done.
      cbn [cp_sections cp_defaults].
      destruct (decide (section = "SERVER_CONFIG")) as [->|Hs].
      * rewrite sect_get_set_eq, Hd, od_get_set_ne; [done|].
        intros ->. by apply Hne.
      * by rewrite sect_get_set_ne.
    + intros section. unfold cp_has_section. cbn [cp_sections].
      destruct (String.eqb section DEFAULTSECT); [done|]. cbn [orb].
      destruct (decide (section = "SERVER_CONFIG")) as [->|Hs].
      * by rewrite sect_get_set_eq.
      * by rewrite sect_get_set_ne.
    + unfold percent_free_parser. cbn [cp_defaults cp_sections].
      intros H Hr. apply andb_true_iff in H as [Hdef Hs].
      rewrite Hdef. cbn [andb]. apply percent_free_sect_set; [done|].
      apply percent_free_dict_set; [|done].
      by apply (percent_free_sect_get _ _ _ Hs Hd).
  - intros H. apply cp_set_section_Ok in H as ->.
    split; [|split].
    + intros section k Hne. unfold raw_set_section.
      rewrite server_config_not_default.
      destruct (decide (section = DEFAULTSECT)) as [->|Hdef]; [done|].
      rewrite !(raw_get_inherit _ section) by done.
      cbn [cp_sections cp_defaults].
      destruct (decide (section = "SERVER_CONFIG")) as [->|Hs].
      * rewrite sect_get_set_eq. unfold cp_has_section in Hserver.
        rewrite server_config_not_default in Hserver. cbn [orb] in Hserver.
        destruct (sect_get (cp_sections config_file) "SERVER_CONFIG");
          [discriminate|].
        cbn [od_get]. destruct (String.eqb k "SECRET_KEY") eqn:Ek; [|done].
        apply String.eqb_eq in Ek as ->. by destruct Hne.
      * by rewrite sect_get_set_ne.
    + intros section Hsec. rewrite assign_has_section. by rewrite Hsec.
    + intros H Hr. apply percent_free_raw_set_section; [done|].
      unfold percent_free_dict. cbn [forallb snd]. by rewrite Hr.
Qed.

(** In a state without [%] the secret in place can always be read. *)
Lemma existing_secret_key_free config_file :
  percent_free_parser config_file = true ->
  exists existing, existing_secret_key config_file = Ok existing.
Proof.
  intros H. unfold existing_secret_key.
  destruct (cp_has_section _ _ && cp_has_option _ _ _)%bool eqn:E;
    [|by eexists].
  apply andb_true_iff in E as [Hsec Hopt].
  unfold cp_has_option in Hopt. rewrite Hsec in Hopt. unfold od_mem in Hopt.
  rewrite cp_get_free by done. unfold raw_get.
  destruct (od_get _ _); [by eexists|discriminate].
Qed.

Section WriterFacts.
Variable resolve : string -> string.
Variable cp_read : string -> result ConfigParser.
Variable cp_write : ConfigParser -> string.
Variable CONFIG_DEFAULTS : list (string * ConfigDefaultDict).

(** One turn of the loop over the assignments, on a state and a value
    without [%]: the section takes the options it showed, with the
    value under the key. *)
Lemma set_up_sections_step key val rest config_file section :
  percent_free_parser config_file = true -> percent_free val = true ->
  find_section CONFIG_DEFAULTS key = Ok section ->
  set_up_sections CONFIG_DEFAULTS ((key, val) :: rest) config_file
  = set_up_sections CONFIG_DEFAULTS rest
      (raw_set_section config_file section
         (od_set (if cp_has_section config_file section
                  then raw_options config_file section else []) key val))
  /\ percent_free_parser
       (raw_set_section config_file section
          (od_set (if cp_has_section config_file section
                   then raw_options config_file section else []) key val))
     = true.
Proof.
  intros Hcf Hval Hs. cbn [set_up_sections]. rewrite Hs. cbn [rbind].
  assert (Hex : (if cp_has_section config_file section
                 then cp_section_dict config_file section else Ok [])
                = Ok (if cp_has_section config_file section
                      then raw_options config_file section else [])).
  { destruct (cp_has_section config_file section); [|done].
    by apply cp_section_dict_free. }
  assert (Hfree : percent_free_dict
                    (od_set (if cp_has_section config_file section
                             then raw_options config_file section else [])
                            key val) = true).
  { apply percent_free_dict_set; [|done].
    destruct (cp_has_section config_file section); [|done].
    by apply percent_free_raw_options. }
  rewrite Hex. cbn [rbind]. rewrite cp_set_section_free by done.
  split; [done|]. by apply percent_free_raw_set_section.
Qed.

(** The loop over the assignments, on a state and values without [%]:
    it returns when every key is declared; each key then shows, in the
    section that declares it, the value assigned to it last; the options
    that are not assigned are as they were; no section is lost. *)
Lemma set_up_sections_spec (config : odict) config_file :
  percent_free_parser config_file = true ->
  percent_free_dict config = true ->
  Forall (fun kv => is_Ok (find_section CONFIG_DEFAULTS (fst kv)) = true)
         config ->
  exists final,
    set_up_sections CONFIG_DEFAULTS config config_file = Ok final
    /\ percent_free_parser final = true
    /\ (forall key val,
           od_get (reverse config) key = Some val ->
           exists section,
             find_section CONFIG_DEFAULTS key = Ok section
             /\ cp_has_section final section = true
             /\ raw_get final section key = Some val)
    /\ (forall section k,
           k ∉ map fst config ->
           raw_get final section k = raw_get config_file section k)
    /\ (forall section,
           cp_has_section config_file section = true ->
           cp_has_section final section = true).
Proof.
  revert config_file.
  induction config as [|[key val] config IH]; intros config_file Hcf Hc Hd.
  - exists config_file. by repeat split.
  - apply percent_free_dict_cons in Hc as [Hval Hc].
    apply Forall_cons in Hd as [Hkey Hd]. cbn [fst] in Hkey.
    destruct (find_section CONFIG_DEFAULTS key) as [section|e] eqn:Hs;
      [|discriminate].
    destruct (set_up_sections_step key val config config_file section
                Hcf Hval Hs) as [Hstep Hfree].
    destruct (IH _ Hfree Hc Hd)
      as (final & Hfinal & Hff & Hset & Hframe & Hsec).
    exists final. rewrite Hstep.
    split; [done|]. split; [done|]. split; [|split].
    + intros key' val' Hlast. rewrite reverse_cons, od_get_app in Hlast.
      destruct (od_get (reverse config) key') as [v|] eqn:Hrest.
      * injection Hlast as ->. by apply Hset.
      * cbn [od_get] in Hlast.
        destruct (String.eqb key' key) eqn:E; [|discriminate].
        apply String.eqb_eq in E as ->. injection Hlast as <-.
        exists section. split; [done|]. split.
        -- apply Hsec. rewrite assign_has_section.
           by rewrite String.eqb_refl, orb_true_r.
        -- rewrite Hframe.
           ++ apply assign_get_eq.
           ++ apply od_get_None_keys in Hrest.
              intros Hin. apply Hrest.
              rewrite <- (reverse_involutive config) in Hin.
              apply list_elem_of_fmap in Hin as (kv & -> & Hin).
              rewrite elem_of_reverse in Hin.
              apply list_elem_of_fmap. by exists kv.
    + intros name k Hk. cbn [map fst] in Hk.
      apply not_elem_of_cons in Hk as [Hne Hk].
      rewrite Hframe by done. by apply assign_get_ne.
    + intros name Hname. apply Hsec. rewrite assign_has_section.
      by rewrite Hname.
Qed.

(** X12: what a write puts in the config file, where neither the file
    nor the values assigned nor the secret drawn hold a [%] and every
    assigned key is declared by a section.  The first stage of
    [write_config_file] then succeeds, and the file holds the print of a
    parser state in which every assigned key has, in the section that
    declares it, the value assigned to it last (the secret key of the
    server section apart, which the block on the secret may replace);
    every option that the file had and that is not assigned reads as it
    did, and so is every section there. *)
Theorem written_file_holds_the_assignments
    (config : odict) out_dir random_secret_key w before :
  cp_read (starting_text resolve out_dir w) = Ok before ->
  percent_free_parser before = true ->
  percent_free_dict config = true ->
  percent_free random_secret_key = true ->
  Forall (fun kv => is_Ok (find_section CONFIG_DEFAULTS (fst kv)) = true)
         config ->
  exists written w1,
    write_new_file resolve cp_read cp_write CONFIG_DEFAULTS
                   config out_dir random_secret_key w = (Ok written, w1)
    /\ files w1 !! config_file_path resolve out_dir w
       = Some (cp_write written)
    /\ (forall key val,
           od_get (reverse config) key = Some val ->
           exists section,
             find_section CONFIG_DEFAULTS key = Ok section
             /\ cp_has_section written section = true
             /\ ((section, key) <> ("SERVER_CONFIG", "SECRET_KEY") ->
                 cp_get written section key = Ok val))
    /\ (forall section k,
           cp_has_section before section = true ->
           k ∉ map fst config ->
           (section, k) <> ("SERVER_CONFIG", "SECRET_KEY") ->
           cp_has_section written section = true
           /\ cp_get written section k = cp_get before section k).
Proof.
  intros Hread Hbefore Hconfig Hr Hdecl.
  destruct (set_up_sections_spec config before Hbefore Hconfig Hdecl)
    as (cf1 & Hset & Hfree1 & Hlast & Hframe & Hsec).
  destruct (existing_secret_key_free cf1 Hfree1) as [existing Hexisting].
  pose proof (ensure_secret_key_cases random_secret_key cf1 Hr) as Hcases.
  rewrite Hexisting in Hcases.
  assert (Hensure : exists written,
            ensure_secret_key random_secret_key cf1 = Ok written).
  { destruct (needs_secret existing).
    - destruct Hcases as (final & Hf & _). by exists final.
    - by exists cf1. }
  destruct Hensure as [written Hwritten].
  destruct (ensure_secret_key_frame _ _ _ Hwritten)
    as (Hsame & Hkept & Hfree2).
  specialize (Hfree2 Hfree1 Hr).
  exists written. eexists. split.
  { rewrite write_new_file_unfold, Hread, Hset. cbn [rbind].
    rewrite Hwritten. reflexivity. }
  split; [apply lookup_insert_eq|]. split.
  - intros key val Hkv.
    destruct (Hlast key val Hkv) as (section & Hf & Hhas & Hget).
    exists section. split; [done|]. split; [by apply Hkept|].
    intros Hne. rewrite cp_get_free by done.
    by rewrite Hsame, Hget.
  - intros section k Hhas Hk Hne. split; [by apply Hkept, Hsec|].
    rewrite !cp_get_free by done. by rewrite Hsame, Hframe.
Qed.
End WriterFacts.

(** ** The tables of the module: names *)

Lemma real_keys_canonical host :
  forallb (fun key =>
             String.eqb (get_real_name (Tables.CONFIG_DEFAULTS host) key) key
             && String.eqb (PyStr.upper key) key)%bool
          (map fst (all_declarations (Tables.CONFIG_DEFAULTS host)))
  = true.
Proof. vm_compute. reflexivity. Qed.

Lemma real_alias_targets_canonical host :
  forallb (fun ak =>
             String.eqb (get_real_name (Tables.CONFIG_DEFAULTS host) (snd ak))
                        (snd ak))
          (alias_pairs (Tables.CONFIG_DEFAULTS host))
  = true.
Proof. vm_compute. reflexivity. Qed.

Lemma user_config_canonical host key :
  key ∈ USER_CONFIG (Tables.CONFIG_DEFAULTS host) ->
  get_real_name (Tables.CONFIG_DEFAULTS host) key = key
  /\ PyStr.upper key = key.
Proof.
  unfold USER_CONFIG. rewrite elem_of_list_to_set. intros Hin.
  pose proof (real_keys_canonical host) as H.
  rewrite forallb_forall in H. apply list_elem_of_In, H in Hin.
  apply andb_true_iff in Hin as [H1 H2].
  by apply String.eqb_eq in H1, H2.
Qed.

Lemma is_ascii_app a b :
  PyStr.is_ascii (a ++ b) = (PyStr.is_ascii a && PyStr.is_ascii b)%bool.
Proof.
  induction a as [|c a IH]; [by rewrite app_nil_str|].
  rewrite app_cons_str. cbn [PyStr.is_ascii]. by rewrite IH, andb_assoc.
Qed.

Lemma is_ascii_upper s :
  PyStr.is_ascii s = true -> PyStr.is_ascii (PyStr.upper s) = true.
Proof.
  induction s as [|c s IH]; [done|]. cbn [PyStr.is_ascii PyStr.upper].
  intros H. apply andb_true_iff in H as [Hc Hs]. rewrite (IH Hs), andb_true_r.
  revert Hc. by destruct c as [[] [] [] [] [] [] [] []].
Qed.

Lemma is_ascii_strip s :
  PyStr.is_ascii s = true -> PyStr.is_ascii (PyStr.strip s) = true.
Proof.
  destruct (strip_spec s) as (p & q & Hs & _). intros H.
  rewrite Hs, !is_ascii_app in H.
  apply andb_true_iff in H as [_ H]. by apply andb_true_iff in H as [H _].
Qed.

Lemma real_alias_targets_ascii host :
  forallb (fun ak => PyStr.is_ascii (snd ak))
          (alias_pairs (Tables.CONFIG_DEFAULTS host))
  = true.
Proof. vm_compute. reflexivity. Qed.

(** X13: [get_real_name] on the tables of the module is idempotent on
    ASCII strings: the name it returns, the key an alias stands for or
    the upper-cased and trimmed string itself, is an ASCII string, and
    is returned as it is. *)
Theorem get_real_name_idempotent host key :
  PyStr.is_ascii key = true ->
  PyStr.is_ascii (get_real_name (Tables.CONFIG_DEFAULTS host) key) = true
  /\ get_real_name (Tables.CONFIG_DEFAULTS host)
                   (get_real_name (Tables.CONFIG_DEFAULTS host) key)
     = get_real_name (Tables.CONFIG_DEFAULTS host) key.
Proof.
  intros Hascii. unfold get_real_name at 1 3 4.
  destruct (CONFIG_ALIASES _ !! _) as [real|] eqn:Ha.
  - unfold CONFIG_ALIASES in Ha.
    apply fold_insert_pairs in Ha as [Ha|Ha]; [|by rewrite lookup_empty in Ha].
    apply list_elem_of_In in Ha. split.
    + pose proof (real_alias_targets_ascii host) as H.
      rewrite forallb_forall in H. exact (H _ Ha).
    + pose proof (real_alias_targets_canonical host) as H.
      rewrite forallb_forall in H. apply H in Ha.
      by apply String.eqb_eq in Ha.
  - cbn [default]. split.
    + by apply is_ascii_strip, is_ascii_upper.
    + unfold get_real_name.
      by rewrite upper_strip, upper_idempotent, strip_idempotent, Ha.
Qed.

(** X14: the writer takes canonical names only: a key for which the
    lookup of the section succeeds on the tables of the module is
    upper-case and is its own real name, so that an alias, or a key in
    lower case, raises [IndexError] in [write_config_file] although
    [load_config_val] reads the one and [load_config_file] the other. *)
Theorem written_keys_are_canonical host key section :
  find_section (Tables.CONFIG_DEFAULTS host) key = Ok section ->
  PyStr.upper key = key
  /\ get_real_name (Tables.CONFIG_DEFAULTS host) key = key
  /\ CONFIG_ALIASES (Tables.CONFIG_DEFAULTS host) !! key = None.
Proof.
  intros H.
  assert (Hin : key ∈ USER_CONFIG (Tables.CONFIG_DEFAULTS host)).
  { destruct (decide (key ∈ USER_CONFIG (Tables.CONFIG_DEFAULTS host)))
      as [Hin|Hout]; [done|].
    rewrite user_config_elem in Hout.
    rewrite find_section_undeclared in H; [discriminate|].
    apply Forall_forall. intros s Hs.
    destruct (declares (snd s) key) eqn:Hd; [|done].
    exfalso. apply Hout. by exists s. }
  destruct (user_config_canonical host key Hin) as [Hreal Hup].
  split; [done|]. split; [done|].
  destruct (CONFIG_ALIASES _ !! key) as [real|] eqn:Ha; [|done].
  exfalso. unfold CONFIG_ALIASES in Ha.
  apply fold_insert_pairs in Ha as [Ha|Ha]; [|by rewrite lookup_empty in Ha].
  revert Ha. generalize real.
  assert (Hall :
    forallb (fun ak => negb (PyStr.mem (fst ak)
                (map fst (all_declarations (Tables.CONFIG_DEFAULTS host)))))
            (alias_pairs (Tables.CONFIG_DEFAULTS host)) = true)
    by (vm_compute; reflexivity).
  intros real' Ha. rewrite forallb_forall in Hall.
  apply list_elem_of_In, Hall in Ha. cbn [fst] in Ha.
  apply negb_true_iff in Ha. unfold PyStr.mem in Ha.
  assert (Hex : existsb (String.eqb key)
                  (map fst (all_declarations (Tables.CONFIG_DEFAULTS host)))
                = true).
  { apply existsb_exists. exists key. split; [|apply String.eqb_refl].
    apply list_elem_of_In. unfold USER_CONFIG in Hin.
    by rewrite elem_of_list_to_set in Hin. }
  congruence.
Qed.

(** ** The secret key *)

(** X15: a secret key that is in the file, not empty and not a
    placeholder, is never replaced: the block on the secret leaves the
    parser state as it is, and so the block is idempotent for any two
    draws of which the first is a usable secret, one that is not empty
    and holds neither a placeholder nor a [%]. *)
Theorem valid_secret_is_kept random_secret_key another config_file :
  (has_valid_secret config_file ->
   ensure_secret_key random_secret_key config_file = Ok config_file)
  /\ (random_secret_key <> EmptyString ->
      PyStr.contains placeholder random_secret_key = false ->
      percent_free random_secret_key = true ->
      rbind (ensure_secret_key random_secret_key config_file)
            (ensure_secret_key another)
      = ensure_secret_key random_secret_key config_file).
Proof.
  assert (Hkeep : forall r cf,
             has_valid_secret cf -> ensure_secret_key r cf = Ok cf).
  { intros r cf Hvalid.
    destruct (valid_secret_needs_none cf Hvalid) as (k & Hk & Hneeds).
    unfold ensure_secret_key. rewrite Hk. cbn [rbind]. by rewrite Hneeds. }
  split; [apply Hkeep|].
  intros Hne Hph Hfree.
  pose proof (ensure_secret_key_cases random_secret_key config_file Hfree)
    as Hcases.
  destruct (ensure_secret_key random_secret_key config_file)
    as [final|e] eqn:Hfinal; [|done].
  cbn [rbind]. apply Hkeep.
  destruct (existing_secret_key config_file) as [existing|e] eqn:He;
    [|discriminate].
  destruct (needs_secret existing) eqn:Hneeds.
  - destruct Hcases as (final' & [= <-] & Hsec & Hget).
    split; [done|]. by exists random_secret_key.
  - injection Hcases as <-. by apply (existing_secret_key_valid _ existing).
Qed.

(** ** What a write returns *)

Lemma requested_lookup (config : odict) (CONFIG out : ConfigDict) K :
  fold_left
    (fun out kv =>
       <[PyStr.upper (fst kv) :=
           default PNone (CONFIG !! PyStr.upper (fst kv))]> out)
    config out !! K
  = if decide (K ∈ map (fun kv => PyStr.upper (fst kv)) config)
    then Some (default PNone (CONFIG !! K))
    else out !! K.
Proof.
  revert out. induction config as [|[k v] config IH]; intros out; [done|].
  cbn [fold_left map fst]. rewrite IH.
  destruct (decide (K ∈ map _ config)) as [Hin|Hout].
  - rewrite decide_True; [done|]. by right.
  - destruct (decide (K = PyStr.upper k)) as [->|Hne].
    + rewrite decide_True by left. by rewrite lookup_insert_eq.
    + rewrite decide_False.
      * by rewrite lookup_insert_ne.
      * intros Hin. by apply elem_of_cons in Hin as [?|?].
Qed.

Section ReturnFacts.
Variable host : Host.
Variable resolve : string -> string.
Variable cp_read : string -> result ConfigParser.
Variable cp_write : ConfigParser -> string.

(** X16: what a write returns, on the tables of the module.  When the
    first stage of [write_config_file] succeeds and the new file
    resolves, the call returns a dict whose keys are the assigned keys,
    each with the value it has in the configuration resolved from the
    new file and the environment.  Every assigned key is a key of that
    configuration, so that [CONFIG.get] never falls back on its default;
    the value itself may be [None], as that of [CHROME_USER_DATA_DIR] is
    once the empty string is assigned to it. *)
Theorem write_returns_the_resolved_values
    config out_dir random_secret_key w written w1 CONFIG :
  write_new_file resolve cp_read cp_write (Tables.CONFIG_DEFAULTS host)
                 config out_dir random_secret_key w = (Ok written, w1) ->
  load_all_config resolve cp_read (Tables.CONFIG_DEFAULTS host)
                  (Tables.DERIVED_CONFIG_DEFAULTS host) w1 = Ok CONFIG ->
  exists applied : ConfigDict,
    write_config_file resolve cp_read cp_write (Tables.CONFIG_DEFAULTS host)
                      (Tables.DERIVED_CONFIG_DEFAULTS host)
                      config out_dir random_secret_key w
    = (Ok applied, w1)
    /\ dom applied = list_to_set (map fst config)
    /\ forall key, key ∈ map fst config ->
         exists v, CONFIG !! key = Some v /\ applied !! key = Some v.
Proof.
  intros Hnew Hload.
  exists (requested config CONFIG).
  rewrite write_config_file_unfold, Hnew, Hload. split; [done|].
  assert (Hkeys : forall key, key ∈ map fst config ->
            key ∈ USER_CONFIG (Tables.CONFIG_DEFAULTS host)).
  { intros key Hin.
    destruct (decide (key ∈ USER_CONFIG (Tables.CONFIG_DEFAULTS host)))
      as [Hu|Hu]; [done|].
    exfalso. rewrite user_config_elem in Hu.
    rewrite write_new_file_unfold in Hnew.
    destruct (cp_read _) as [cf0|e]; [|discriminate].
    destruct (set_up_sections_undeclared (Tables.CONFIG_DEFAULTS host)
                config key Hin) with (config_file := cf0) as [e He].
    { apply find_section_undeclared, Forall_forall. intros s Hs.
      destruct (declares (snd s) key) eqn:Hd; [|done].
      exfalso. apply Hu. by exists s. }
    rewrite He in Hnew. discriminate. }
  assert (Hupper : map (fun kv : string * string => PyStr.upper (fst kv))
                       config = map fst config).
  { apply map_ext_in. intros [k v] Hin. cbn [fst].
    apply (user_config_canonical host), Hkeys, list_elem_of_fmap.
    exists (k, v). split; [done|]. by apply list_elem_of_In. }
  assert (Hlook : forall K, requested config CONFIG !! K
                  = if decide (K ∈ map fst config)
                    then Some (default PNone (CONFIG !! K)) else None).
  { intros K. unfold requested. rewrite requested_lookup, Hupper.
    by rewrite lookup_empty. }
  split.
  - apply set_eq. intros K. rewrite elem_of_dom, Hlook, elem_of_list_to_set.
    destruct (decide (K ∈ map fst config)); [by split; eauto|].
    split; [by intros [? ?]|done].
  - intros key Hin.
    assert (Hdom : key ∈ dom CONFIG).
    { unfold load_all_config in Hload.
      destruct (load_sections _ _ _ _ _) as [base|e] eqn:Hbase;
        [|discriminate].
      cbn [rbind] in Hload. unfold load_config in Hload.
      cbn [dict_truthy] in Hload.
      destruct (load_config_file resolve cp_read None w1) as [vars|e]
        eqn:Hf; [|discriminate].
      cbn [rbind] in Hload. apply load_config_loop_dom in Hload.
      rewrite (load_sections_one_pass _ _ _ _ _ _ Hf) in Hbase.
      apply load_config_loop_dom in Hbase.
      rewrite Hload, Hbase. apply elem_of_union_l, elem_of_union_r.
      by apply Hkeys. }
    apply elem_of_dom in Hdom as [v Hv]. exists v. split; [done|].
    rewrite Hlook, decide_True by done. by rewrite Hv.
Qed.

(** ** The tables of the module: extractors and their tools *)

Lemma and_truthy a b v :
  and_ a b = Ok v -> truthy v = true ->
  (exists x, a = Ok x /\ truthy x = true) /\ b = Ok v.
Proof.
  unfold and_. destruct a as [x|e]; [|discriminate]. cbn [rbind].
  destruct (truthy x) eqn:Tx.
  - intros H _. split; [by exists x|done].
  - intros [= <-]. congruence.
Qed.

Lemma item_Ok (c : ConfigDict) key v : item c key = Ok v -> c !! key = Some v.
Proof. unfold item. destruct (c !! key); congruence. Qed.

(** The value of a derived key in the final configuration is the value
    of its function on a snapshot that shows, for the derived keys
    declared before it, the values of the final configuration. *)
Lemma derived_value w final i key f :
  load_all_config resolve cp_read (Tables.CONFIG_DEFAULTS host)
                  (Tables.DERIVED_CONFIG_DEFAULTS host) w = Ok final ->
  Tables.DERIVED_CONFIG_DEFAULTS host !! i = Some (key, derived f) ->
  exists snapshot v,
    f snapshot = Ok v
    /\ final !! key = Some v
    /\ forall k, k ∈ map fst (take i (Tables.DERIVED_CONFIG_DEFAULTS host)) ->
                 snapshot !! k = final !! k.
Proof.
  intros H Hi. unfold load_all_config in H.
  destruct (load_sections _ _ _ _ _) as [base|e]; [|discriminate].
  cbn [rbind] in H. unfold load_config in H. cbn [dict_truthy] in H.
  destruct (load_config_file resolve cp_read None w) as [vars|e];
    [|discriminate].
  cbn [rbind] in H.
  pose proof (derived_keys_distinct host) as Hnd.
  rewrite <- (take_drop_middle _ _ _ Hi) in H, Hnd.
  destruct (load_config_loop_split _ _ _ _ _ _ _ _ Hnd H)
    as (snapshot & v & _ & Hv & Hkey & Hearlier & _).
  exists snapshot, v. rewrite load_config_val_untyped in Hv.
  by repeat split.
Qed.

(** X17: in a configuration that [load_all_config] resolves on the
    tables of the module, no extractor is on while a tool it runs on is
    off: where [SAVE_X] holds a true value, so does each [USE_Y] that
    the function of [SAVE_X] asks for. *)
Theorem no_extractor_without_its_tool w final save use v :
  load_all_config resolve cp_read (Tables.CONFIG_DEFAULTS host)
                  (Tables.DERIVED_CONFIG_DEFAULTS host) w = Ok final ->
  (save, use) ∈ gates ->
  final !! save = Some v -> truthy v = true ->
  exists u, final !! use = Some u /\ truthy u = true.
Proof.
  intros H Hin Hv Tv. unfold gates in Hin.
  repeat (apply elem_of_cons in Hin as [[= -> ->]|Hin]);
    [..|by apply elem_of_nil in Hin].
  all: match type of Hv with
       | _ !! ?key = _ =>
           let i := eval vm_compute in
                      (index_of key
                         (map fst (Tables.DERIVED_CONFIG_DEFAULTS host))) in
           destruct (derived_value w final i key _ H eq_refl)
             as (snapshot & v' & Hf & Hv' & Hsame)
       end.
  all: rewrite Hv in Hv'; injection Hv' as <-.
  all: apply and_truthy in Hf as [(x & Hx & Tx) Hb]; [|done].
  all: try (apply and_truthy in Hb as [(y & Hy & Ty) Hc]; [|done]).
  all: first
    [ exists x; split; [|exact Tx];
      rewrite <- Hsame; [exact (item_Ok _ _ _ Hx)|by_decision]
    | exists v; split; [|exact Tv];
      rewrite <- Hsame; [exact (item_Ok _ _ _ Hb)|by_decision]
    | exists v; split; [|exact Tv];
      rewrite <- Hsame; [exact (item_Ok _ _ _ Hc)|by_decision] ].
Qed.
End ReturnFacts.

(** ** What the writer leaves alone *)

Section FootprintFacts.
Variable resolve : string -> string.
Variable cp_read : string -> result ConfigParser.
Variable cp_write : ConfigParser -> string.
Variable CONFIG_DEFAULTS : list (string * ConfigDefaultDict).
Variable DERIVED_CONFIG_DEFAULTS : ConfigDefaultDict.

(** X18: the footprint of [write_config_file].  Whatever the outcome
    of a call, a value, the empty dict of a write that was rolled back
    or an exception, the environment of the process is as it was, so is
    every file other than the config file and its backup, and there is a
    config file. *)
Theorem write_touches_two_files_only
    config out_dir random_secret_key w outcome w' :
  write_config_file resolve cp_read cp_write CONFIG_DEFAULTS
                    DERIVED_CONFIG_DEFAULTS
                    config out_dir random_secret_key w = (outcome, w') ->
  environ w' = environ w
  /\ is_Some (files w' !! config_file_path resolve out_dir w)
  /\ forall p,
       p <> config_file_path resolve out_dir w ->
       p <> bak (config_file_path resolve out_dir w) ->
       files w' !! p = files w !! p.
Proof.
  rewrite write_config_file_unfold, write_new_file_unfold.
  set (path := config_file_path resolve out_dir w).
  destruct (cp_read _) as [cf0|e].
  2:{ intros [= _ <-]. cbn [environ files set_files].
      split; [done|]. split; [by rewrite lookup_insert_eq|].
      intros p Hp _. by rewrite lookup_insert_ne. }
  destruct (rbind _ _) as [cf1|e].
  2:{ intros [= _ <-]. cbn [environ files set_files]. unfold backed_up.
      fold path. split; [done|]. split.
      - rewrite lookup_insert_ne by apply bak_neq.
        by rewrite lookup_insert_eq.
      - intros p Hp Hb. by rewrite !lookup_insert_ne. }
  destruct (load_all_config _ _ _ _ _) as [CONFIG|e].
  { intros [= _ <-]. cbn [environ files set_files]. unfold backed_up.
    fold path. split; [done|]. split; [by rewrite lookup_insert_eq|].
    intros p Hp Hb. by rewrite !lookup_insert_ne. }
  cbn [files set_files]. unfold backed_up. fold path.
  rewrite lookup_insert_ne by apply neq_bak. rewrite lookup_insert_eq.
  intros [= _ <-]. cbn [environ files set_files]. split; [done|]. split.
  - rewrite lookup_delete_ne by apply bak_neq. by rewrite lookup_insert_eq.
  - intros p Hp Hb. rewrite lookup_delete_ne by done.
    by rewrite !lookup_insert_ne.
Qed.
End FootprintFacts.

(** ** More instances *)

Lemma coerce_well_typed_witness :
  (exists s p q,
     PStr "a b" = PStr s /\ "  a b   " = p ++ s ++ q
     /\ all_space p = true /\ all_space q = true
     /\ PyStr.strip s = s)
  /\ (exists n,
        PInt 30 = PInt n /\ 0 <= n < 10 ^ Z.of_nat (String.length "30")
        /\ (String.length "30" <= 4300)%nat).
Proof.
  split.
  - exact (coerce_well_typed "FOOTER_INFO" "  a b   " TStr (PStr "a b")
             eq_refl eq_refl).
  - exact (coerce_well_typed "TIMEOUT" "30" TInt (PInt 30) eq_refl eq_refl).
Defined.

Lemma load_config_loop_stops_at_first_failure_witness :
  load_config_loop
    ([("ONLY_NEW", opt TBool (PBool true))]
     ++ ("TIMEOUT", opt TInt (PInt 60))
     :: [("SECRET_KEY", opt TStr PNone)])%list
    ∅ (Some {[ "TIMEOUT" := "soon" ]}) None
  = Raise (invalid_option "TIMEOUT" "soon" "an integer").
Proof.
  apply (load_config_loop_stops_at_first_failure
           (Some {[ "TIMEOUT" := "soon" ]}) None
           [("ONLY_NEW", opt TBool (PBool true))]
           [("SECRET_KEY", opt TStr PNone)]
           "TIMEOUT" (opt TInt (PInt 60)) ∅
           {[ "ONLY_NEW" := PBool true ]}
           (invalid_option "TIMEOUT" "soon" "an integer")).
  - vm_compute. reflexivity.
  - vm_compute. reflexivity.
Defined.

Lemma load_config_binds_the_declared_keys_witness :
  dom ({[ "IS_TTY" := PBool false; "TIMEOUT" := PInt 30 ]} : ConfigDict)
  = dom ({[ "IS_TTY" := PBool false ]} : ConfigDict)
    ∪ list_to_set (map fst [("TIMEOUT", opt TInt (PInt 60))]).
Proof.
  apply (load_config_binds_the_declared_keys sample_resolve Ini.read
           [("TIMEOUT", opt TInt (PInt 60))]
           (Some {[ "IS_TTY" := PBool false ]}) None None None sample_world).
  vm_compute. reflexivity.
Defined.

Lemma load_all_config_binds_the_declared_keys_witness :
  dom sample_final
  = USER_CONFIG (Tables.CONFIG_DEFAULTS sample_host)
    ∪ list_to_set (map fst (Tables.DERIVED_CONFIG_DEFAULTS sample_host)).
Proof.
  apply (load_all_config_binds_the_declared_keys sample_resolve Ini.read
           (Tables.CONFIG_DEFAULTS sample_host)
           (Tables.DERIVED_CONFIG_DEFAULTS sample_host) sample_world).
  apply Ok_of_is_Ok. vm_compute. reflexivity.
Defined.

Lemma flatten_last_option_wins_witness :
  exists vars,
    flatten mixed_case_file = Ok vars
    /\ vars !! "TIMEOUT" = Some "45"
    /\ vars !! "timeout" = None
    /\ vars !! "FOOTER_INFO" = Some "100% free"
    /\ PyStr.upper "TIMEOUT" = "TIMEOUT".
Proof.
  edestruct (proj1 (flatten_last_option_wins mixed_case_file))
    as (vars & Hflat & Hget & Hupper & _).
  - vm_compute. reflexivity.
  - by_decision.
  - exists vars. split; [exact Hflat|].
    assert (Htimeout : vars !! "TIMEOUT" = Some "45")
      by (rewrite Hget; vm_compute; reflexivity).
    split; [exact Htimeout|].
    split; [rewrite Hget; vm_compute; reflexivity|].
    split; [rewrite Hget; vm_compute; reflexivity|].
    exact (Hupper "TIMEOUT" "45" Htimeout).
Defined.

Lemma find_section_iff_user_config_witness :
  (exists (before after : list (string * ConfigDefaultDict)) name opts,
     find_section (Tables.CONFIG_DEFAULTS sample_host) "TIMEOUT" = Ok name
     /\ Tables.CONFIG_DEFAULTS sample_host
        = (before ++ (name, opts) :: after)%list
     /\ declares opts "TIMEOUT" = true
     /\ Forall (fun no => declares (snd no) "TIMEOUT" = false) before)
  /\ find_section (Tables.CONFIG_DEFAULTS sample_host) "FETCH_WGET"
     = Raise IndexError.
Proof.
  split.
  - apply (proj1 (find_section_iff_user_config
                    (Tables.CONFIG_DEFAULTS sample_host) "TIMEOUT")).
    by_decision.
  - apply (proj2 (find_section_iff_user_config
                    (Tables.CONFIG_DEFAULTS sample_host) "FETCH_WGET")).
    by_decision.
Defined.

Lemma alias_stands_for_declared_key_witness :
  "SAVE_WGET" ∈ USER_CONFIG (Tables.CONFIG_DEFAULTS sample_host)
  /\ exists d aliases,
       ("SAVE_WGET", d) ∈ all_declarations (Tables.CONFIG_DEFAULTS sample_host)
       /\ d_aliases d = Some aliases /\ "FETCH_WGET" ∈ aliases.
Proof.
  apply (alias_stands_for_declared_key (Tables.CONFIG_DEFAULTS sample_host)
           "FETCH_WGET" "SAVE_WGET").
  vm_compute. reflexivity.
Defined.

Lemma written_file_holds_the_assignments_witness :
  write_new_file sample_resolve Ini.read Ini.write
    (Tables.CONFIG_DEFAULTS sample_host)
    [("ONLY_NEW", "False")] None sample_secret sample_world
  = (Ok sample_written, sample_new_world)
  /\ files sample_new_world !! sample_path = Some (Ini.write sample_written)
  /\ (exists section,
        find_section (Tables.CONFIG_DEFAULTS sample_host) "ONLY_NEW"
        = Ok section
        /\ cp_get sample_written section "ONLY_NEW" = Ok "False")
  /\ cp_get sample_written "GENERAL_CONFIG" "TIMEOUT"
     = cp_get sample_before "GENERAL_CONFIG" "TIMEOUT".
Proof.
  assert (Hrun :
    write_new_file sample_resolve Ini.read Ini.write
      (Tables.CONFIG_DEFAULTS sample_host)
      [("ONLY_NEW", "False")] None sample_secret sample_world
    = (Ok sample_written, sample_new_world))
    by (vm_compute; reflexivity).
  destruct (written_file_holds_the_assignments sample_resolve Ini.read
              Ini.write (Tables.CONFIG_DEFAULTS sample_host)
              [("ONLY_NEW", "False")] None sample_secret sample_world
              sample_before)
    as (written & w1 & Hnew & Hfile & Hlast & Hkeep).
  - vm_compute. reflexivity.
  - vm_compute. reflexivity.
  - reflexivity.
  - vm_compute. reflexivity.
  - apply Forall_cons_2; [vm_compute; reflexivity|apply Forall_nil_2].
  - rewrite Hrun in Hnew. injection Hnew as <- <-.
    split; [exact Hrun|]. split; [exact Hfile|]. split.
    + destruct (Hlast "ONLY_NEW" "False") as (section & Hs & _ & Hget).
      * vm_compute. reflexivity.
      * exists section. split; [exact Hs|]. apply Hget. discriminate.
    + apply (Hkeep "GENERAL_CONFIG" "TIMEOUT").
      * vm_compute. reflexivity.
      * by_decision.
      * discriminate.
Defined.

Lemma get_real_name_idempotent_witness :
  get_real_name (Tables.CONFIG_DEFAULTS sample_host) " fetch_wget "
  = "SAVE_WGET"
  /\ get_real_name (Tables.CONFIG_DEFAULTS sample_host)
       (get_real_name (Tables.CONFIG_DEFAULTS sample_host) " fetch_wget ")
     = get_real_name (Tables.CONFIG_DEFAULTS sample_host) " fetch_wget ".
Proof.
  split; [vm_compute; reflexivity|].
  exact (proj2 (get_real_name_idempotent sample_host " fetch_wget "
                  eq_refl)).
Defined.

Lemma written_keys_are_canonical_witness :
  PyStr.upper "TIMEOUT" = "TIMEOUT"
  /\ get_real_name (Tables.CONFIG_DEFAULTS sample_host) "TIMEOUT" = "TIMEOUT"
  /\ CONFIG_ALIASES (Tables.CONFIG_DEFAULTS sample_host) !! "TIMEOUT" = None.
Proof.
  apply (written_keys_are_canonical sample_host "TIMEOUT" "GENERAL_CONFIG").
  vm_compute. reflexivity.
Defined.

Lemma valid_secret_is_kept_witness :
  ensure_secret_key sample_secret sample_before = Ok sample_before
  /\ rbind (ensure_secret_key sample_secret lower_case_file)
           (ensure_secret_key "another-draw")
     = ensure_secret_key sample_secret lower_case_file
  /\ rbind (ensure_secret_key sample_secret lower_case_file)
           (fun config_file =>
              cp_get config_file "SERVER_CONFIG" "SECRET_KEY")
     = Ok sample_secret.
Proof.
  split; [|split].
  - apply (proj1 (valid_secret_is_kept sample_secret sample_secret
                    sample_before)).
    split; [vm_compute; reflexivity|].
    exists "k3y-of-the-server".
    split; [vm_compute; reflexivity|]. split; [discriminate|].
    vm_compute. reflexivity.
  - apply (proj2 (valid_secret_is_kept sample_secret "another-draw"
                    lower_case_file)).
    + discriminate.
    + vm_compute. reflexivity.
    + vm_compute. reflexivity.
  - vm_compute. reflexivity.
Defined.

Lemma write_returns_the_resolved_values_witness :
  exists applied : ConfigDict,
    sample_write_config_file [("ONLY_NEW", "False")] None sample_secret
                             sample_world
    = (Ok applied, sample_new_world)
    /\ dom applied = list_to_set (map fst [("ONLY_NEW", "False")])
    /\ exists v, sample_new_final !! "ONLY_NEW" = Some v
                 /\ applied !! "ONLY_NEW" = Some v.
Proof.
  destruct (write_returns_the_resolved_values sample_host sample_resolve
              Ini.read Ini.write [("ONLY_NEW", "False")] None sample_secret
              sample_world sample_written sample_new_world sample_new_final)
    as (applied & Hcall & Hdom & Hvalues).
  - vm_compute. reflexivity.
  - apply Ok_of_is_Ok. vm_compute. reflexivity.
  - exists applied. split; [exact Hcall|]. split; [exact Hdom|].
    apply Hvalues. by_decision.
Defined.

Lemma no_extractor_without_its_tool_witness :
  exists u, sample_final !! "USE_WGET" = Some u /\ truthy u = true.
Proof.
  apply (no_extractor_without_its_tool sample_host sample_resolve Ini.read
           sample_world sample_final "SAVE_WARC" "USE_WGET" (PBool true)).
  - apply Ok_of_is_Ok. vm_compute. reflexivity.
  - by_decision.
  - vm_compute. reflexivity.
  - reflexivity.
Defined.

Lemma write_touches_two_files_only_witness :
  environ sample_new_world = environ sample_world
  /\ is_Some (files sample_new_world
              !! config_file_path sample_resolve None sample_world)
  /\ files sample_new_world !! "/data/index.sqlite3"
     = files sample_world !! "/data/index.sqlite3".
Proof.
  destruct (write_touches_two_files_only sample_resolve Ini.read Ini.write
              (Tables.CONFIG_DEFAULTS sample_host)
              (Tables.DERIVED_CONFIG_DEFAULTS sample_host)
              [("ONLY_NEW", "False")] None sample_secret sample_world
              (Ok (requested [("ONLY_NEW", "False")] sample_new_final))
              sample_new_world)
    as (Henv & Hfile & Hrest).
  - vm_compute. reflexivity.
  - split; [exact Henv|]. split; [exact Hfile|].
    apply Hrest; vm_compute; discriminate.
Defined.

(** The empty string, assigned to [CHROME_USER_DATA_DIR], comes back as
    [None]: the derived key of that name turns it into [None]. *)
Example empty_string_comes_back_as_None :
  fst (sample_write_config_file [("CHROME_USER_DATA_DIR", EmptyString)] None
         sample_secret sample_world)
  = Ok {[ "CHROME_USER_DATA_DIR" := PNone ]}.
Proof. by_evaluation. Qed.
